(** * The financial recommendation engine: scoring model, loss combiner,
      evaluation metrics

    A shallow embedding of

    - [ml_recommendation_engine/models/transformer_model.py]
      (feature encoder, positional encoding, causal mask, prediction heads,
      [forward], [predict_step]),
    - [ml_recommendation_engine/training/lightning_module.py]
      (the four task losses and [_compute_total_loss]),
    - [ml_recommendation_engine/training/metrics.py]
      ([FinancialMetrics] and [MetricsTracker]),

    followed by the properties of the specification that concern them.

    Conventions of the embedding.

    - A float that holds data (an entry of a tensor, a weight) is a real
      number of [R]: arithmetic is exact, rounding and overflow are not
      modelled.  A float that the code can make or test for something that
      is not a number (the [0/0] of an empty or one-element reduction, a
      loss, a metric, [float("inf")], [float("-inf")], [np.isnan]) is a
      [pyfloat], which adds the two infinities and NaN to [R].
    - A Python exception is a value [Raise e] of the error monad [result].
    - A data tensor is a nested list together with the sizes that an empty
      list would hide; a parameter tensor of a layer is a function of its
      indices, with the sizes that [__init__] gives the layer.
    - A Python [dict] is an association list in insertion order. *)

From Stdlib Require Import String Ascii DecimalString.
From Stdlib Require Import Reals Lra Lia List Bool Arith ZArith.
From Stdlib Require Import Sorting.Sorted Sorting.Permutation.
Import ListNotations.

Local Open Scope R_scope.

(** ** Exceptions *)

Inductive exn : Type :=
| RuntimeError        (* torch: shapes that cannot be combined, bad [k] *)
| IndexError
| ValueError
| ZeroDivisionError
| KeyError.

Inductive result (A : Type) : Type :=
| Ok (a : A)
| Raise (e : exn).

Arguments Ok {A} a.
Arguments Raise {A} e.

Definition bind {A B : Type} (m : result A) (k : A -> result B) : result B :=
  match m with
  | Ok a => k a
  | Raise e => Raise e
  end.

Notation "x <- m ;; k" := (bind m (fun x => k))
  (at level 61, m at next level, right associativity).

Definition is_ok {A : Type} (m : result A) : bool :=
  match m with Ok _ => true | Raise _ => false end.

(** ** Floats that may not be numbers

    IEEE arithmetic on the four kinds of value, without rounding and without
    the sign of zero. *)

Inductive pyfloat : Type :=
| Fin (r : R)
| PInf
| NInf
| NaN.

Definition Rltb (x y : R) : bool := if Rlt_dec x y then true else false.
Definition Rleb (x y : R) : bool := if Rle_dec x y then true else false.
Definition Reqb (x y : R) : bool := if Req_dec_T x y then true else false.

Definition pf_isnan (a : pyfloat) : bool :=
  match a with NaN => true | _ => false end.

Definition pf_neg (a : pyfloat) : pyfloat :=
  match a with
  | Fin r => Fin (- r)
  | PInf => NInf
  | NInf => PInf
  | NaN => NaN
  end.

Definition pf_add (a b : pyfloat) : pyfloat :=
  match a, b with
  | NaN, _ | _, NaN => NaN
  | Fin x, Fin y => Fin (x + y)
  | PInf, NInf | NInf, PInf => NaN
  | PInf, _ | _, PInf => PInf
  | NInf, _ | _, NInf => NInf
  end.

Definition pf_sub (a b : pyfloat) : pyfloat := pf_add a (pf_neg b).

(** An infinity scaled by a real: its sign follows the real's, and zero
    times infinity is NaN. *)
Definition pf_scale_inf (positive : bool) (x : R) : pyfloat :=
  if Reqb x 0 then NaN
  else if Bool.eqb positive (Rltb 0 x) then PInf else NInf.

Definition pf_mul (a b : pyfloat) : pyfloat :=
  match a, b with
  | NaN, _ | _, NaN => NaN
  | Fin x, Fin y => Fin (x * y)
  | PInf, Fin y => pf_scale_inf true y
  | NInf, Fin y => pf_scale_inf false y
  | Fin x, PInf => pf_scale_inf true x
  | Fin x, NInf => pf_scale_inf false x
  | PInf, PInf | NInf, NInf => PInf
  | PInf, NInf | NInf, PInf => NInf
  end.

(** Division of floats in numpy and torch: no exception, a zero divisor
    gives an infinity or, for [0/0], NaN. *)
Definition pf_div (a b : pyfloat) : pyfloat :=
  match a, b with
  | NaN, _ | _, NaN => NaN
  | Fin x, Fin y =>
      if Reqb y 0
      then (if Reqb x 0 then NaN else if Rltb 0 x then PInf else NInf)
      else Fin (x / y)
  | Fin _, PInf | Fin _, NInf => Fin 0
  | PInf, Fin y => if Rltb y 0 then NInf else PInf
  | NInf, Fin y => if Rltb y 0 then PInf else NInf
  | _, _ => NaN
  end.

(** Comparisons: every comparison with NaN is false. *)
Definition pf_ltb (a b : pyfloat) : bool :=
  match a, b with
  | NaN, _ | _, NaN => false
  | Fin x, Fin y => Rltb x y
  | NInf, Fin _ | NInf, PInf | Fin _, PInf => true
  | _, _ => false
  end.

Definition pf_gtb (a b : pyfloat) : bool := pf_ltb b a.

Definition pf_sum (l : list pyfloat) : pyfloat := fold_left pf_add l (Fin 0).

(** [mean] of numpy and torch: the sum over the count, NaN for no element. *)
Definition pf_mean (l : list pyfloat) : pyfloat :=
  pf_div (pf_sum l) (Fin (INR (length l))).

(** ** Lists *)

Definition Rsum (l : list R) : R := fold_right Rplus 0 l.

Definition Rmean (l : list R) : pyfloat :=
  pf_div (Fin (Rsum l)) (Fin (INR (length l))).

Fixpoint mapi_from {A B : Type} (f : nat -> A -> B) (i : nat) (l : list A)
  : list B :=
  match l with
  | [] => []
  | a :: l' => f i a :: mapi_from f (S i) l'
  end.

Definition mapi {A B : Type} (f : nat -> A -> B) (l : list A) : list B :=
  mapi_from f 0%nat l.

(** Every entry of a list of results, or the first exception. *)
Fixpoint sequence {A : Type} (l : list (result A)) : result (list A) :=
  match l with
  | [] => Ok []
  | m :: l' => a <- m ;; r <- sequence l' ;; Ok (a :: r)
  end.

Definition index {A : Type} (l : list A) (i : nat) : result A :=
  match nth_error l i with
  | Some a => Ok a
  | None => Raise IndexError
  end.

(** *** Sorting by insertion

    [argsort_by le l] lists the positions of [l] in the order in which [le]
    sorts the entries.  Entries that [le] ranks alike keep the order of their
    positions (numpy and torch leave that order open). *)
Section Sorting.

Context {A : Type} (le : A -> A -> bool).

Fixpoint insert_by (x : nat * A) (l : list (nat * A)) : list (nat * A) :=
  match l with
  | [] => [x]
  | y :: l' => if le (snd x) (snd y) then x :: y :: l' else y :: insert_by x l'
  end.

Definition sort_pairs (l : list (nat * A)) : list (nat * A) :=
  fold_right insert_by [] l.

Definition enumerate (l : list A) : list (nat * A) :=
  combine (seq 0 (length l)) l.

Definition argsort_by (l : list A) : list nat :=
  map fst (sort_pairs (enumerate l)).

Definition sort_by (l : list A) : list A :=
  map snd (sort_pairs (enumerate l)).

End Sorting.

(** [np.argsort(x)] (ascending), [torch.argsort(x, descending=True)]. *)
Definition np_argsort (l : list R) : list nat := argsort_by Rleb l.
Definition np_argsort_nat (l : list nat) : list nat := argsort_by Nat.leb l.
Definition torch_argsort_desc (l : list R) : list nat :=
  argsort_by (fun a b => Rleb b a) l.

(** [np.argmax]: the first position of the largest entry; an empty sequence
    is refused. *)
Fixpoint argmax_from (best : nat) (bv : R) (i : nat) (l : list R) : nat :=
  match l with
  | [] => best
  | x :: l' => if Rltb bv x then argmax_from i x (S i) l'
               else argmax_from best bv (S i) l'
  end.

Definition np_argmax (l : list R) : result nat :=
  match l with
  | [] => Raise ValueError
  | x :: l' => Ok (argmax_from 0%nat x 1%nat l')
  end.

(** ** Dictionaries

    Insertion order is kept: assigning to a key that is present changes the
    value in place, a new key goes to the end. *)
Definition dict (V : Type) : Type := list (string * V).

Fixpoint dict_get {V : Type} (d : dict V) (k : string) : option V :=
  match d with
  | [] => None
  | (k', v) :: d' => if String.eqb k' k then Some v else dict_get d' k
  end.

Definition dict_get_default {V : Type} (d : dict V) (k : string) (dflt : V) : V :=
  match dict_get d k with Some v => v | None => dflt end.

Fixpoint dict_set {V : Type} (d : dict V) (k : string) (v : V) : dict V :=
  match d with
  | [] => [(k, v)]
  | (k', v') :: d' =>
      if String.eqb k' k then (k', v) :: d' else (k', v') :: dict_set d' k v
  end.

(** [d.update(other)] *)
Definition dict_update {V : Type} (d other : dict V) : dict V :=
  fold_left (fun acc kv => dict_set acc (fst kv) (snd kv)) other d.

Definition dict_is_empty {V : Type} (d : dict V) : bool :=
  match d with [] => true | _ => false end.

(** ** Tensors

    [tensor2] is a [rows x t2_cols] tensor, [tensor3] a
    [batch x t3_seq x t3_feat] one.  The sizes that an empty outer list would
    hide are fields, as they are in a tensor's shape. *)

Record tensor2 : Type := T2 { t2_cols : nat; t2_data : list (list R) }.

Record tensor3 : Type :=
  T3 { t3_seq : nat; t3_feat : nat; t3_data : list (list (list R)) }.

Definition t2_rows (x : tensor2) : nat := length (t2_data x).
Definition t3_batch (x : tensor3) : nat := length (t3_data x).

(** ** Layers of [torch.nn] *)

(** [nn.Linear(in_features, out_features)]: the weight is
    [out_features x in_features], the bias has [out_features] entries. *)
Record Linear : Type :=
  mkLinear { in_features : nat; out_features : nat;
             weight : nat -> nat -> R; bias : nat -> R }.

Definition linear_vec (L : Linear) (x : list R) : list R :=
  map (fun i =>
         Rsum (map (fun j => weight L i j * nth j x 0) (seq 0 (in_features L)))
         + bias L i)
      (seq 0 (out_features L)).

Definition relu (x : R) : R := Rmax 0 x.

(** The dropout sites of the model, one per [nn.Dropout] instance. *)
Inductive site : Type :=
| SitePos | SitePrice | SiteVolume | SiteTechnical | SiteFundamental
| SiteFusion | SiteRecommendation | SiteConfidence | SiteRisk | SiteRegime.

(** One pass through the model: [training] is the module's mode, [keep] the
    Bernoulli draws of the pass, per site and per entry (batch index, time
    index, feature index).  In evaluation mode dropout is the identity. *)
Record pass : Type :=
  mkPass { training : bool; keep : site -> nat -> nat -> nat -> bool }.

Definition dropout_vec (ps : pass) (s : site) (p : R) (b t : nat)
  (x : list R) : list R :=
  if training ps
  then mapi (fun j v => if keep ps s b t j then v / (1 - p) else 0) x
  else x.

Definition eval_pass : pass := mkPass false (fun _ _ _ _ => true).

(** [nn.Sequential(Linear, ReLU, Dropout(p), Linear)] on one vector. *)
Record Mlp : Type := mkMlp { fc1 : Linear; drop_p : R; fc2 : Linear }.

Definition mlp_vec (M : Mlp) (ps : pass) (s : site) (b t : nat)
  (x : list R) : list R :=
  linear_vec (fc2 M)
    (dropout_vec ps s (drop_p M) b t (map relu (linear_vec (fc1 M) x))).

(** On a [rows x cols] tensor: the matrix product of the first layer refuses
    an input whose last size is not [in_features]. *)
Definition mlp2 (M : Mlp) (ps : pass) (s : site) (x : tensor2)
  : result tensor2 :=
  if negb (t2_cols x =? in_features (fc1 M))%nat then Raise RuntimeError
  else if negb (out_features (fc1 M) =? in_features (fc2 M))%nat
  then Raise RuntimeError
  else Ok (T2 (out_features (fc2 M))
              (mapi (fun b row => mlp_vec M ps s b 0%nat row) (t2_data x))).

(** [F.softmax(x, dim=-1)] and [torch.sigmoid]. *)
Definition softmax (l : list R) : list R :=
  let s := Rsum (map exp l) in map (fun x => exp x / s) l.

Definition sigmoid (x : R) : R := 1 / (1 + exp (- x)).

Definition map2d (f : list R -> list R) (x : tensor2) (cols : nat) : tensor2 :=
  T2 cols (map f (t2_data x)).

(** ** [RiskAwareRecommendationHead] *)

Record RiskAwareRecommendationHead : Type :=
  mkHead { h_d_model : nat; h_num_assets : nat; h_num_risk_factors : nat;
           recommendation_head : Mlp; confidence_head : Mlp;
           risk_head : Mlp; regime_head : Mlp }.

(** [__init__]: the sizes of the four heads follow from the three
    construction parameters; the entries of the weights are free
    (they are initialised, then trained). *)
Definition head_init (d_model num_assets num_risk_factors : nat)
  (w : nat -> nat -> nat -> R) (b : nat -> nat -> R)
  : RiskAwareRecommendationHead :=
  let lin k i o := mkLinear i o (w k) (b k) in
  mkHead d_model num_assets num_risk_factors
    (mkMlp (lin 0%nat d_model (d_model / 2)%nat) 0.2
           (lin 1%nat (d_model / 2)%nat num_assets))
    (mkMlp (lin 2%nat d_model (d_model / 4)%nat) 0.2
           (lin 3%nat (d_model / 4)%nat 1%nat))
    (mkMlp (lin 4%nat d_model (d_model / 4)%nat) 0.2
           (lin 5%nat (d_model / 4)%nat num_risk_factors))
    (mkMlp (lin 6%nat d_model (d_model / 4)%nat) 0.2
           (lin 7%nat (d_model / 4)%nat 3%nat)).

(** The dictionary returned by the head's [forward]. *)
Record outputs : Type :=
  mkOutputs { recommendations : tensor2; confidence : tensor2;
              risk_scores : tensor2; regime_probs : tensor2;
              raw_logits : tensor2 }.

Definition head_forward (H : RiskAwareRecommendationHead) (ps : pass)
  (x : tensor2) : result outputs :=
  raw_recommendations <- mlp2 (recommendation_head H) ps SiteRecommendation x ;;
  let recs := map2d softmax raw_recommendations (t2_cols raw_recommendations) in
  conf_logit <- mlp2 (confidence_head H) ps SiteConfidence x ;;
  let conf := map2d (map sigmoid) conf_logit (t2_cols conf_logit) in
  risk_logit <- mlp2 (risk_head H) ps SiteRisk x ;;
  let risk := map2d softmax risk_logit (t2_cols risk_logit) in
  regime_logit <- mlp2 (regime_head H) ps SiteRegime x ;;
  let regime := map2d softmax regime_logit (t2_cols regime_logit) in
  Ok (mkOutputs recs conf risk regime raw_recommendations).

(** ** The engine: [FinancialFeatureEncoder] *)

Record FinancialFeatureEncoder : Type :=
  mkFeatureEncoder { fe_d_model : nat;
                     price_encoder : Mlp; volume_encoder : Mlp;
                     technical_encoder : Mlp; fundamental_encoder : Mlp;
                     fusion_layer : Linear }.

(** [__init__]: price and volume take 1 feature, technical 20, fundamental
    15; the sub-embeddings are [d_model // 4], [d_model // 4], [d_model // 2]
    and [d_model // 4] wide; the fusion layer is [Linear(d_model, d_model)]. *)
Definition feature_encoder_init (d_model : nat)
  (w : nat -> nat -> nat -> R) (b : nat -> nat -> R) : FinancialFeatureEncoder :=
  let lin k i o := mkLinear i o (w k) (b k) in
  mkFeatureEncoder d_model
    (mkMlp (lin 0%nat 1%nat (d_model / 4)%nat) 0.1
           (lin 1%nat (d_model / 4)%nat (d_model / 4)%nat))
    (mkMlp (lin 2%nat 1%nat (d_model / 4)%nat) 0.1
           (lin 3%nat (d_model / 4)%nat (d_model / 4)%nat))
    (mkMlp (lin 4%nat 20%nat (d_model / 2)%nat) 0.1
           (lin 5%nat (d_model / 2)%nat (d_model / 2)%nat))
    (mkMlp (lin 6%nat 15%nat (d_model / 4)%nat) 0.1
           (lin 7%nat (d_model / 4)%nat (d_model / 4)%nat))
    (lin 8%nat d_model d_model).

Definition mlp3 (M : Mlp) (ps : pass) (s : site) (x : tensor3)
  : result tensor3 :=
  if negb (t3_feat x =? in_features (fc1 M))%nat then Raise RuntimeError
  else if negb (out_features (fc1 M) =? in_features (fc2 M))%nat
  then Raise RuntimeError
  else Ok (T3 (t3_seq x) (out_features (fc2 M))
              (mapi (fun b sample => mapi (fun t v => mlp_vec M ps s b t v) sample)
                    (t3_data x))).

Definition map2 {A B C : Type} (f : A -> B -> C) (l1 : list A) (l2 : list B)
  : list C :=
  map (fun p => f (fst p) (snd p)) (combine l1 l2).

(** [torch.cat([x, y], dim=-1)]: the other sizes must agree. *)
Definition cat_last (x y : tensor3) : result tensor3 :=
  if (t3_batch x =? t3_batch y)%nat && (t3_seq x =? t3_seq y)%nat
  then Ok (T3 (t3_seq x) (t3_feat x + t3_feat y)
              (map2 (map2 (@app R)) (t3_data x) (t3_data y)))
  else Raise RuntimeError.

(** [nn.Sequential(Linear(d_model, d_model), ReLU, Dropout(0.1))] *)
Definition fusion_forward (L : Linear) (ps : pass) (x : tensor3)
  : result tensor3 :=
  if negb (t3_feat x =? in_features L)%nat then Raise RuntimeError
  else Ok (T3 (t3_seq x) (out_features L)
              (mapi (fun b sample =>
                       mapi (fun t v =>
                               dropout_vec ps SiteFusion 0.1 b t
                                 (map relu (linear_vec L v)))
                            sample)
                    (t3_data x))).

Definition feature_encoder_forward (F : FinancialFeatureEncoder) (ps : pass)
  (price_data volume_data technical_data fundamental_data : tensor3)
  : result tensor3 :=
  price_emb <- mlp3 (price_encoder F) ps SitePrice price_data ;;
  volume_emb <- mlp3 (volume_encoder F) ps SiteVolume volume_data ;;
  tech_emb <- mlp3 (technical_encoder F) ps SiteTechnical technical_data ;;
  fund_emb <- mlp3 (fundamental_encoder F) ps SiteFundamental fundamental_data ;;
  pv <- cat_last price_emb volume_emb ;;
  pvt <- cat_last pv tech_emb ;;
  combined_features <- cat_last pvt fund_emb ;;
  fusion_forward (fusion_layer F) ps combined_features.

(** ** [PositionalEncoding]

    The buffer [pe] has shape [max_len x 1 x d_model].  [forward] adds
    [pe[: x.size(0)]] to [x]; with [x] batch-first the slice runs over the
    batch and the sum broadcasts it over the time steps. *)
Record PositionalEncoding : Type :=
  mkPositionalEncoding { pe_max_len : nat; pe_d_model : nat;
                         pe : nat -> nat -> R; pe_dropout : R }.

Definition pe_entry (d_model pos j : nat) : R :=
  let div_term := exp (INR (2 * (j / 2)) * (- ln 10000 / INR d_model)) in
  if Nat.even j then sin (INR pos * div_term) else cos (INR pos * div_term).

Definition positional_encoding_init (d_model : nat) (dropout : R)
  (max_len : nat) : PositionalEncoding :=
  mkPositionalEncoding max_len d_model (pe_entry d_model) dropout.

(** The size two sizes broadcast to, when they can. *)
Definition broadcast_dim (a b : nat) : option nat :=
  if (a =? b)%nat then Some a
  else if (a =? 1)%nat then Some b
  else if (b =? 1)%nat then Some a
  else None.

Definition bidx (size i : nat) : nat := if (size =? 1)%nat then 0%nat else i.

Definition positional_encoding_forward (P : PositionalEncoding) (ps : pass)
  (x : tensor3) : result tensor3 :=
  let rows := Nat.min (t3_batch x) (pe_max_len P) in
  match broadcast_dim (t3_batch x) rows,
        broadcast_dim (t3_feat x) (pe_d_model P) with
  | Some nb, Some nf =>
      Ok (T3 (t3_seq x) nf
            (map (fun b =>
                    map (fun t =>
                           dropout_vec ps SitePos (pe_dropout P) b t
                             (map (fun j =>
                                     nth (bidx (t3_feat x) j)
                                       (nth t (nth (bidx (t3_batch x) b)
                                                 (t3_data x) []) []) 0
                                     + pe P (bidx rows b) (bidx (pe_d_model P) j))
                                  (seq 0 nf)))
                        (seq 0 (t3_seq x)))
                 (seq 0 nb)))
  | _, _ => Raise RuntimeError
  end.

(** ** The causal mask and the encoder stack *)

(** [torch.ones(rows, cols)]. *)
Definition torch_ones (rows cols : nat) : list (list pyfloat) :=
  repeat (repeat (Fin 1) cols) rows.

(** [torch.triu(m, diagonal)]: the entries [(i, j)] with
    [j - i >= diagonal] are kept, the others are 0. *)
Definition torch_triu (m : list (list pyfloat)) (diagonal : Z)
  : list (list pyfloat) :=
  mapi (fun i row =>
          mapi (fun j v =>
                  if (diagonal <=? Z.of_nat j - Z.of_nat i)%Z
                  then v else Fin 0)
               row)
       m.

(** [a == b] on floats: NaN equals nothing. *)
Definition pf_eqb (a b : pyfloat) : bool :=
  match a, b with
  | Fin x, Fin y => Reqb x y
  | PInf, PInf | NInf, NInf => true
  | _, _ => false
  end.

(** [m == c], entry by entry. *)
Definition tensor_eq_scalar (m : list (list pyfloat)) (c : pyfloat)
  : list (list bool) :=
  map (map (fun v => pf_eqb v c)) m.

(** [m.masked_fill(mask, value)] for a mask of the shape of [m]. *)
Definition masked_fill (m : list (list pyfloat)) (mask : list (list bool))
  (value : pyfloat) : list (list pyfloat) :=
  map2 (map2 (fun v (hit : bool) => if hit then value else v)) m mask.

(** [create_attention_mask]: the ones strictly above the diagonal are
    replaced by [-inf]. *)
Definition create_attention_mask (sequence_length : nat) : list (list pyfloat) :=
  let mask := torch_triu (torch_ones sequence_length sequence_length) 1 in
  masked_fill mask (tensor_eq_scalar mask (Fin 1)) NInf.

(** A layer of [nn.TransformerEncoder] (attention, normalisation and feed
    forward of the torch library): it may refuse its input and it keeps the
    shape, so it is a function to the entries of the result. *)
Definition encoder_layer : Type :=
  tensor3 -> list (list pyfloat) -> result (list (list (list R))).

Fixpoint transformer_encoder_forward (layers : list encoder_layer)
  (src : tensor3) (mask : list (list pyfloat)) : result tensor3 :=
  match layers with
  | [] => Ok src
  | layer :: rest =>
      d <- layer src mask ;;
      transformer_encoder_forward rest (T3 (t3_seq src) (t3_feat src) d) mask
  end.

(** [x[:, -1, :]] *)
Definition last_time_step (x : tensor3) : result tensor2 :=
  if (t3_seq x =? 0)%nat then Raise IndexError
  else Ok (T2 (t3_feat x) (map (fun sample => last sample []) (t3_data x))).

(** ** [FinancialTransformerRecommendationEngine] *)

Record Engine : Type :=
  mkEngine { e_d_model : nat; e_num_assets : nat; e_sequence_length : nat;
             e_feature_encoder : FinancialFeatureEncoder;
             e_positional_encoding : PositionalEncoding;
             e_transformer_encoder : list encoder_layer;
             e_recommendation_head : RiskAwareRecommendationHead }.

(** [__init__], from the construction parameters that [forward] depends on.
    [layers] are the [num_encoder_layers] layers of the stack; [w] and [b]
    are the entries of the weights and biases of the linear layers. *)
Definition engine_init (d_model : nat) (layers : list encoder_layer)
  (dropout : R) (num_assets sequence_length num_risk_factors : nat)
  (w : nat -> nat -> nat -> R) (b : nat -> nat -> R) : Engine :=
  mkEngine d_model num_assets sequence_length
    (feature_encoder_init d_model w b)
    (positional_encoding_init d_model dropout 5000%nat)
    layers
    (head_init d_model num_assets num_risk_factors
       (fun k => w (9 + k)%nat) (fun k => b (9 + k)%nat)).

(** What a pass leaves behind besides its result: the masks it built. *)
Inductive event : Type :=
| MaskCreated (sequence_length : nat) (mask : list (list pyfloat)).

Definition traced (A : Type) : Type := (list event * result A)%type.

Definition tlift {A : Type} (m : result A) : traced A := ([], m).

Definition tbind {A B : Type} (m : traced A) (k : A -> traced B) : traced B :=
  match m with
  | (log, Ok a) => let (log', r) := k a in (log ++ log', r)
  | (log, Raise e) => (log, Raise e)
  end.

Notation "x <~ m ;; k" := (tbind m (fun x => k))
  (at level 61, m at next level, right associativity).

Definition traced_mask (sequence_length : nat) : traced (list (list pyfloat)) :=
  let mask := create_attention_mask sequence_length in
  ([MaskCreated sequence_length mask], Ok mask).

Definition forward_traced (E : Engine) (ps : pass)
  (price_data volume_data technical_data fundamental_data : tensor3)
  : traced outputs :=
  let seq_len := t3_seq price_data in
  encoded_features <~ tlift (feature_encoder_forward (e_feature_encoder E) ps
                               price_data volume_data technical_data
                               fundamental_data) ;;
  src <~ tlift (positional_encoding_forward (e_positional_encoding E) ps
                  encoded_features) ;;
  attention_mask <~ traced_mask seq_len ;;
  transformer_output <~ tlift (transformer_encoder_forward
                                 (e_transformer_encoder E) src attention_mask) ;;
  final_representation <~ tlift (last_time_step transformer_output) ;;
  tlift (head_forward (e_recommendation_head E) ps final_representation).

Definition forward (E : Engine) (ps : pass)
  (price_data volume_data technical_data fundamental_data : tensor3)
  : result outputs :=
  snd (forward_traced E ps price_data volume_data technical_data
         fundamental_data).

(** ** [predict_step] *)

(** [torch.topk(x, k, dim=-1)]: the [k] largest entries of every row, largest
    first, and their positions; [k] must lie between 0 and the row size. *)
Definition torch_topk (x : tensor2) (k : Z) : result (tensor2 * list (list nat)) :=
  if (k <? 0)%Z || (Z.of_nat (t2_cols x) <? k)%Z then Raise RuntimeError
  else
    let n := Z.to_nat k in
    Ok (T2 n (map (fun row => firstn n (sort_by (fun a b => Rleb b a) row))
                  (t2_data x)),
        map (fun row => firstn n (torch_argsort_desc row)) (t2_data x)).

Record prediction : Type :=
  mkPrediction { top_k_assets : list (list nat);
                 top_k_probabilities : tensor2;
                 p_confidence : tensor2; p_risk_scores : tensor2;
                 p_regime_probs : tensor2 }.

(** [F.softmax(raw_logits / temperature, dim=-1)].  The division by a
    temperature of 0 raises nothing: it gives [inf], [-inf] or NaN at every
    entry, and the softmax of such a row is NaN at every entry.  [None] is
    that tensor, of the shape of the logits and NaN throughout. *)
Definition scaled_probabilities (temperature : R) (logits : tensor2)
  : option tensor2 :=
  if Reqb temperature 0 then None
  else Some (map2d (fun row => softmax (map (fun v => v / temperature) row))
                   logits (t2_cols logits)).

(** What [predict_step] returns: the dictionary over real probabilities,
    or, for the NaN probabilities of temperature 0, [top_k] NaN per sample
    with the three other outputs; the positions that [torch.topk] gives for
    a row of NaN are left open. *)
Inductive predicted : Type :=
| Predicted (p : prediction)
| NanPrediction (top_k : nat) (confidence risk_scores regime_probs : tensor2).

Definition predict_step (E : Engine) (ps : pass)
  (price_data volume_data technical_data fundamental_data : tensor3)
  (temperature : R) (top_k : Z) : result predicted :=
  out <- forward E ps price_data volume_data technical_data fundamental_data ;;
  match scaled_probabilities temperature (raw_logits out) with
  | Some scaled_probs =>
      tk <- torch_topk scaled_probs top_k ;;
      Ok (Predicted (mkPrediction (snd tk) (fst tk)
                       (confidence out) (risk_scores out) (regime_probs out)))
  | None =>
      if (top_k <? 0)%Z || (Z.of_nat (t2_cols (raw_logits out)) <? top_k)%Z
      then Raise RuntimeError
      else Ok (NanPrediction (Z.to_nat top_k)
                 (confidence out) (risk_scores out) (regime_probs out))
  end.

(** * The loss combiner ([FinancialLightningModule]) *)

(** A tensor of at most two dimensions as the losses read it: its two sizes
    and its entries, which may be NaN.  A one-dimensional tensor has one
    row. *)
Record view : Type :=
  mkView { v_rows : nat; v_cols : nat; v_at : nat -> nat -> pyfloat }.

Definition view_of (x : tensor2) : view :=
  mkView (t2_rows x) (t2_cols x)
         (fun i j => Fin (nth j (nth i (t2_data x) []) 0)).

Definition view_of_vector (l : list pyfloat) : view :=
  mkView 1 (length l) (fun _ j => nth j l NaN).

(** The entries of the broadcast of [x] to [nr x nc], row by row. *)
Definition bentry (x : view) (i j : nat) : pyfloat :=
  v_at x (bidx (v_rows x) i) (bidx (v_cols x) j).

Definition flat_map2 (f : pyfloat -> pyfloat -> pyfloat) (x y : view)
  (nr nc : nat) : list pyfloat :=
  flat_map (fun i => map (fun j => f (bentry x i j) (bentry y i j)) (seq 0 nc))
           (seq 0 nr).

Definition pf_square (a : pyfloat) : pyfloat := pf_mul a a.

(** [F.mse_loss(input, target)] with the default mean reduction: sizes that
    differ are broadcast, sizes that cannot be are refused. *)
Definition mse_loss (input target : view) : result pyfloat :=
  match broadcast_dim (v_rows input) (v_rows target),
        broadcast_dim (v_cols input) (v_cols target) with
  | Some nr, Some nc =>
      Ok (pf_mean (flat_map2 (fun a b => pf_square (pf_sub a b))
                             input target nr nc))
  | _, _ => Raise RuntimeError
  end.

(** [torch.mean(x, dim=-1)] and [torch.std(x, dim=-1)] of one row; the
    standard deviation divides by [n - 1]. *)
Definition torch_mean (row : list R) : pyfloat := Rmean row.

Definition torch_std (row : list R) : pyfloat :=
  match torch_mean row with
  | Fin m =>
      match pf_div (Fin (Rsum (map (fun x => (x - m) * (x - m)) row)))
                   (Fin (INR (length row) - 1)) with
      | Fin v => Fin (sqrt v)
      | other => other
      end
  | other => other
  end.

(** The difference of two index sequences, as
    [pred_ranks.float() - target_ranks.float()] broadcasts it. *)
Definition index_differences (p t : list nat) : result (list R) :=
  match broadcast_dim (length p) (length t) with
  | Some n =>
      Ok (map (fun k => INR (nth (bidx (length p) k) p 0%nat)
                        - INR (nth (bidx (length t) k) t 0%nat))
              (seq 0 n))
  | None => Raise RuntimeError
  end.

(** One turn of the loop over the batch in
    [_calculate_recommendation_loss]: the term [1 - spearman_corr] of
    sample [i]. *)
Definition ranking_term (predictions targets : tensor2) (i : nat)
  : result pyfloat :=
  pred_row <- index (t2_data predictions) i ;;
  target_row <- index (t2_data targets) i ;;
  let pred_ranks := torch_argsort_desc pred_row in
  let target_ranks := torch_argsort_desc target_row in
  let n := INR (length pred_ranks) in
  diffs <- index_differences pred_ranks target_ranks ;;
  let d_squared := Rsum (map (fun d => d * d) diffs) in
  let spearman_corr :=
    pf_sub (Fin 1) (pf_div (Fin (6 * d_squared)) (Fin (n * (n * n - 1)))) in
  Ok (pf_sub (Fin 1) spearman_corr).

Fixpoint ranking_sum (predictions targets : tensor2) (acc : pyfloat)
  (idx : list nat) : result pyfloat :=
  match idx with
  | [] => Ok acc
  | i :: rest =>
      term <- ranking_term predictions targets i ;;
      ranking_sum predictions targets (pf_add acc term) rest
  end.

Definition all_entries (x : tensor2) : list R := concat (t2_data x).

Definition _calculate_recommendation_loss (predictions targets : tensor2)
  (confidence : option tensor2) : result pyfloat :=
  mse <- mse_loss (view_of predictions) (view_of targets) ;;
  let batch_size := t2_rows predictions in
  ranking_total <- ranking_sum predictions targets (Fin 0) (seq 0 batch_size) ;;
  if (batch_size =? 0)%nat then Raise ZeroDivisionError
  else
    let ranking_loss := pf_div ranking_total (Fin (INR batch_size)) in
    let total_loss := pf_add mse (pf_mul (Fin 0.1) ranking_loss) in
    match confidence with
    | None => Ok total_loss
    | Some c =>
        let confidence_weights := map (fun v => 1.0 + 0.5 * v) (all_entries c) in
        Ok (pf_mul total_loss (Rmean confidence_weights))
    end.

(** [torch.abs(predictions - targets).mean(dim=-1, keepdim=True)] and the
    target confidence [1 / (1 + errors)]. *)
Definition _calculate_confidence_loss (confidence predictions targets : tensor2)
  : result pyfloat :=
  let p := view_of predictions in
  let t := view_of targets in
  match broadcast_dim (v_rows p) (v_rows t),
        broadcast_dim (v_cols p) (v_cols t) with
  | Some nr, Some nc =>
      let errors i :=
        pf_mean (map (fun j =>
                        match pf_sub (bentry p i j) (bentry t i j) with
                        | Fin d => Fin (Rabs d)
                        | other => other
                        end)
                     (seq 0 nc)) in
      let target_confidence :=
        mkView nr 1 (fun i _ => pf_div (Fin 1.0) (pf_add (Fin 1.0) (errors i))) in
      mse_loss (view_of confidence) target_confidence
  | _, _ => Raise RuntimeError
  end.

Definition _calculate_risk_loss (risk_scores targets : tensor2)
  : result pyfloat :=
  let target_volatility := map torch_std (t2_data targets) in
  let predicted_risk := map (fun row => Fin (Rsum row)) (t2_data risk_scores) in
  mse_loss (view_of_vector predicted_risk) (view_of_vector target_volatility).

(** [labels[mask] = v] *)
Definition masked_assign (labels : list nat) (mask : list bool) (v : nat)
  : list nat :=
  map2 (fun l (m : bool) => if m then v else l) labels mask.

(** The regime labels that [_calculate_regime_loss] infers from the
    targets. *)
Definition infer_regime_labels (targets : tensor2) : list nat :=
  let target_mean := map torch_mean (t2_data targets) in
  let target_std := map torch_std (t2_data targets) in
  let regime_labels := repeat 0%nat (t2_rows targets) in
  let bull_mask :=
    map2 (fun m s => pf_gtb m (Fin 0.001) && pf_ltb s (Fin 0.03))
         target_mean target_std in
  let regime_labels := masked_assign regime_labels bull_mask 0 in
  let bear_mask :=
    map2 (fun m s => pf_ltb m (Fin (- 0.001)) && pf_gtb s (Fin 0.02))
         target_mean target_std in
  let regime_labels := masked_assign regime_labels bear_mask 1 in
  let sideways_mask := map2 (fun b1 b2 => negb (b1 || b2)) bull_mask bear_mask in
  masked_assign regime_labels sideways_mask 2.

(** [F.cross_entropy(input, target)]: [input] holds one row of scores per
    sample, [target] one class index per sample; the loss of a sample is
    minus the log-softmax of its row at its class, the result their mean. *)
Definition cross_entropy (input : tensor2) (target : list nat) : result pyfloat :=
  if negb (t2_rows input =? length target)%nat then Raise ValueError
  else if existsb (fun c => (t2_cols input <=? c)%nat) target
  then Raise IndexError
  else Ok (Rmean (map2 (fun row c =>
                          - (nth c row 0 - ln (Rsum (map exp row))))
                       (t2_data input) target)).

Definition _calculate_regime_loss (regime_probs targets : tensor2)
  : result pyfloat :=
  cross_entropy regime_probs (infer_regime_labels targets).

(** *** [_compute_total_loss] *)

(** [s.replace(pat, rep)] for a pattern that is not empty. *)
Fixpoint replace_from (pat rep : string) (skip : nat) (s : string) : string :=
  match s with
  | EmptyString => EmptyString
  | String c s' =>
      match skip with
      | S k => replace_from pat rep k s'
      | O =>
          if String.prefix pat s
          then String.append rep
                 (replace_from pat rep (String.length pat - 1) s')
          else String c (replace_from pat rep 0 s')
      end
  end.

Definition str_replace (s pat rep : string) : string :=
  replace_from pat rep 0 s.

Definition default_loss_weights : dict R :=
  [("recommendation"%string, 1.0); ("confidence"%string, 0.3);
   ("risk"%string, 0.2); ("regime"%string, 0.1)].

(** [self.loss_weights = loss_weights or {...}] in [__init__] *)
Definition init_loss_weights (loss_weights : option (dict R)) : dict R :=
  match loss_weights with
  | Some w => if dict_is_empty w then default_loss_weights else w
  | None => default_loss_weights
  end.

(** The loop over [losses.items()]. *)
Definition weighted_total (loss_weights : dict R) (losses : dict pyfloat)
  : pyfloat :=
  fold_left
    (fun total_loss item =>
       let weight_key := str_replace (fst item) "_loss" "" in
       let weight := dict_get_default loss_weights weight_key 1.0 in
       pf_add total_loss (pf_mul (Fin weight) (snd item)))
    losses (Fin 0.0).

Definition outputs_dict (o : outputs) : dict tensor2 :=
  [("recommendations"%string, recommendations o);
   ("confidence"%string, confidence o);
   ("risk_scores"%string, risk_scores o);
   ("regime_probs"%string, regime_probs o);
   ("raw_logits"%string, raw_logits o)].

Definition _compute_total_loss (loss_weights : dict R)
  (model_outputs : dict tensor2) (targets : tensor2) : result (dict pyfloat) :=
  match dict_get model_outputs "recommendations" with
  | None => Raise KeyError
  | Some recs =>
      rec_loss <- _calculate_recommendation_loss recs targets
                    (dict_get model_outputs "confidence") ;;
      let losses := dict_set [] "recommendation_loss" rec_loss in
      losses <- match dict_get model_outputs "confidence" with
                | Some c =>
                    conf_loss <- _calculate_confidence_loss c recs targets ;;
                    Ok (dict_set losses "confidence_loss" conf_loss)
                | None => Ok losses
                end ;;
      losses <- match dict_get model_outputs "risk_scores" with
                | Some r =>
                    risk_loss <- _calculate_risk_loss r targets ;;
                    Ok (dict_set losses "risk_loss" risk_loss)
                | None => Ok losses
                end ;;
      losses <- match dict_get model_outputs "regime_probs" with
                | Some g =>
                    regime_loss <- _calculate_regime_loss g targets ;;
                    Ok (dict_set losses "regime_loss" regime_loss)
                | None => Ok losses
                end ;;
      let total_loss := weighted_total loss_weights losses in
      Ok (dict_set losses "total_loss" total_loss)
  end.

(** * The evaluation metrics ([FinancialMetrics]) *)

(** A metrics function fills the dictionary [metrics] statement by
    statement; a statement may raise, and what was assigned before stays
    assigned.  [stm] threads the dictionary and the exception. *)
Definition stm (A : Type) : Type :=
  dict pyfloat -> dict pyfloat * result A.

Definition st_ret {A : Type} (a : A) : stm A := fun m => (m, Ok a).

Definition st_lift {A : Type} (r : result A) : stm A := fun m => (m, r).

Definition st_bind {A B : Type} (c : stm A) (k : A -> stm B) : stm B :=
  fun m => match c m with
           | (m', Ok a) => k a m'
           | (m', Raise e) => (m', Raise e)
           end.

Notation "x <<- c ;; k" := (st_bind c (fun x => k))
  (at level 61, c at next level, right associativity).
Notation "c ;;; k" := (st_bind c (fun _ => k))
  (at level 61, right associativity).

(** [metrics[key] = value] *)
Definition st_assign (key : string) (value : pyfloat) : stm unit :=
  fun m => (dict_set m key value, Ok tt).

Fixpoint st_for {A : Type} (l : list A) (body : A -> stm unit) : stm unit :=
  match l with
  | [] => st_ret tt
  | a :: l' => body a ;;; st_for l' body
  end.

(** [try: body  except Exception: metrics.update(defaults)] *)
Definition try_update (body : stm unit) (defaults : dict pyfloat)
  (metrics : dict pyfloat) : dict pyfloat :=
  match body metrics with
  | (m, Ok _) => m
  | (m, Raise _) => dict_update m defaults
  end.

(** An array of numpy with one or two dimensions. *)
Inductive ndarray : Type :=
| Arr1 (entries : list pyfloat)
| Arr2 (cols : nat) (rows : list (list pyfloat)).

(** What the embedding takes as given: the scorers of scikit-learn with the
    keyword arguments of their call sites, [np.corrcoef(x, y)[0, 1]], and
    the statistics block of [calculate_financial_performance_metrics] (from
    the trading costs to the Sortino ratio), which receives the portfolio
    returns that are not NaN, the weights, the benchmark, the flag
    [trading_costs] and the two rates.  Each returns its value or raises. *)
Record numerics : Type :=
  mkNumerics {
    accuracy_score : list Z -> list Z -> result pyfloat;
    precision_score : list Z -> list Z -> result pyfloat;
    recall_score : list Z -> list Z -> result pyfloat;
    f1_score : list Z -> list Z -> result pyfloat;
    np_corrcoef : list pyfloat -> list pyfloat -> result pyfloat;
    performance_statistics :
      list pyfloat -> option ndarray -> option ndarray -> bool -> R -> R ->
      result (dict pyfloat) }.

Definition flatten (x : tensor2) : list R := concat (t2_data x).

(** [sklearn.metrics.mean_squared_error] and [mean_absolute_error]: the two
    arrays must have the same number of samples, and at least one. *)
Definition check_targets (y_true y_pred : list R) : result unit :=
  if negb (length y_true =? length y_pred)%nat then Raise ValueError
  else if (length y_true =? 0)%nat then Raise ValueError
  else Ok tt.

Definition mean_squared_error (y_true y_pred : list R) : result R :=
  _ <- check_targets y_true y_pred ;;
  Ok (Rsum (map2 (fun t p => (t - p) * (t - p)) y_true y_pred)
      / INR (length y_true)).

Definition mean_absolute_error (y_true y_pred : list R) : result R :=
  _ <- check_targets y_true y_pred ;;
  Ok (Rsum (map2 (fun t p => Rabs (t - p)) y_true y_pred)
      / INR (length y_true)).

(** [a - b] and the like on one-dimensional arrays of numpy. *)
Definition np_broadcast1 {A B : Type} (f : A -> A -> B) (dflt : A)
  (a b : list A) : result (list B) :=
  match broadcast_dim (length a) (length b) with
  | Some n => Ok (map (fun k => f (nth (bidx (length a) k) a dflt)
                                  (nth (bidx (length b) k) b dflt))
                      (seq 0 n))
  | None => Raise ValueError
  end.

(** [np.median] of one row: NaN for no entry. *)
Definition np_median (row : list R) : pyfloat :=
  let s := sort_by Rleb row in
  let n := length row in
  if (n =? 0)%nat then NaN
  else if Nat.odd n then Fin (nth (n / 2) s 0)
  else Fin ((nth (n / 2 - 1) s 0 + nth (n / 2) s 0) / 2).

Definition binarize (x : tensor2) : list Z :=
  concat (map (fun row =>
                 let med := np_median row in
                 map (fun v => if pf_gtb (Fin v) med then 1%Z else 0%Z) row)
              (t2_data x)).

Definition nan_to_zero (a : pyfloat) : pyfloat :=
  if pf_isnan a then Fin 0.0 else a.

(** [x != 0] on a float: true for NaN and the infinities. *)
Definition pf_nonzero (a : pyfloat) : bool :=
  match a with Fin r => negb (Reqb r 0) | _ => true end.

(** [np.std] (divisor [n]) of a list of reals. *)
Definition np_std (l : list R) : pyfloat :=
  match Rmean l with
  | Fin mu =>
      match Rmean (map (fun v => (v - mu) * (v - mu)) l) with
      | Fin v => Fin (sqrt v)
      | other => other
      end
  | other => other
  end.

(** [np.log]: minus infinity at 0, NaN below. *)
Definition np_log (x : R) : pyfloat :=
  if Rltb 0 x then Fin (ln x) else if Reqb x 0 then NInf else NaN.

(** *** [calculate_prediction_metrics] *)

Definition regression_defaults : dict pyfloat :=
  [("mse"%string, PInf); ("mae"%string, PInf); ("rmse"%string, PInf);
   ("r2"%string, Fin 0.0)].

Definition classification_defaults : dict pyfloat :=
  [("accuracy"%string, Fin 0.0); ("precision"%string, Fin 0.0);
   ("recall"%string, Fin 0.0); ("f1"%string, Fin 0.0)].

Definition confidence_defaults : dict pyfloat :=
  [("confidence_accuracy_corr"%string, Fin 0.0);
   ("avg_confidence"%string, Fin 0.0)].

Definition regression_block (pred_np target_np : tensor2) : stm unit :=
  let t := flatten target_np in
  let p := flatten pred_np in
  mse <<- st_lift (mean_squared_error t p) ;;
  st_assign "mse" (Fin mse) ;;;
  mae <<- st_lift (mean_absolute_error t p) ;;
  st_assign "mae" (Fin mae) ;;;
  st_assign "rmse" (Fin (sqrt mse)) ;;;
  diff <<- st_lift (np_broadcast1 Rminus 0 t p) ;;
  let ss_res := Rsum (map (fun d => d * d) diff) in
  let ss_tot :=
    match Rmean t with
    | Fin mu => Fin (Rsum (map (fun v => (v - mu) * (v - mu)) t))
    | other => other
    end in
  st_assign "r2"
    (if pf_nonzero ss_tot
     then pf_sub (Fin 1) (pf_div (Fin ss_res) ss_tot)
     else Fin 0.0).

Definition classification_block (N : numerics) (pred_np target_np : tensor2)
  : stm unit :=
  let pred_binary := binarize pred_np in
  let target_binary := binarize target_np in
  a <<- st_lift (accuracy_score N target_binary pred_binary) ;;
  st_assign "accuracy" a ;;;
  p <<- st_lift (precision_score N target_binary pred_binary) ;;
  st_assign "precision" p ;;;
  r <<- st_lift (recall_score N target_binary pred_binary) ;;
  st_assign "recall" r ;;;
  f <<- st_lift (f1_score N target_binary pred_binary) ;;
  st_assign "f1" f.

Definition confidence_block (N : numerics) (pred_np target_np : tensor2)
  (confidence : tensor2) : stm unit :=
  let conf_np := flatten confidence in
  diff <<- st_lift (np_broadcast1 Rminus 0 (flatten pred_np)
                      (flatten target_np)) ;;
  let errors := map Rabs diff in
  corr <<- st_lift (np_corrcoef N (map Fin conf_np)
                      (map (fun e => Fin (- e)) errors)) ;;
  st_assign "confidence_accuracy_corr" (nan_to_zero corr) ;;;
  st_assign "avg_confidence" (Rmean conf_np).

(** [metrics] after the first and after the second guarded block. *)
Definition after_regression (predictions targets : tensor2) : dict pyfloat :=
  try_update (regression_block predictions targets) regression_defaults [].

Definition after_classification (N : numerics) (predictions targets : tensor2)
  : dict pyfloat :=
  try_update (classification_block N predictions targets)
             classification_defaults (after_regression predictions targets).

Definition calculate_prediction_metrics (N : numerics)
  (predictions targets : tensor2) (confidence : option tensor2)
  : dict pyfloat :=
  let metrics := after_classification N predictions targets in
  match confidence with
  | Some c =>
      try_update (confidence_block N predictions targets c)
                 confidence_defaults metrics
  | None => metrics
  end.

(** *** [calculate_financial_performance_metrics] *)

Definition arr_view (a : ndarray) : view :=
  match a with
  | Arr1 l => view_of_vector l
  | Arr2 c rows => mkView (length rows) c (fun i j => nth j (nth i rows []) NaN)
  end.

(** The dictionary returned when no return is left after the NaN filter. *)
Definition no_returns_defaults : dict pyfloat :=
  [("total_return"%string, Fin 0.0); ("annualized_return"%string, Fin 0.0);
   ("volatility"%string, Fin 0.0); ("sharpe_ratio"%string, Fin 0.0);
   ("max_drawdown"%string, Fin 0.0); ("calmar_ratio"%string, Fin 0.0);
   ("var_95"%string, Fin 0.0); ("var_99"%string, Fin 0.0)].

(** The dictionary returned by the handler of the exception. *)
Definition financial_defaults : dict pyfloat :=
  no_returns_defaults
  ++ [("cvar_95"%string, Fin 0.0); ("sortino_ratio"%string, Fin 0.0)].

(** The portfolio returns: a series as it is; a table with weights summed
    along the assets after the product with the weights, without weights
    averaged along the assets. *)
Definition portfolio_returns_of (returns : ndarray) (weights : option ndarray)
  : result (list pyfloat) :=
  match returns with
  | Arr2 c rows =>
      match weights with
      | Some w =>
          let r := arr_view returns in
          let wv := arr_view w in
          match broadcast_dim (v_rows r) (v_rows wv),
                broadcast_dim (v_cols r) (v_cols wv) with
          | Some nr, Some nc =>
              Ok (map (fun i =>
                         pf_sum (map (fun j => pf_mul (bentry r i j)
                                                      (bentry wv i j))
                                     (seq 0 nc)))
                      (seq 0 nr))
          | _, _ => Raise ValueError
          end
      | None => Ok (map pf_mean rows)
      end
  | Arr1 l => Ok l
  end.

(** The guarded block: what it returns, or the exception it raises. *)
Definition financial_block (N : numerics) (risk_free_rate trading_cost : R)
  (returns : ndarray) (weights benchmark_returns : option ndarray)
  (trading_costs : bool) : result (dict pyfloat) :=
  portfolio_returns <- portfolio_returns_of returns weights ;;
  let portfolio_returns :=
    filter (fun r => negb (pf_isnan r)) portfolio_returns in
  if (length portfolio_returns =? 0)%nat then Ok no_returns_defaults
  else performance_statistics N portfolio_returns weights
         benchmark_returns trading_costs risk_free_rate trading_cost.

Definition calculate_financial_performance_metrics (N : numerics)
  (risk_free_rate trading_cost : R)
  (returns : ndarray) (weights benchmark_returns : option ndarray)
  (trading_costs : bool) : dict pyfloat :=
  match financial_block N risk_free_rate trading_cost returns weights
          benchmark_returns trading_costs with
  | Ok metrics => metrics
  | Raise _ => financial_defaults
  end.

(** *** [calculate_recommendation_metrics] *)

(** [x[-k:]] *)
Definition last_k {A : Type} (l : list A) (k : Z) : list A :=
  if (0 <? k)%Z then skipn (length l - Z.to_nat k) l
  else skipn (Z.to_nat (- k)) l.

(** [len(set(a) & set(b))] *)
Definition common_count (a b : list nat) : nat :=
  length (nodup Nat.eq_dec (filter (fun x => existsb (Nat.eqb x) b) a)).

(** [intersection / k] on Python integers. *)
Definition int_div (a : nat) (k : Z) : result R :=
  if (k =? 0)%Z then Raise ZeroDivisionError else Ok (INR a / IZR k).

Definition top_k_overlap (rec_np target_np : tensor2) (k : Z) (i : nat)
  : result nat :=
  rec_row <- index (t2_data rec_np) i ;;
  let top_k_indices := last_k (np_argsort rec_row) k in
  target_row <- index (t2_data target_np) i ;;
  let actual_top_k_indices := last_k (np_argsort target_row) k in
  Ok (common_count top_k_indices actual_top_k_indices).

Definition precision_scores (rec_np target_np : tensor2) (k : Z)
  : result (list R) :=
  sequence (map (fun i =>
                   n <- top_k_overlap rec_np target_np k i ;;
                   int_div n k)
                (seq 0 (t2_rows rec_np))).

Definition fmt (prefix : string) (k : Z) : string :=
  String.append prefix (NilZero.string_of_int (Z.to_int k)).

(** [calculate_dcg] *)
Definition calculate_dcg (scores : list R) (k : nat) : R :=
  Rsum (map (fun i => nth i scores 0 / (ln (INR (i + 2)) / ln 2))
            (seq 0 (Nat.min k (length scores)))).

(** [a[idx]] with an array of positions. *)
Definition take_indices (a : list R) (idx : list nat) : result (list R) :=
  sequence (map (index a) idx).

Definition ndcg_score (rec_np target_np : tensor2) (i : nat) : result pyfloat :=
  rec_row <- index (t2_data rec_np) i ;;
  let rec_sorted_indices := rev (np_argsort rec_row) in
  target_row <- index (t2_data target_np) i ;;
  target_scores <- take_indices target_row rec_sorted_indices ;;
  let num_assets := t2_cols rec_np in
  let dcg := calculate_dcg target_scores (Nat.min 20 num_assets) in
  let ideal_scores := rev (sort_by Rleb target_row) in
  let idcg := calculate_dcg ideal_scores (Nat.min 20 num_assets) in
  Ok (if Rltb 0 idcg then Fin (dcg / idcg) else Fin 0.0).

Definition hit_count (rec_np target_np : tensor2) (k : Z) : result nat :=
  hits <- sequence (map (fun i =>
                           n <- top_k_overlap rec_np target_np k i ;;
                           Ok (if (0 <? n)%nat then 1%nat else 0%nat))
                        (seq 0 (t2_rows rec_np))) ;;
  Ok (list_sum hits).

(** The reciprocal rank that the loop of the mean reciprocal rank appends
    for sample [i]. *)
Definition reciprocal_rank (rec_np target_np : tensor2) (i : nat) : result R :=
  rec_row <- index (t2_data rec_np) i ;;
  let rec_ranks :=
    map (fun r => (r + 1)%nat) (rev (np_argsort_nat (np_argsort rec_row))) in
  target_row <- index (t2_data target_np) i ;;
  best_actual_asset <- np_argmax target_row ;;
  rank_of_best <- index rec_ranks best_actual_asset ;;
  Ok (1.0 / INR rank_of_best).

Definition recommendation_block (rec_np target_np : tensor2)
  (k_values : list Z) : stm unit :=
  let batch_size := t2_rows rec_np in
  let num_assets := t2_cols rec_np in
  st_for k_values (fun k =>
    if (Z.of_nat num_assets <=? k)%Z then st_ret tt
    else
      precision_k_scores <<- st_lift (precision_scores rec_np target_np k) ;;
      st_assign (fmt "precision_at_" k) (Rmean precision_k_scores)) ;;;
  ndcg_scores <<- st_lift (sequence (map (ndcg_score rec_np target_np)
                                         (seq 0 batch_size))) ;;
  st_assign "ndcg_20" (pf_mean ndcg_scores) ;;;
  st_for [5%Z; 10%Z] (fun k =>
    if (k <? Z.of_nat num_assets)%Z
    then
      hits <<- st_lift (hit_count rec_np target_np k) ;;
      hit_rate <<- st_lift (int_div hits (Z.of_nat batch_size)) ;;
      st_assign (fmt "hit_rate_" k) (Fin hit_rate)
    else st_ret tt) ;;;
  mrr_scores <<- st_lift (sequence (map (reciprocal_rank rec_np target_np)
                                        (seq 0 batch_size))) ;;
  st_assign "mrr" (Rmean mrr_scores).

Definition recommendation_defaults : dict pyfloat :=
  [("ndcg_20"%string, Fin 0.0); ("hit_rate_5"%string, Fin 0.0);
   ("hit_rate_10"%string, Fin 0.0); ("mrr"%string, Fin 0.0)].

(** The handler assigns 0.0 to the precision of every [k] of [k_values],
    then updates with the four other defaults. *)
Definition recommendation_handler (k_values : list Z) (metrics : dict pyfloat)
  : dict pyfloat :=
  dict_update
    (fold_left (fun m k => dict_set m (fmt "precision_at_" k) (Fin 0.0))
               k_values metrics)
    recommendation_defaults.

(** The keys that the handler assigns. *)
Definition recommendation_default_keys (k_values : list Z) : list string :=
  map (fmt "precision_at_") k_values
  ++ ["ndcg_20"%string; "hit_rate_5"%string; "hit_rate_10"%string;
      "mrr"%string].

Definition default_k_values : list Z := [5%Z; 10%Z; 20%Z].

Definition calculate_recommendation_metrics (recommendations targets : tensor2)
  (k_values : list Z) : dict pyfloat :=
  match recommendation_block recommendations targets k_values [] with
  | (m, Ok _) => m
  | (m, Raise _) => recommendation_handler k_values m
  end.

(** *** [calculate_risk_metrics] *)

Definition risk_defaults : dict pyfloat :=
  [("avg_risk_score"%string, Fin 0.0); ("risk_score_std"%string, Fin 0.0);
   ("risk_score_entropy"%string, Fin 0.0);
   ("risk_concentration"%string, Fin 0.0)].

(** [np.sum(p * np.log(p + 1e-8), axis=1)] of one row. *)
Definition row_plogp (row : list R) : pyfloat :=
  pf_sum (map (fun p => pf_mul (Fin p) (np_log (p + 1e-8))) row).

Definition risk_block (N : numerics) (risk_np : tensor2)
  (returns : option tensor2) : stm unit :=
  st_assign "avg_risk_score" (Rmean (flatten risk_np)) ;;;
  st_assign "risk_score_std" (np_std (flatten risk_np)) ;;;
  st_assign "risk_score_entropy"
    (pf_neg (pf_mean (map row_plogp (t2_data risk_np)))) ;;;
  let risk_concentration :=
    Rmean (map (fun row => Rsum (map (fun p => p * p) row)) (t2_data risk_np)) in
  st_assign "risk_concentration" risk_concentration ;;;
  match returns with
  | Some returns_np =>
      let realized_vol := map np_std (t2_data returns_np) in
      if (1 <? length realized_vol)%nat && (0 <? t2_cols risk_np)%nat
      then
        let avg_risk_score := map Rmean (t2_data risk_np) in
        risk_vol_corr <<- st_lift (np_corrcoef N avg_risk_score realized_vol) ;;
        st_assign "risk_volatility_correlation" (nan_to_zero risk_vol_corr)
      else st_ret tt
  | None => st_ret tt
  end.

Definition calculate_risk_metrics (N : numerics) (risk_scores : tensor2)
  (returns : option tensor2) : dict pyfloat :=
  try_update (risk_block N risk_scores returns) risk_defaults [].

(** *** [calculate_regime_metrics] *)

Definition regime_defaults : dict pyfloat :=
  [("avg_regime_confidence"%string, Fin 0.0);
   ("regime_entropy"%string, Fin 0.0);
   ("regime_bull_ratio"%string, Fin 0.33);
   ("regime_bear_ratio"%string, Fin 0.33);
   ("regime_sideways_ratio"%string, Fin 0.33)].

Definition regime_names : list string :=
  ["bull"%string; "bear"%string; "sideways"%string].

(** [np.argmax(x, axis=1)]: refused when the rows have no entry. *)
Definition argmax_rows (x : tensor2) : result (list nat) :=
  if (t2_cols x =? 0)%nat then Raise ValueError
  else sequence (map np_argmax (t2_data x)).

Definition row_max (row : list R) : R :=
  match row with
  | [] => 0
  | v :: rest => fold_left Rmax rest v
  end.

Definition count_of (c : nat) (l : list nat) : nat :=
  length (filter (Nat.eqb c) l).

(** [np.unique(x)]: the values of [x] in increasing order, each once. *)
Definition np_unique (l : list nat) : list nat :=
  nodup Nat.eq_dec (sort_by Nat.leb l).

Definition count_matches (c : nat) (true_np : list Z) (pred : list nat)
  : result nat :=
  both <- np_broadcast1
            (fun (a b : bool * bool) => (fst a && snd b)%bool)
            (false, false)
            (map (fun t => ((t =? Z.of_nat c)%Z, false)) true_np)
            (map (fun p => (false, (p =? c)%nat)) pred) ;;
  Ok (length (filter (fun b : bool => b) both)).

Definition regime_block (N : numerics) (regime_np : tensor2)
  (true_regimes : option (list Z)) : stm unit :=
  regime_predictions <<- st_lift (argmax_rows regime_np) ;;
  let regime_confidence := map row_max (t2_data regime_np) in
  st_assign "avg_regime_confidence" (Rmean regime_confidence) ;;;
  st_assign "regime_entropy"
    (pf_neg (pf_mean (map row_plogp (t2_data regime_np)))) ;;;
  let unique_regimes := np_unique regime_predictions in
  st_for unique_regimes (fun regime =>
    match nth_error regime_names regime with
    | Some name =>
        st_assign (String.append "regime_" (String.append name "_ratio"))
          (pf_div (Fin (INR (count_of regime regime_predictions)))
                  (Fin (INR (length regime_predictions))))
    | None => st_ret tt
    end) ;;;
  match true_regimes with
  | Some true_regime_np =>
      regime_accuracy <<-
        st_lift (accuracy_score N true_regime_np
                   (map Z.of_nat regime_predictions)) ;;
      st_assign "regime_accuracy" regime_accuracy ;;;
      st_for (combine (seq 0 3) regime_names) (fun item =>
        let i := fst item in
        let regime_name := snd item in
        let n_pred := count_of i regime_predictions in
        let n_true := length (filter (fun t => (t =? Z.of_nat i)%Z)
                                     true_regime_np) in
        (if (0 <? n_pred)%nat
         then
           both <<- st_lift (count_matches i true_regime_np regime_predictions) ;;
           st_assign (String.append "regime_"
                        (String.append regime_name "_precision"))
                     (Fin (INR both / INR n_pred))
         else st_ret tt) ;;;
        (if (0 <? n_true)%nat
         then
           both <<- st_lift (count_matches i true_regime_np regime_predictions) ;;
           st_assign (String.append "regime_"
                        (String.append regime_name "_recall"))
                     (Fin (INR both / INR n_true))
         else st_ret tt))
  | None => st_ret tt
  end.

Definition calculate_regime_metrics (N : numerics) (regime_probs : tensor2)
  (true_regimes : option (list Z)) : dict pyfloat :=
  try_update (regime_block N regime_probs true_regimes) regime_defaults [].

(** *** [calculate_all_metrics] *)

Definition calculate_all_metrics (N : numerics)
  (risk_free_rate trading_cost : R)
  (model_outputs : dict tensor2) (targets : tensor2)
  (returns weights : option ndarray) (true_regimes : option (list Z))
  : dict pyfloat :=
  let all_metrics := [] in
  let all_metrics :=
    match dict_get model_outputs "recommendations" with
    | Some recs =>
        dict_update all_metrics
          (calculate_prediction_metrics N recs targets
             (dict_get model_outputs "confidence"))
    | None => all_metrics
    end in
  let all_metrics :=
    match returns with
    | Some r =>
        dict_update all_metrics
          (calculate_financial_performance_metrics N risk_free_rate
             trading_cost r weights None true)
    | None => all_metrics
    end in
  let all_metrics :=
    match dict_get model_outputs "recommendations" with
    | Some recs =>
        dict_update all_metrics
          (calculate_recommendation_metrics recs targets default_k_values)
    | None => all_metrics
    end in
  let all_metrics :=
    match dict_get model_outputs "risk_scores" with
    | Some r =>
        dict_update all_metrics (calculate_risk_metrics N r (Some targets))
    | None => all_metrics
    end in
  match dict_get model_outputs "regime_probs" with
  | Some g =>
      dict_update all_metrics (calculate_regime_metrics N g true_regimes)
  | None => all_metrics
  end.

(** * [MetricsTracker] *)

Record MetricsTracker : Type :=
  mkTracker { epoch_metrics : list (dict pyfloat);
              best_metrics : dict pyfloat;
              best_epoch : Z }.

Definition tracker_init : MetricsTracker := mkTracker [] [] 0%Z.

Definition primary_metric (metrics : dict pyfloat) : pyfloat :=
  dict_get_default metrics "sharpe_ratio"
    (dict_get_default metrics "f1" (Fin 0.0)).

Definition update (self : MetricsTracker) (epoch : Z) (metrics : dict pyfloat)
  : MetricsTracker :=
  let epoch_metrics :=
    epoch_metrics self
    ++ [dict_update [("epoch"%string, Fin (IZR epoch))] metrics] in
  if dict_is_empty (best_metrics self)
     || pf_gtb (primary_metric metrics)
               (dict_get_default (best_metrics self) "sharpe_ratio" NInf)
  then mkTracker epoch_metrics metrics epoch
  else mkTracker epoch_metrics (best_metrics self) (best_epoch self).

(** * The properties, in the words of the specification *)

(** A row is a distribution: no entry is negative and the entries sum to 1
    within the tolerance. *)
Definition distribution_within (eps : R) (row : list R) : Prop :=
  Forall (fun p => 0 <= p) row /\ Rabs (Rsum row - 1) <= eps.


(** [d] holds every entry of [entries]. *)
Definition has_entries {V : Type} (d entries : dict V) : Prop :=
  Forall (fun kv => dict_get d (fst kv) = Some (snd kv)) entries.

(** The loss bundle's invariant: the sum, over the components that are
    present, of the weight of the component times its loss. *)
Definition weighted_sum_of_present (weights : dict R) (losses : dict pyfloat)
  : pyfloat :=
  fold_left
    (fun acc name_weight =>
       match dict_get losses (String.append (fst name_weight) "_loss") with
       | Some loss => pf_add acc (pf_mul (Fin (snd name_weight)) loss)
       | None => acc
       end)
    weights (Fin 0).

(** The regime heuristic: bull for a mean above 0.001 with a deviation
    below 0.03, bear for a mean below -0.001 with a deviation above 0.02,
    sideways otherwise. *)
Definition is_bull (mean std : pyfloat) : Prop :=
  pf_gtb mean (Fin 0.001) = true /\ pf_ltb std (Fin 0.03) = true.

Definition is_bear (mean std : pyfloat) : Prop :=
  pf_ltb mean (Fin (- 0.001)) = true /\ pf_gtb std (Fin 0.02) = true.

Definition regime_label (mean std : pyfloat) : nat :=
  if pf_gtb mean (Fin 0.001) && pf_ltb std (Fin 0.03) then 0%nat
  else if pf_ltb mean (Fin (- 0.001)) && pf_gtb std (Fin 0.02) then 1%nat
  else 2%nat.

(** The rank of every entry of a vector in descending order (0 for the
    largest), and the rank correlation of the specification. *)
Fixpoint position_of (j : nat) (order : list nat) : nat :=
  match order with
  | [] => 0%nat
  | x :: rest => if (x =? j)%nat then 0%nat else S (position_of j rest)
  end.

Definition descending_ranks (l : list R) : list nat :=
  map (fun j => position_of j (torch_argsort_desc l)) (seq 0 (length l)).

Definition spearman_rho (p t : list R) : pyfloat :=
  let n := INR (length p) in
  let d_squared :=
    Rsum (map2 (fun a b => (INR a - INR b) * (INR a - INR b))
               (descending_ranks p) (descending_ranks t)) in
  pf_sub (Fin 1) (pf_div (Fin (6 * d_squared)) (Fin (n * (n * n - 1)))).

Definition spec_recommendation_loss (predictions targets : tensor2)
  (confidence : option tensor2) : pyfloat :=
  let mse :=
    Rmean (map2 (fun p t => (p - t) * (p - t))
                (flatten predictions) (flatten targets)) in
  let ranking :=
    pf_mean (map2 (fun p t => pf_sub (Fin 1) (spearman_rho p t))
                  (t2_data predictions) (t2_data targets)) in
  let combined := pf_add mse (pf_mul (Fin 0.1) ranking) in
  match confidence with
  | None => combined
  | Some c =>
      pf_mul combined (Rmean (map (fun v => 1 + 0.5 * v) (flatten c)))
  end.

(** The mean reciprocal rank of the specification: the rank (1 for the
    top) of the best actual asset in the descending order of the
    recommendation scores. *)
Definition spec_rank_of_best (rec_row target_row : list R) : result nat :=
  best <- np_argmax target_row ;;
  Ok (S (position_of best (rev (np_argsort rec_row)))).

Definition spec_mrr (recommendations targets : tensor2) : result pyfloat :=
  scores <- sequence (map2 (fun r t =>
                              rank <- spec_rank_of_best r t ;;
                              Ok (1 / INR rank))
                           (t2_data recommendations) (t2_data targets)) ;;
  Ok (Rmean scores).

(** No return is left in a series with no entry or with NaN entries only,
    in a table with no row, in a table without weights whose rows are empty
    or hold a NaN, and in a table of NaN entries with weights when both have
    a column. *)
Definition no_return_left (returns : ndarray) (weights : option ndarray)
  : bool :=
  match returns with
  | Arr1 l => forallb pf_isnan l
  | Arr2 c rows =>
      (length rows =? 0)%nat
      || match weights with
         | None =>
             forallb (fun row => existsb pf_isnan row || (length row =? 0)%nat)
                     rows
         | Some w =>
             forallb (forallb pf_isnan) rows
             && (0 <? c)%nat && (0 <? v_cols (arr_view w))%nat
         end
  end.

Definition zero_filled (d : dict pyfloat) : Prop :=
  d <> [] /\ Forall (fun kv => snd kv = Fin 0.0) d.

(** The loop of the combiner on a bundle of at most the four components,
    in the order in which [_compute_total_loss] inserts them. *)
Definition bundle (rec_loss : pyfloat) (conf risk regime : option pyfloat)
  : dict pyfloat :=
  let add name (o : option pyfloat) (d : dict pyfloat) :=
    match o with Some l => dict_set d name l | None => d end in
  add "regime_loss"%string regime
    (add "risk_loss"%string risk
       (add "confidence_loss"%string conf
          (dict_set [] "recommendation_loss" rec_loss))).


(** A statement sequence assigns no key outside [keys]. *)
Definition touches_only {A : Type} (c : stm A) (keys : list string) : Prop :=
  forall m k, ~ In k keys -> dict_get (fst (c m)) k = dict_get m k.

(** External numerics that refuse every call. *)
Definition refusing_numerics : numerics :=
  mkNumerics (fun _ _ => Raise ValueError) (fun _ _ => Raise ValueError)
             (fun _ _ => Raise ValueError) (fun _ _ => Raise ValueError)
             (fun _ _ => Raise ValueError)
             (fun _ _ _ _ _ _ => Raise ValueError).

(** [idxs] and [values] are the [k] largest entries of [probs], largest
    first, with their positions. *)
Definition is_top_k (probs : list R) (k : nat) (idxs : list nat)
  (values : list R) : Prop :=
  length idxs = k /\
  NoDup idxs /\
  Forall (fun j => (j < length probs)%nat) idxs /\
  values = map (fun j => nth j probs 0) idxs /\
  StronglySorted (fun a b => b <= a) values /\
  (forall j, (j < length probs)%nat -> ~ In j idxs ->
             Forall (fun p => nth j probs 0 <= p) values).

(** Every row of [x] has [t2_cols x] entries. *)
Definition well_shaped (x : tensor2) : Prop :=
  Forall (fun row => length row = t2_cols x) (t2_data x).

(** [x] is a [rows x cols] tensor. *)
Definition has_shape (rows cols : nat) (x : tensor2) : Prop :=
  t2_rows x = rows /\ t2_cols x = cols /\ well_shaped x.

(** The tracker after a sequence of updates, given as (epoch, metrics). *)
Definition run_updates (updates : list (Z * dict pyfloat)) : MetricsTracker :=
  fold_left (fun self em => update self (fst em) (snd em)) updates tracker_init.

(** The width of the concatenated sub-embeddings of the feature encoder. *)
Definition concatenated_width (d_model : nat) : nat :=
  (d_model / 4 + d_model / 4 + d_model / 2 + d_model / 4)%nat.

(** What [_calculate_recommendation_loss] computes on a batch of well-shaped
    tensors: the mean squared error, the correlation statistic between the
    two lists of sorted positions, and the factor of the confidence. *)
Definition mean_squared_error_of (p t : tensor2) : R :=
  Rsum (map2 (fun x y => (x - y) * (x - y)) (flatten p) (flatten t))
  / INR (length (flatten p)).

Definition positions_rho (p t : list R) : R :=
  let n := INR (length p) in
  1 - 6 * Rsum (map2 (fun a b => (INR a - INR b) * (INR a - INR b))
                     (torch_argsort_desc p) (torch_argsort_desc t))
      / (n * (n * n - 1)).

Definition confidence_factor (confidence : option tensor2) : R :=
  match confidence with
  | None => 1
  | Some c =>
      Rsum (map (fun v => 1.0 + 0.5 * v) (flatten c))
      / INR (length (flatten c))
  end.

(** * Further properties of the code: their vocabulary *)

(** The checks that a pass makes on its four inputs before it builds the
    mask: the feature sizes that the four encoders take, the batch size and
    the sequence length of the price data in the three other inputs, and a
    width at which the concatenated sub-embeddings fit the fusion layer. *)
Definition forward_accepts (d_model : nat)
  (price_data volume_data technical_data fundamental_data : tensor3) : bool :=
  (t3_feat price_data =? 1)%nat && (t3_feat volume_data =? 1)%nat
  && (t3_feat technical_data =? 20)%nat
  && (t3_feat fundamental_data =? 15)%nat
  && forallb (fun x => (t3_batch x =? t3_batch price_data)%nat
                       && (t3_seq x =? t3_seq price_data)%nat)
             [volume_data; technical_data; fundamental_data]
  && existsb (Nat.eqb d_model) [0; 5; 6; 11]%nat.

(** The entry of a tensor at a batch index, a time step and a feature. *)
Definition t3_entry (x : tensor3) (b t j : nat) : R :=
  nth j (nth t (nth b (t3_data x) []) []) 0.

(** Every sample has [t3_seq] time steps of [t3_feat] features. *)
Definition well_shaped3 (x : tensor3) : Prop :=
  Forall (fun sample =>
            length sample = t3_seq x /\
            Forall (fun v => length v = t3_feat x) sample)
         (t3_data x).

(** The assets that a prediction names (for NaN probabilities their
    positions are left open), or the exception. *)
Definition assets_of (r : result predicted)
  : result (option (list (list nat))) :=
  p <- r ;;
  Ok (match p with
      | Predicted p => Some (top_k_assets p)
      | NanPrediction _ _ _ _ => None
      end).

(** What the risk loss is on risk scores that sum to 1 along the risk
    factors: the mean over the samples of the squared gap between 1 and the
    standard deviation of the sample's targets. *)
Definition volatility_gap (targets : tensor2) : pyfloat :=
  pf_mean (map (fun row => pf_square (pf_sub (Fin 1) (torch_std row)))
               (t2_data targets)).

(** The rows of [y] are softmax values over [n] entries. *)
Definition softmax_rows (n : nat) (y : tensor2) : Prop :=
  t2_cols y = n /\
  Forall (fun row => exists l, length l = n /\ row = softmax l) (t2_data y).

(** The confidence that [_calculate_confidence_loss] asks of a sample: one
    over one plus the mean absolute error of its predictions. *)
Definition mean_abs_error (pred_row target_row : list R) : R :=
  Rsum (map2 (fun a c => Rabs (a - c)) pred_row target_row)
  / INR (length pred_row).

Definition target_confidence_of (pred_row target_row : list R) : R :=
  1 / (1 + mean_abs_error pred_row target_row).

(** Per sample, the predicted confidence minus the confidence asked. *)
Definition confidence_gaps (confidence predictions targets : tensor2)
  : list R :=
  map (fun i =>
         nth 0 (nth i (t2_data confidence) []) 0
         - target_confidence_of (nth i (t2_data predictions) [])
                                (nth i (t2_data targets) []))
      (seq 0 (t2_rows predictions)).

(** The names under which [calculate_all_metrics] can report a metric when
    it is called without returns, as the Lightning module calls it. *)
Definition reported_keys : list string :=
  ["mse"; "mae"; "rmse"; "r2"; "accuracy"; "precision"; "recall"; "f1";
   "confidence_accuracy_corr"; "avg_confidence";
   "precision_at_5"; "precision_at_10"; "precision_at_20"; "ndcg_20";
   "hit_rate_5"; "hit_rate_10"; "mrr";
   "avg_risk_score"; "risk_score_std"; "risk_score_entropy";
   "risk_concentration"; "risk_volatility_correlation";
   "avg_regime_confidence"; "regime_entropy"; "regime_bull_ratio";
   "regime_bear_ratio"; "regime_sideways_ratio"; "regime_accuracy";
   "regime_bull_precision"; "regime_bull_recall"; "regime_bear_precision";
   "regime_bear_recall"; "regime_sideways_precision";
   "regime_sideways_recall"]%string.

(** * The Lightning module: steps and epoch ends

    [FinancialLightningModule] as far as its steps and hooks read and write
    it: the model, the loss weights, the two rates of the metrics
    calculator, the two trackers, the metric to monitor with its mode and
    its best value, the epoch that the trainer is in, and the learning
    rates of the optimizer's parameter groups.  [lm_logged] collects what
    the hooks pass to [self.log].  The scorers of scikit-learn and numpy
    are the parameter [N] of the functions. *)

Record FinancialLightningModule : Type :=
  mkModule { lm_model : Engine;
             lm_loss_weights : dict R;
             lm_risk_free_rate : R;
             lm_trading_cost : R;
             lm_warmup_epochs : Z;
             lm_train_metrics_tracker : MetricsTracker;
             lm_val_metrics_tracker : MetricsTracker;
             lm_monitor_metric : string;
             lm_mode : string;
             lm_best_metric_value : pyfloat;
             lm_current_epoch : Z;
             lm_param_group_lrs : list R;
             lm_logged : list (string * pyfloat) }.

(** [__init__], with the learning rates that [configure_optimizers] gives
    the two parameter groups. *)
Definition lightning_init (model : Engine) (learning_rate : R)
  (loss_weights : option (dict R)) (risk_free_rate trading_cost : R)
  (warmup_epochs : Z) (monitor_metric mode : string)
  : FinancialLightningModule :=
  mkModule model (init_loss_weights loss_weights) risk_free_rate trading_cost
           warmup_epochs tracker_init tracker_init monitor_metric mode
           (if String.eqb mode "max" then NInf else PInf)
           0%Z [learning_rate; learning_rate * 2] [].

(** The hooks change the module and may raise: what was changed before the
    exception stays changed. *)
Definition lm (A : Type) : Type :=
  FinancialLightningModule -> FinancialLightningModule * result A.

Definition lm_ret {A : Type} (a : A) : lm A := fun self => (self, Ok a).

Definition lm_lift {A : Type} (r : result A) : lm A := fun self => (self, r).

Definition lm_bind {A B : Type} (c : lm A) (k : A -> lm B) : lm B :=
  fun self => match c self with
              | (self', Ok a) => k a self'
              | (self', Raise e) => (self', Raise e)
              end.

Notation "x <== c ;; k" := (lm_bind c (fun x => k))
  (at level 61, c at next level, right associativity).
Notation "c >>> k" := (lm_bind c (fun _ => k))
  (at level 61, right associativity).

Definition lm_get : lm FinancialLightningModule := fun self => (self, Ok self).

(** [self.log(name, value)] *)
Definition lm_log (name : string) (value : pyfloat) : lm unit :=
  fun self =>
    (mkModule (lm_model self) (lm_loss_weights self) (lm_risk_free_rate self)
       (lm_trading_cost self) (lm_warmup_epochs self)
       (lm_train_metrics_tracker self) (lm_val_metrics_tracker self)
       (lm_monitor_metric self) (lm_mode self) (lm_best_metric_value self)
       (lm_current_epoch self) (lm_param_group_lrs self)
       (lm_logged self ++ [(name, value)]),
     Ok tt).

Definition set_val_metrics_tracker (t : MetricsTracker) : lm unit :=
  fun self =>
    (mkModule (lm_model self) (lm_loss_weights self) (lm_risk_free_rate self)
       (lm_trading_cost self) (lm_warmup_epochs self)
       (lm_train_metrics_tracker self) t
       (lm_monitor_metric self) (lm_mode self) (lm_best_metric_value self)
       (lm_current_epoch self) (lm_param_group_lrs self) (lm_logged self),
     Ok tt).

Definition set_best_metric_value (v : pyfloat) : lm unit :=
  fun self =>
    (mkModule (lm_model self) (lm_loss_weights self) (lm_risk_free_rate self)
       (lm_trading_cost self) (lm_warmup_epochs self)
       (lm_train_metrics_tracker self) (lm_val_metrics_tracker self)
       (lm_monitor_metric self) (lm_mode self) v
       (lm_current_epoch self) (lm_param_group_lrs self) (lm_logged self),
     Ok tt).

Definition set_param_group_lrs (lrs : list R) : lm unit :=
  fun self =>
    (mkModule (lm_model self) (lm_loss_weights self) (lm_risk_free_rate self)
       (lm_trading_cost self) (lm_warmup_epochs self)
       (lm_train_metrics_tracker self) (lm_val_metrics_tracker self)
       (lm_monitor_metric self) (lm_mode self) (lm_best_metric_value self)
       (lm_current_epoch self) lrs (lm_logged self),
     Ok tt).

(** The trainer moves the module to an epoch. *)
Definition at_epoch (self : FinancialLightningModule) (epoch : Z)
  : FinancialLightningModule :=
  mkModule (lm_model self) (lm_loss_weights self) (lm_risk_free_rate self)
    (lm_trading_cost self) (lm_warmup_epochs self)
    (lm_train_metrics_tracker self) (lm_val_metrics_tracker self)
    (lm_monitor_metric self) (lm_mode self) (lm_best_metric_value self)
    epoch (lm_param_group_lrs self) (lm_logged self).

Fixpoint lm_for {A : Type} (l : list A) (body : A -> lm unit) : lm unit :=
  match l with
  | [] => lm_ret tt
  | a :: l' => body a >>> lm_for l' body
  end.

(** [d[key]] *)
Definition dict_lookup {V : Type} (d : dict V) (key : string) : result V :=
  match dict_get d key with
  | Some v => Ok v
  | None => Raise KeyError
  end.

(** A batch with its five entries. *)
Record batch : Type :=
  mkBatch { b_price : tensor3; b_volume : tensor3; b_technical : tensor3;
            b_fundamental : tensor3; b_target : tensor2 }.

(** What [validation_step] returns: the entries [val_loss],
    [model_outputs], [targets] and [metrics], and the entries of
    [losses]. *)
Record step_output : Type :=
  mkStepOutput { so_val_loss : pyfloat; so_model_outputs : outputs;
                 so_targets : tensor2; so_metrics : dict pyfloat;
                 so_losses : dict pyfloat }.

Definition validation_step (N : numerics) (self : FinancialLightningModule)
  (ps : pass) (b : batch) : result step_output :=
  model_outputs <- forward (lm_model self) ps (b_price b) (b_volume b)
                     (b_technical b) (b_fundamental b) ;;
  let targets := b_target b in
  losses <- _compute_total_loss (lm_loss_weights self)
              (outputs_dict model_outputs) targets ;;
  let val_metrics :=
    calculate_all_metrics N (lm_risk_free_rate self) (lm_trading_cost self)
      (outputs_dict model_outputs) targets None None None in
  val_loss <- dict_lookup losses "total_loss" ;;
  Ok (mkStepOutput val_loss model_outputs targets val_metrics losses).

Definition test_step (N : numerics) (self : FinancialLightningModule)
  (ps : pass) (b : batch) : result step_output :=
  validation_step N self ps b.

(** [torch.stack(tensors).mean()]: no tensor is refused. *)
Definition stack_mean (values : list pyfloat) : result pyfloat :=
  match values with
  | [] => Raise RuntimeError
  | _ => Ok (pf_mean values)
  end.

(** [s[n:]] *)
Fixpoint string_drop (n : nat) (s : string) : string :=
  match n, s with
  | O, _ => s
  | S n', String _ s' => string_drop n' s'
  | S _, EmptyString => EmptyString
  end.

(** The loop that averages every metric of the first batch over the
    batches, fills [all_metrics] and logs the averages under [prefix]. *)
Fixpoint aggregate_metrics (prefix : string) (outputs : list step_output)
  (metric_keys : list string) (all_metrics : dict pyfloat)
  : lm (dict pyfloat) :=
  match metric_keys with
  | [] => lm_ret all_metrics
  | metric_name :: rest =>
      metric_values <== lm_lift (sequence
                                   (map (fun b => dict_lookup (so_metrics b)
                                                    metric_name)
                                        outputs)) ;;
      let avg_metric := pf_mean metric_values in
      let all_metrics := dict_set all_metrics metric_name avg_metric in
      lm_log (String.append prefix metric_name) avg_metric >>>
      aggregate_metrics prefix outputs rest all_metrics
  end.

Definition validation_epoch_end (outputs : list step_output) : lm unit :=
  avg_val_loss <== lm_lift (stack_mean (map so_val_loss outputs)) ;;
  lm_log "val_total_loss" avg_val_loss >>>
  first <== lm_lift (index outputs 0) ;;
  lm_for ["recommendation_loss"; "confidence_loss"; "risk_loss";
          "regime_loss"]%string
    (fun loss_name =>
       match dict_get (so_losses first) loss_name with
       | Some _ =>
           values <== lm_lift (sequence
                                 (map (fun x => dict_lookup (so_losses x)
                                                  loss_name)
                                      outputs)) ;;
           avg_loss <== lm_lift (stack_mean values) ;;
           lm_log (String.append "val_" loss_name) avg_loss
       | None => lm_ret tt
       end) >>>
  let metric_keys := map fst (so_metrics first) in
  all_metrics <== aggregate_metrics "val_" outputs metric_keys [] ;;
  self <== lm_get ;;
  set_val_metrics_tracker
    (update (lm_val_metrics_tracker self) (lm_current_epoch self)
            all_metrics) >>>
  let monitor_key :=
    if String.prefix "val_" (lm_monitor_metric self)
    then string_drop 4 (lm_monitor_metric self)
    else lm_monitor_metric self in
  match dict_get all_metrics monitor_key with
  | Some current_value =>
      if String.eqb (lm_mode self) "max"
         && pf_gtb current_value (lm_best_metric_value self)
      then set_best_metric_value current_value
      else if String.eqb (lm_mode self) "min"
              && pf_ltb current_value (lm_best_metric_value self)
      then set_best_metric_value current_value
      else lm_ret tt
  | None => lm_ret tt
  end.

Definition test_epoch_end (outputs : list step_output) : lm unit :=
  first <== lm_lift (index outputs 0) ;;
  let metric_keys := map fst (so_metrics first) in
  all_metrics <== aggregate_metrics "test_" outputs metric_keys [] ;;
  lm_ret tt.

(** [on_train_epoch_end]: during the warm-up the learning rate of every
    parameter group is multiplied by [(epoch + 1) / warmup_epochs]; the
    message that is logged reads the rate of the first group. *)
Definition on_train_epoch_end : lm unit :=
  self <== lm_get ;;
  (if (lm_current_epoch self <? lm_warmup_epochs self)%Z
   then
     if (lm_warmup_epochs self =? 0)%Z then lm_lift (Raise ZeroDivisionError)
     else
       let warmup_factor :=
         IZR (lm_current_epoch self + 1) / IZR (lm_warmup_epochs self) in
       set_param_group_lrs
         (map (fun lr => lr * warmup_factor) (lm_param_group_lrs self))
   else lm_ret tt) >>>
  self <== lm_get ;;
  _ <== lm_lift (index (lm_param_group_lrs self) 0) ;;
  lm_ret tt.

Definition get_best_metrics (self : FinancialLightningModule) : dict pyfloat :=
  best_metrics (lm_val_metrics_tracker self).

(** The trainer runs the training epochs 0, 1, ..., [n - 1]: it moves the
    module to each epoch and calls the hook at its end. *)
Fixpoint train_epoch_ends (epochs : list Z) (self : FinancialLightningModule)
  : FinancialLightningModule * result unit :=
  match epochs with
  | [] => (self, Ok tt)
  | epoch :: rest =>
      match on_train_epoch_end (at_epoch self epoch) with
      | (self', Ok _) => train_epoch_ends rest self'
      | (self', Raise e) => (self', Raise e)
      end
  end.

Definition first_epochs (n : nat) : list Z := map Z.of_nat (seq 0 n).

(** The product of the first [k] warm-up factors [1/W], [2/W], ..., [k/W]. *)
Definition warmup_product (W k : nat) : R := INR (fact k) / INR (W ^ k).

(** The module with other log entries. *)
Definition with_logged (self : FinancialLightningModule)
  (entries : list (string * pyfloat)) : FinancialLightningModule :=
  mkModule (lm_model self) (lm_loss_weights self) (lm_risk_free_rate self)
    (lm_trading_cost self) (lm_warmup_epochs self)
    (lm_train_metrics_tracker self) (lm_val_metrics_tracker self)
    (lm_monitor_metric self) (lm_mode self) (lm_best_metric_value self)
    (lm_current_epoch self) (lm_param_group_lrs self) entries.

(** A hook's statements that do nothing to the module but log. *)
Definition only_logs {A : Type} (c : lm A) : Prop :=
  forall self, exists entries, fst (c self) = with_logged self entries.

(** The coefficient of determination as the regression block computes it:
    0.0 when the targets do not vary. *)
Definition r_squared (target pred : list R) : R :=
  let n := INR (length target) in
  let mu := Rsum target / n in
  let ss_res := Rsum (map2 (fun t p => (t - p) * (t - p)) target pred) in
  let ss_tot := Rsum (map (fun v => (v - mu) * (v - mu)) target) in
  if Reqb ss_tot 0 then 0 else 1 - ss_res / ss_tot.

(** The name under which the share of a regime is reported. *)
Definition ratio_key (name : string) : string :=
  String.append "regime_" (String.append name "_ratio").

(** * Saving and loading the model

    What [save_model] writes and [load_model] reads, as far as the shapes
    decide it.  An entry of a state dictionary is named by its path in the
    module tree; [KeyFeature PriceEncoder 0 Weight] stands for
    [feature_encoder.price_encoder.0.weight], [KeyLayer i name] for
    [transformer_encoder.layers.i.name].  The parameters of a layer of the
    encoder stack, [TransformerEncoderLayer(d_model, nhead,
    dim_feedforward)], are those of the torch library: their names and
    shapes are the parameter [layer_parameters] of the definitions. *)

Definition shape : Type := list nat.

Definition numel (s : shape) : nat := fold_right Nat.mul 1%nat s.

Inductive encoder_name : Type :=
| PriceEncoder | VolumeEncoder | TechnicalEncoder | FundamentalEncoder.

Inductive head_name : Type :=
| RecommendationHead | ConfidenceHead | RiskHead | RegimeHead.

Inductive linear_part : Type := Weight | Bias.

Inductive state_key : Type :=
| KeyFeature (e : encoder_name) (index : nat) (part : linear_part)
| KeyFusion (part : linear_part)
| KeyPositional
| KeyLayer (i : nat) (name : string)
| KeyHead (h : head_name) (index : nat) (part : linear_part).

Definition encoder_name_eqb (a b : encoder_name) : bool :=
  match a, b with
  | PriceEncoder, PriceEncoder | VolumeEncoder, VolumeEncoder
  | TechnicalEncoder, TechnicalEncoder
  | FundamentalEncoder, FundamentalEncoder => true
  | _, _ => false
  end.

Definition head_name_eqb (a b : head_name) : bool :=
  match a, b with
  | RecommendationHead, RecommendationHead | ConfidenceHead, ConfidenceHead
  | RiskHead, RiskHead | RegimeHead, RegimeHead => true
  | _, _ => false
  end.

Definition linear_part_eqb (a b : linear_part) : bool :=
  match a, b with
  | Weight, Weight | Bias, Bias => true
  | _, _ => false
  end.

Definition state_key_eqb (a b : state_key) : bool :=
  match a, b with
  | KeyFeature e i p, KeyFeature e' i' p' =>
      encoder_name_eqb e e' && (i =? i')%nat && linear_part_eqb p p'
  | KeyFusion p, KeyFusion p' => linear_part_eqb p p'
  | KeyPositional, KeyPositional => true
  | KeyLayer i n, KeyLayer i' n' => (i =? i')%nat && String.eqb n n'
  | KeyHead h i p, KeyHead h' i' p' =>
      head_name_eqb h h' && (i =? i')%nat && linear_part_eqb p p'
  | _, _ => false
  end.

(** The constructor's arguments. *)
Record hyperparameters : Type :=
  mkHyper { hp_d_model : nat; hp_nhead : nat; hp_num_encoder_layers : nat;
            hp_dim_feedforward : nat; hp_dropout : R; hp_num_assets : nat;
            hp_sequence_length : nat; hp_num_risk_factors : nat }.

(** The entry [model_config] of a checkpoint. *)
Record model_config : Type :=
  mkModelConfig { mc_d_model : nat; mc_num_assets : nat;
                  mc_sequence_length : nat }.

(** The class called on the entries of the configuration: the arguments
    that the configuration does not hold take the defaults of [__init__]. *)
Definition construct (config : model_config) : hyperparameters :=
  mkHyper (mc_d_model config) 8 6 2048 0.1 (mc_num_assets config)
          (mc_sequence_length config) 5.

(** Whether the constructor runs through on the arguments that [construct]
    binds.  [PositionalEncoding] divides by [d_model] and fills the odd
    columns with as many cosine columns as there are even ones, and the
    attention of the encoder layer asserts that [nhead], here 8, divides
    [d_model]: with [d_model] 0 or not a multiple of 8 one of them raises.
    The other modules take any sizes. *)
Definition constructor_accepts (config : model_config) : bool :=
  ((0 <? mc_d_model config) && (mc_d_model config mod 8 =? 0))%nat.

(** What [load_model] ends with: the model and the metadata, an exception
    of the constructor, or an exception of [load_state_dict]. *)
Inductive loaded (A : Type) : Type :=
| Loaded (a : A)
| ConstructorRaises
| LoadRaises (e : exn).

Arguments Loaded {A} a.
Arguments ConstructorRaises {A}.
Arguments LoadRaises {A} e.

(** An entry of the module tree: its key, its shape, and whether it is a
    parameter (the buffer of the positional encoding is not). *)
Definition tree_entry : Type := (state_key * shape * bool)%type.

Definition linear_entries (key : linear_part -> state_key)
  (in_size out_size : nat) : list tree_entry :=
  [(key Weight, [out_size; in_size], true); (key Bias, [out_size], true)].

(** [nn.Sequential(Linear, ReLU, Dropout, Linear)]: the linear layers are
    the children 0 and 3. *)
Definition sequential_entries (key : nat -> linear_part -> state_key)
  (in_size hidden out_size : nat) : list tree_entry :=
  linear_entries (key 0%nat) in_size hidden
  ++ linear_entries (key 3%nat) hidden out_size.

Section StateDictionaries.

Variable layer_parameters : nat -> nat -> nat -> list (string * shape).

Definition module_tree (hp : hyperparameters) : list tree_entry :=
  let d := hp_d_model hp in
  sequential_entries (KeyFeature PriceEncoder) 1 (d / 4) (d / 4)
  ++ sequential_entries (KeyFeature VolumeEncoder) 1 (d / 4) (d / 4)
  ++ sequential_entries (KeyFeature TechnicalEncoder) 20 (d / 2) (d / 2)
  ++ sequential_entries (KeyFeature FundamentalEncoder) 15 (d / 4) (d / 4)
  ++ linear_entries KeyFusion d d
  ++ [(KeyPositional, [5000; 1; d]%nat, false)]
  ++ flat_map (fun i =>
                 map (fun ns => (KeyLayer i (fst ns), snd ns, true))
                     (layer_parameters d (hp_nhead hp)
                        (hp_dim_feedforward hp)))
              (seq 0 (hp_num_encoder_layers hp))
  ++ sequential_entries (KeyHead RecommendationHead) d (d / 2)
       (hp_num_assets hp)
  ++ sequential_entries (KeyHead ConfidenceHead) d (d / 4) 1
  ++ sequential_entries (KeyHead RiskHead) d (d / 4)
       (hp_num_risk_factors hp)
  ++ sequential_entries (KeyHead RegimeHead) d (d / 4) 3.

(** A model: the arguments it was constructed with and the values of its
    entries. *)
Record Model : Type :=
  mkModel { mdl_hyper : hyperparameters; mdl_values : state_key -> list R }.

Definition state_dictionary : Type := list (state_key * (shape * list R)).

Fixpoint sd_get (sd : state_dictionary) (k : state_key)
  : option (shape * list R) :=
  match sd with
  | [] => None
  | (k', v) :: sd' => if state_key_eqb k' k then Some v else sd_get sd' k
  end.

Definition state_dict (m : Model) : state_dictionary :=
  map (fun e : tree_entry =>
         (fst (fst e), (snd (fst e), mdl_values m (fst (fst e)))))
      (module_tree (mdl_hyper m)).

(** [get_model_size]: the parameters are single-precision floats (4 bytes)
    that require gradients, as the constructor leaves them. *)
Record model_size : Type :=
  mkModelSize { ms_parameters : nat; ms_size_mb : R;
                ms_trainable_parameters : nat }.

Definition parameter_shapes (m : Model) : list shape :=
  map (fun e : tree_entry => snd (fst e))
      (filter (fun e : tree_entry => snd e) (module_tree (mdl_hyper m))).

Definition get_model_size (m : Model) : model_size :=
  let param_count := list_sum (map numel (parameter_shapes m)) in
  let param_size :=
    list_sum (map (fun s => (numel s * 4)%nat) (parameter_shapes m)) in
  mkModelSize param_count (INR param_size / INR (1024 ^ 2)) param_count.

Record checkpoint (V : Type) : Type :=
  mkCheckpoint { ck_model_state_dict : state_dictionary;
                 ck_model_config : model_config;
                 ck_model_info : model_size;
                 ck_metadata : option (dict V) }.

Arguments mkCheckpoint {V} _ _ _ _.
Arguments ck_model_state_dict {V} _.
Arguments ck_model_config {V} _.
Arguments ck_model_info {V} _.
Arguments ck_metadata {V} _.

(** [save_model]: the dictionary that is handed to [torch.save]. *)
Definition save_model {V : Type} (self : Model) (metadata : dict V)
  : checkpoint V :=
  mkCheckpoint (state_dict self)
    (mkModelConfig (hp_d_model (mdl_hyper self))
                   (hp_num_assets (mdl_hyper self))
                   (hp_sequence_length (mdl_hyper self)))
    (get_model_size self) (Some metadata).

(** [load_state_dict] (strict): a key of the model that the dictionary
    lacks, a key of the dictionary that the model lacks, or an entry whose
    shape differs is refused; otherwise the values are copied. *)
Definition load_state_dict (self : Model) (sd : state_dictionary)
  : result Model :=
  let own := module_tree (mdl_hyper self) in
  let missing_keys :=
    filter (fun e : tree_entry =>
              match sd_get sd (fst (fst e)) with
              | None => true | Some _ => false end) own in
  let unexpected_keys :=
    filter (fun kv =>
              negb (existsb (fun e : tree_entry =>
                               state_key_eqb (fst (fst e)) (fst kv)) own))
           sd in
  let size_mismatch :=
    filter (fun e : tree_entry =>
              match sd_get sd (fst (fst e)) with
              | Some (s, _) =>
                  negb (if list_eq_dec Nat.eq_dec s (snd (fst e))
                        then true else false)
              | None => false
              end) own in
  match missing_keys, unexpected_keys, size_mismatch with
  | [], [], [] =>
      Ok (mkModel (mdl_hyper self)
                  (fun k => match sd_get sd k with
                            | Some (_, data) => data
                            | None => mdl_values self k
                            end))
  | _, _, _ => Raise RuntimeError
  end.

(** [load_model]: [initial_values] are the values that the constructor
    draws for the new model. *)
Definition load_model {V : Type} (initial_values : state_key -> list R)
  (ck : checkpoint V) : loaded (Model * dict V) :=
  let config := ck_model_config ck in
  if negb (constructor_accepts config) then ConstructorRaises
  else
    let model := mkModel (construct config) initial_values in
    match load_state_dict model (ck_model_state_dict ck) with
    | Raise e => LoadRaises e
    | Ok model =>
        Loaded (model,
                match ck_metadata ck with Some md => md | None => [] end)
    end.

End StateDictionaries.

Arguments mkCheckpoint {V} _ _ _ _.
Arguments ck_model_state_dict {V} _.
Arguments ck_model_config {V} _.
Arguments ck_model_info {V} _.
Arguments ck_metadata {V} _.

(** The parameters of a [TransformerEncoderLayer] as torch names and shapes
    them. *)
Definition torch_layer_parameters (d_model nhead dim_feedforward : nat)
  : list (string * shape) :=
  [("self_attn.in_proj_weight", [3 * d_model; d_model]);
   ("self_attn.in_proj_bias", [3 * d_model]);
   ("self_attn.out_proj.weight", [d_model; d_model]);
   ("self_attn.out_proj.bias", [d_model]);
   ("linear1.weight", [dim_feedforward; d_model]);
   ("linear1.bias", [dim_feedforward]);
   ("linear2.weight", [d_model; dim_feedforward]);
   ("linear2.bias", [d_model]);
   ("norm1.weight", [d_model]); ("norm1.bias", [d_model]);
   ("norm2.weight", [d_model]); ("norm2.bias", [d_model])]%string%nat.
(** ** Properties of the layers *)

Section HeadFacts.

Lemma Rsum_map_div (l : list R) (s : R) :
  Rsum (map (fun x => x / s) l) = Rsum l / s.
Proof.
  induction l as [| a l IH]; simpl.
  - unfold Rdiv. ring.
  - rewrite IH. unfold Rdiv. ring.
Qed.

Lemma Rsum_exp_pos (l : list R) : l <> [] -> 0 < Rsum (map exp l).
Proof.
  induction l as [| a l IH]; intros Hne; [congruence |].
  simpl. destruct l as [| b l].
  - simpl. pose proof (exp_pos a). lra.
  - assert (0 < Rsum (map exp (b :: l))) by (apply IH; discriminate).
    pose proof (exp_pos a). lra.
Qed.

Lemma Rsum_exp_nonneg (l : list R) : 0 <= Rsum (map exp l).
Proof.
  destruct l as [| a l]; [simpl; lra |].
  left. apply Rsum_exp_pos. discriminate.
Qed.

Lemma softmax_length (l : list R) : length (softmax l) = length l.
Proof. unfold softmax. now rewrite length_map. Qed.

Lemma softmax_sum (l : list R) : l <> [] -> Rsum (softmax l) = 1.
Proof.
  intros Hne. unfold softmax.
  rewrite <- (map_map exp (fun e => e / Rsum (map exp l))).
  rewrite Rsum_map_div.
  pose proof (Rsum_exp_pos l Hne). field. lra.
Qed.

Lemma softmax_nonneg (l : list R) : Forall (fun p => 0 <= p) (softmax l).
Proof.
  unfold softmax. apply Forall_forall. intros p Hin.
  apply in_map_iff in Hin. destruct Hin as [x [<- Hx]].
  assert (Hpos : 0 < Rsum (map exp l)).
  { apply Rsum_exp_pos. intros ->. inversion Hx. }
  pose proof (exp_pos x).
  apply Rlt_le. apply Rdiv_lt_0_compat; assumption.
Qed.

Lemma softmax_distribution (l : list R) (eps : R) :
  l <> [] -> 0 <= eps -> distribution_within eps (softmax l).
Proof.
  intros Hne Heps. split.
  - apply softmax_nonneg.
  - rewrite softmax_sum by assumption.
    replace (1 - 1) with 0 by ring. rewrite Rabs_R0. assumption.
Qed.

Lemma sigmoid_bounds (x : R) : 0 <= sigmoid x <= 1.
Proof.
  unfold sigmoid. pose proof (exp_pos (- x)) as He.
  split.
  - apply Rlt_le. apply Rdiv_lt_0_compat; lra.
  - apply Rmult_le_reg_r with (1 + exp (- x)); [lra |].
    unfold Rdiv. rewrite Rmult_assoc, Rinv_l by lra. lra.
Qed.

Lemma linear_vec_length (L : Linear) (x : list R) :
  length (linear_vec L x) = out_features L.
Proof. unfold linear_vec. now rewrite length_map, length_seq. Qed.

Lemma mapi_from_Forall {A B : Type} (P : B -> Prop) (f : nat -> A -> B)
  (l : list A) (i : nat) :
  (forall k a, P (f k a)) -> Forall P (mapi_from f i l).
Proof.
  intros Hf. revert i. induction l as [| a l IH]; intros i; simpl.
  - constructor.
  - constructor; [apply Hf | apply IH].
Qed.

Lemma mapi_from_length {A B : Type} (f : nat -> A -> B) (l : list A) (i : nat) :
  length (mapi_from f i l) = length l.
Proof.
  revert i. induction l as [| a l IH]; intros i; simpl; [| rewrite IH];
    reflexivity.
Qed.

Lemma mlp2_ok (M : Mlp) (ps : pass) (s : site) (x y : tensor2) :
  mlp2 M ps s x = Ok y ->
  t2_cols y = out_features (fc2 M) /\
  t2_rows y = t2_rows x /\
  Forall (fun row => length row = out_features (fc2 M)) (t2_data y).
Proof.
  unfold mlp2. intros H.
  destruct (negb (t2_cols x =? in_features (fc1 M))%nat); [discriminate |].
  destruct (negb (out_features (fc1 M) =? in_features (fc2 M))%nat);
    [discriminate |].
  injection H as <-. simpl. repeat split.
  - unfold t2_rows, mapi. simpl. apply mapi_from_length.
  - apply mapi_from_Forall. intros k a. unfold mlp_vec.
    apply linear_vec_length.
Qed.

End HeadFacts.

(** ** C1: the outputs of the prediction heads *)

Section HeadOutputs.

Variables (d_model num_assets num_risk_factors : nat).
Variables (w : nat -> nat -> nat -> R) (b : nat -> nat -> R).

Lemma mlp2_accepts (M : Mlp) (ps : pass) (s : site) (x : tensor2) :
  t2_cols x = in_features (fc1 M) ->
  out_features (fc1 M) = in_features (fc2 M) ->
  mlp2 M ps s x
  = Ok (T2 (out_features (fc2 M))
           (mapi (fun i row => mlp_vec M ps s i 0%nat row) (t2_data x))).
Proof.
  intros Hin Hmid. unfold mlp2.
  rewrite Hin, Hmid, !Nat.eqb_refl. reflexivity.
Qed.

Lemma softmax_rows_distribution (n : nat) (rows : list (list R)) :
  (0 < n)%nat ->
  Forall (fun row => length row = n) rows ->
  Forall (distribution_within 1e-5) (map softmax rows).
Proof.
  intros Hn Hrows. apply Forall_map.
  eapply Forall_impl; [| exact Hrows].
  intros row Hlen. apply softmax_distribution; [| lra].
  intros ->. simpl in Hlen. lia.
Qed.

Lemma sigmoid_rows_bounded (rows : list (list R)) :
  Forall (fun row => Forall (fun c => 0 <= c <= 1) row)
         (map (map sigmoid) rows).
Proof.
  apply Forall_map. apply Forall_forall. intros row _.
  apply Forall_map. apply Forall_forall. intros v _.
  apply sigmoid_bounds.
Qed.

Lemma mlp_rows_length (M : Mlp) (ps : pass) (s : site) (rows : list (list R))
  (n : nat) :
  out_features (fc2 M) = n ->
  Forall (fun row => length row = n)
         (mapi (fun i row => mlp_vec M ps s i 0%nat row) rows).
Proof.
  intros <-. apply mapi_from_Forall. intros k a. apply linear_vec_length.
Qed.

Lemma softmax_rows_shape (M : Mlp) (ps : pass) (s : site)
  (rows : list (list R)) (n : nat) :
  out_features (fc2 M) = n ->
  has_shape (length rows) n
    (T2 n (map softmax (mapi (fun i row => mlp_vec M ps s i 0%nat row) rows))).
Proof.
  intros Hn. unfold has_shape, t2_rows, well_shaped. cbn [t2_data t2_cols].
  split; [| split].
  - rewrite length_map. apply mapi_from_length.
  - reflexivity.
  - apply Forall_map.
    eapply Forall_impl; [| apply (mlp_rows_length M ps s rows n Hn)].
    intros row Hrow. cbv beta. now rewrite softmax_length.
Qed.

Lemma sigmoid_rows_shape (M : Mlp) (ps : pass) (s : site)
  (rows : list (list R)) (n : nat) :
  out_features (fc2 M) = n ->
  has_shape (length rows) n
    (T2 n (map (map sigmoid)
               (mapi (fun i row => mlp_vec M ps s i 0%nat row) rows))).
Proof.
  intros Hn. unfold has_shape, t2_rows, well_shaped. cbn [t2_data t2_cols].
  split; [| split].
  - rewrite length_map. apply mapi_from_length.
  - reflexivity.
  - apply Forall_map.
    eapply Forall_impl; [| apply (mlp_rows_length M ps s rows n Hn)].
    intros row Hrow. cbv beta. now rewrite length_map.
Qed.

Lemma logit_rows_shape (M : Mlp) (ps : pass) (s : site)
  (rows : list (list R)) (n : nat) :
  out_features (fc2 M) = n ->
  has_shape (length rows) n
    (T2 n (mapi (fun i row => mlp_vec M ps s i 0%nat row) rows)).
Proof.
  intros Hn. unfold has_shape, t2_rows, well_shaped. cbn [t2_data t2_cols].
  split; [| split].
  - apply mapi_from_length.
  - reflexivity.
  - now apply mlp_rows_length.
Qed.

(** C1.  For every input that is [d_model] wide, whatever the weights, the
    mode and the dropout draws, the head returns its outputs: one row per
    row of the input in each of them, [num_assets] recommendations (the
    softmax of the raw logits), one confidence, [num_risk_factors] risk
    scores and 3 regime probabilities per row.  Every row of
    [recommendations], [risk_scores] and [regime_probs] has no negative
    entry and sums to 1 within 1e-5, and every confidence lies in [0, 1].
    The numbers of assets and of risk factors are positive. *)
Theorem head_outputs_normalised (ps : pass) (x : tensor2) :
  (0 < num_assets)%nat ->
  (0 < num_risk_factors)%nat ->
  t2_cols x = d_model ->
  exists out : outputs,
    head_forward (head_init d_model num_assets num_risk_factors w b) ps x
    = Ok out /\
    has_shape (t2_rows x) num_assets (recommendations out) /\
    has_shape (t2_rows x) 1 (confidence out) /\
    has_shape (t2_rows x) num_risk_factors (risk_scores out) /\
    has_shape (t2_rows x) 3 (regime_probs out) /\
    has_shape (t2_rows x) num_assets (raw_logits out) /\
    t2_data (recommendations out) = map softmax (t2_data (raw_logits out)) /\
    Forall (distribution_within 1e-5) (t2_data (recommendations out)) /\
    Forall (distribution_within 1e-5) (t2_data (risk_scores out)) /\
    Forall (distribution_within 1e-5) (t2_data (regime_probs out)) /\
    Forall (fun row => Forall (fun c => 0 <= c <= 1) row)
           (t2_data (confidence out)).
Proof.
  intros HA HR Hx. unfold head_forward, head_init. cbn [recommendation_head
    confidence_head risk_head regime_head].
  rewrite !mlp2_accepts by (cbn; first [exact Hx | reflexivity]).
  cbn [bind]. eexists. split; [reflexivity |].
  cbn [recommendations risk_scores regime_probs confidence raw_logits map2d
       t2_data t2_cols fc2 out_features].
  unfold t2_rows.
  split; [apply softmax_rows_shape; reflexivity |].
  split; [apply sigmoid_rows_shape; reflexivity |].
  split; [apply softmax_rows_shape; reflexivity |].
  split; [apply softmax_rows_shape; reflexivity |].
  split; [apply logit_rows_shape; reflexivity |].
  split; [reflexivity |].
  repeat split.
  - apply softmax_rows_distribution with (n := num_assets); [exact HA |].
    apply mlp_rows_length. reflexivity.
  - apply softmax_rows_distribution with (n := num_risk_factors); [exact HR |].
    apply mlp_rows_length. reflexivity.
  - apply softmax_rows_distribution with (n := 3%nat); [lia |].
    apply mlp_rows_length. reflexivity.
  - apply sigmoid_rows_bounded.
Qed.

End HeadOutputs.

(** A head for 4-wide representations, two assets and five risk factors, in
    training mode, on one sample. *)
Lemma head_outputs_normalised_witness :
  exists out : outputs,
    head_forward (head_init 4 2 5 (fun _ _ _ => 1) (fun _ _ => 0))
                 (mkPass true (fun _ _ _ j => Nat.even j))
                 (T2 4 [[1; -2; 0; 3]]) = Ok out /\
    has_shape 1 2 (recommendations out) /\
    has_shape 1 1 (confidence out) /\
    has_shape 1 5 (risk_scores out) /\
    has_shape 1 3 (regime_probs out) /\
    has_shape 1 2 (raw_logits out) /\
    t2_data (recommendations out) = map softmax (t2_data (raw_logits out)) /\
    Forall (distribution_within 1e-5) (t2_data (recommendations out)) /\
    Forall (distribution_within 1e-5) (t2_data (risk_scores out)) /\
    Forall (distribution_within 1e-5) (t2_data (regime_probs out)) /\
    Forall (fun row => Forall (fun c => 0 <= c <= 1) row)
           (t2_data (confidence out)).
Proof.
  apply (head_outputs_normalised 4 2 5); [lia | lia | reflexivity].
Defined.

(** ** Comparisons of reals, evaluated *)

Lemma Rleb_true (a b : R) : a <= b -> Rleb a b = true.
Proof. intros H. unfold Rleb. destruct (Rle_dec a b); [reflexivity | contradiction]. Qed.

Lemma Rleb_false (a b : R) : b < a -> Rleb a b = false.
Proof. intros H. unfold Rleb. destruct (Rle_dec a b); [lra | reflexivity]. Qed.

Lemma Rltb_true (a b : R) : a < b -> Rltb a b = true.
Proof. intros H. unfold Rltb. destruct (Rlt_dec a b); [reflexivity | contradiction]. Qed.

Lemma Rltb_false (a b : R) : b <= a -> Rltb a b = false.
Proof. intros H. unfold Rltb. destruct (Rlt_dec a b); [lra | reflexivity]. Qed.

Lemma Reqb_true (a b : R) : a = b -> Reqb a b = true.
Proof. intros H. unfold Reqb. destruct (Req_dec_T a b); [reflexivity | contradiction]. Qed.

Lemma Reqb_false (a b : R) : a <> b -> Reqb a b = false.
Proof. intros H. unfold Reqb. destruct (Req_dec_T a b); [contradiction | reflexivity]. Qed.

Lemma Rltb_spec (a b : R) : Rltb a b = true <-> a < b.
Proof.
  unfold Rltb. destruct (Rlt_dec a b); split; intros; try assumption;
    try reflexivity; try discriminate; contradiction.
Qed.

(** Rewrites every comparison of two real constants in the goal by its
    value. *)
Ltac Rdecide :=
  repeat match goal with
    | |- context [Rleb ?a ?b] =>
        first [ rewrite (Rleb_true a b) by lra
              | rewrite (Rleb_false a b) by lra ]
    | |- context [Rltb ?a ?b] =>
        first [ rewrite (Rltb_true a b) by lra
              | rewrite (Rltb_false a b) by lra ]
    | |- context [Reqb ?a ?b] =>
        first [ rewrite (Reqb_true a b) by lra
              | rewrite (Reqb_false a b) by lra ]
    end.

Ltac eval_sort :=
  unfold torch_argsort_desc, np_argsort, np_argsort_nat, argsort_by, sort_by,
    sort_pairs, enumerate;
  repeat (progress (cbn [length seq combine fold_right insert_by snd fst map
                         Nat.leb]; Rdecide)).

Ltac eval_pf :=
  repeat (progress (cbn [pf_add pf_sub pf_neg pf_mul pf_div pf_square pf_mean
                         pf_sum fold_left INR length Rsum fold_right map
                         Rmean]; Rdecide)).

(** ** Dictionaries *)

Lemma dict_get_set_same {V : Type} (d : dict V) (k : string) (v : V) :
  dict_get (dict_set d k v) k = Some v.
Proof.
  induction d as [| [k' v'] d IH]; simpl.
  - now rewrite String.eqb_refl.
  - destruct (String.eqb k' k) eqn:E; simpl; rewrite E; [reflexivity | exact IH].
Qed.

Lemma dict_get_set_other {V : Type} (d : dict V) (k k' : string) (v : V) :
  k <> k' -> dict_get (dict_set d k v) k' = dict_get d k'.
Proof.
  intros Hne. induction d as [| [k0 v0] d IH]; simpl.
  - destruct (String.eqb k k') eqn:E; [| reflexivity].
    apply String.eqb_eq in E. contradiction.
  - destruct (String.eqb k0 k) eqn:E; simpl.
    + apply String.eqb_eq in E. subst k0.
      destruct (String.eqb k k') eqn:E'; [| reflexivity].
      apply String.eqb_eq in E'. contradiction.
    + destruct (String.eqb k0 k'); [reflexivity | exact IH].
Qed.

Lemma dict_get_set {V : Type} (d : dict V) (k k' : string) (v : V) :
  dict_get (dict_set d k v) k'
  = if String.eqb k k' then Some v else dict_get d k'.
Proof.
  destruct (String.eqb k k') eqn:E.
  - apply String.eqb_eq in E. subst. apply dict_get_set_same.
  - apply String.eqb_neq in E. now apply dict_get_set_other.
Qed.

Lemma dict_get_update {V : Type} (other d : dict V) (k : string) :
  dict_get (dict_update d other) k
  = match dict_get (rev other) k with
    | Some v => Some v
    | None => dict_get d k
    end.
Proof.
  unfold dict_update. revert d.
  induction other as [| [k0 v0] other IH] using rev_ind; intros d.
  - reflexivity.
  - rewrite fold_left_app, rev_app_distr. simpl.
    rewrite dict_get_set. destruct (String.eqb k0 k); [reflexivity | apply IH].
Qed.

(** ** C2: the total loss *)

Section TotalLoss.

Lemma pf_add_zero_l (a : pyfloat) : pf_add (Fin 0) a = match a with Fin x => Fin (0 + x) | other => other end.
Proof. destruct a; reflexivity. Qed.

Lemma weighted_total_bundle (rec_loss : pyfloat) (conf risk regime : option pyfloat) :
  weighted_total default_loss_weights (bundle rec_loss conf risk regime)
  = weighted_sum_of_present default_loss_weights
      (dict_set (bundle rec_loss conf risk regime) "total_loss"
         (weighted_total default_loss_weights
            (bundle rec_loss conf risk regime))).
Proof.
  assert (Hz : forall a, pf_add (Fin 0.0) a = pf_add (Fin 0) a).
  { intros [x | | |]; try reflexivity. simpl. f_equal. lra. }
  destruct conf, risk, regime; unfold weighted_total, weighted_sum_of_present;
    cbn -[pf_add pf_mul]; rewrite Hz; reflexivity.
Qed.

Lemma compute_total_loss_bundle (W : dict R) (mo : dict tensor2)
  (targets : tensor2) (losses : dict pyfloat) :
  _compute_total_loss W mo targets = Ok losses ->
  exists rec_loss conf risk regime,
    losses = dict_set (bundle rec_loss conf risk regime) "total_loss"
               (weighted_total W (bundle rec_loss conf risk regime)) /\
    (conf = None <-> dict_get mo "confidence" = None) /\
    (risk = None <-> dict_get mo "risk_scores" = None) /\
    (regime = None <-> dict_get mo "regime_probs" = None).
Proof.
  unfold _compute_total_loss. intros Hc.
  destruct (dict_get mo "recommendations") as [recs |]; [| discriminate].
  destruct (_calculate_recommendation_loss recs targets _) as [rl |];
    [| discriminate].
  cbn [bind] in Hc.
  assert (Hc' :
    exists conf risk regime,
      (conf = None <-> dict_get mo "confidence" = None) /\
      (risk = None <-> dict_get mo "risk_scores" = None) /\
      (regime = None <-> dict_get mo "regime_probs" = None) /\
      losses = dict_set (bundle rl conf risk regime) "total_loss"
                 (weighted_total W (bundle rl conf risk regime))).
  { destruct (dict_get mo "confidence") as [c |].
    - destruct (_calculate_confidence_loss c recs targets) as [cl |];
        [cbn [bind] in Hc | discriminate].
      destruct (dict_get mo "risk_scores") as [r |].
      + destruct (_calculate_risk_loss r targets) as [kl |];
          [cbn [bind] in Hc | discriminate].
        destruct (dict_get mo "regime_probs") as [g |].
        * destruct (_calculate_regime_loss g targets) as [gl |];
            [cbn [bind] in Hc | discriminate].
          exists (Some cl), (Some kl), (Some gl). injection Hc as <-.
          repeat split; intros; try discriminate; reflexivity.
        * cbn [bind] in Hc.
          exists (Some cl), (Some kl), None. injection Hc as <-.
          repeat split; intros; try discriminate; reflexivity.
      + cbn [bind] in Hc. destruct (dict_get mo "regime_probs") as [g |].
        * destruct (_calculate_regime_loss g targets) as [gl |];
            [cbn [bind] in Hc | discriminate].
          exists (Some cl), None, (Some gl). injection Hc as <-.
          repeat split; intros; try discriminate; reflexivity.
        * cbn [bind] in Hc.
          exists (Some cl), None, None. injection Hc as <-.
          repeat split; intros; try discriminate; reflexivity.
    - cbn [bind] in Hc. destruct (dict_get mo "risk_scores") as [r |].
      + destruct (_calculate_risk_loss r targets) as [kl |];
          [cbn [bind] in Hc | discriminate].
        destruct (dict_get mo "regime_probs") as [g |].
        * destruct (_calculate_regime_loss g targets) as [gl |];
            [cbn [bind] in Hc | discriminate].
          exists None, (Some kl), (Some gl). injection Hc as <-.
          repeat split; intros; try discriminate; reflexivity.
        * cbn [bind] in Hc.
          exists None, (Some kl), None. injection Hc as <-.
          repeat split; intros; try discriminate; reflexivity.
      + cbn [bind] in Hc. destruct (dict_get mo "regime_probs") as [g |].
        * destruct (_calculate_regime_loss g targets) as [gl |];
            [cbn [bind] in Hc | discriminate].
          exists None, None, (Some gl). injection Hc as <-.
          repeat split; intros; try discriminate; reflexivity.
        * cbn [bind] in Hc.
          exists None, None, None. injection Hc as <-.
          repeat split; intros; try discriminate; reflexivity. }
  destruct Hc' as (conf & risk & regime & H1 & H2 & H3 & ->).
  exists rl, conf, risk, regime. repeat split; try apply H1; try apply H2;
    try apply H3.
Qed.

End TotalLoss.

Section TotalLossTheorem.

Lemma pf_weighted_finite (r c k g : R) :
  pf_add (pf_add (pf_add (pf_add (Fin 0.0) (pf_mul (Fin 1.0) (Fin r)))
                         (pf_mul (Fin 0.3) (Fin c)))
                 (pf_mul (Fin 0.2) (Fin k)))
         (pf_mul (Fin 0.1) (Fin g))
  = Fin (1.0 * r + 0.3 * c + 0.2 * k + 0.1 * g).
Proof. simpl. f_equal. lra. Qed.

(** C2.  With the default weights, whenever the combiner returns its
    bundle, [total_loss] is the sum over the components that are present of
    weight times loss, a component being present exactly when the model
    output it is computed from is; for four finite components it is
    [1.0 r + 0.3 c + 0.2 k + 0.1 g]; and the loop gives 2.6 on the component
    losses 1, 2, 3 and 4. *)
Theorem total_loss_is_weighted_sum (model_outputs : dict tensor2)
  (targets : tensor2) (losses : dict pyfloat) :
  _compute_total_loss (init_loss_weights None) model_outputs targets
  = Ok losses ->
  dict_get losses "total_loss"
  = Some (weighted_sum_of_present default_loss_weights losses) /\
  (dict_get losses "recommendation_loss" <> None) /\
  (dict_get losses "confidence_loss" = None
   <-> dict_get model_outputs "confidence" = None) /\
  (dict_get losses "risk_loss" = None
   <-> dict_get model_outputs "risk_scores" = None) /\
  (dict_get losses "regime_loss" = None
   <-> dict_get model_outputs "regime_probs" = None) /\
  (forall r c k g,
      dict_get losses "recommendation_loss" = Some (Fin r) ->
      dict_get losses "confidence_loss" = Some (Fin c) ->
      dict_get losses "risk_loss" = Some (Fin k) ->
      dict_get losses "regime_loss" = Some (Fin g) ->
      dict_get losses "total_loss"
      = Some (Fin (1.0 * r + 0.3 * c + 0.2 * k + 0.1 * g))) /\
  weighted_total (init_loss_weights None)
    [("recommendation_loss"%string, Fin 1.0);
     ("confidence_loss"%string, Fin 2.0);
     ("risk_loss"%string, Fin 3.0);
     ("regime_loss"%string, Fin 4.0)] = Fin 2.6.
Proof.
  intros Hc. apply compute_total_loss_bundle in Hc.
  destruct Hc as (rl & conf & risk & regime & -> & Hconf & Hrisk & Hregime).
  cbn [init_loss_weights].
  split; [| split; [| split; [| split; [| split; [| split]]]]].
  - rewrite dict_get_set_same. f_equal. apply weighted_total_bundle.
  - destruct conf, risk, regime; discriminate.
  - rewrite <- Hconf. destruct conf, risk, regime; cbn; split; intros;
      congruence.
  - rewrite <- Hrisk. destruct conf, risk, regime; cbn; split; intros;
      congruence.
  - rewrite <- Hregime. destruct conf, risk, regime; cbn; split; intros;
      congruence.
  - intros r c k g Hr Hcf Hk Hg.
    destruct conf as [cl |], risk as [kl |], regime as [gl |];
      cbn in Hr, Hcf, Hk, Hg; try discriminate.
    injection Hr as ->. injection Hcf as ->. injection Hk as ->.
    injection Hg as ->.
    rewrite dict_get_set_same. f_equal. apply pf_weighted_finite.
  - unfold weighted_total. cbn. f_equal. lra.
Qed.

End TotalLossTheorem.

(** ** Sorting by insertion *)


Section SortingFacts.

Context {A : Type} (le : A -> A -> bool).

Hypothesis le_total : forall a b, le a b = false -> le b a = true.
Hypothesis le_trans : forall a b c, le a b = true -> le b c = true -> le a c = true.

Let before (x y : nat * A) : Prop := le (snd x) (snd y) = true.

Lemma insert_by_perm (x : nat * A) (l : list (nat * A)) :
  Permutation (insert_by le x l) (x :: l).
Proof.
  induction l as [| y l IH]; simpl.
  - apply Permutation_refl.
  - destruct (le (snd x) (snd y)).
    + apply Permutation_refl.
    + apply perm_trans with (y :: x :: l).
      * now apply perm_skip.
      * apply perm_swap.
Qed.

Lemma sort_pairs_perm (l : list (nat * A)) : Permutation (sort_pairs le l) l.
Proof.
  induction l as [| x l IH]; simpl.
  - apply perm_nil.
  - apply perm_trans with (x :: sort_pairs le l).
    + apply insert_by_perm.
    + now apply perm_skip.
Qed.

Lemma insert_by_sorted (x : nat * A) (l : list (nat * A)) :
  StronglySorted before l -> StronglySorted before (insert_by le x l).
Proof.
  induction l as [| y l IH]; intros Hs; simpl.
  - constructor; constructor.
  - inversion Hs as [| y' l' Hl Hy]; subst.
    destruct (le (snd x) (snd y)) eqn:E.
    + constructor; [exact Hs |].
      constructor; [exact E |].
      eapply Forall_impl; [| exact Hy].
      intros z Hz. unfold before in *. eapply le_trans; eassumption.
    + constructor; [apply IH; exact Hl |].
      eapply Permutation_Forall.
      * symmetry. apply insert_by_perm.
      * constructor; [apply le_total; exact E | exact Hy].
Qed.

Lemma sort_pairs_sorted (l : list (nat * A)) :
  StronglySorted before (sort_pairs le l).
Proof.
  induction l as [| x l IH]; simpl.
  - constructor.
  - now apply insert_by_sorted.
Qed.

Lemma sort_by_sorted (l : list A) :
  StronglySorted (fun a b => le a b = true) (sort_by le l).
Proof.
  unfold sort_by. generalize (sort_pairs_sorted (enumerate l)).
  generalize (sort_pairs le (enumerate l)). intros s Hs.
  induction Hs as [| x s Hs IH Hx]; simpl; constructor.
  - exact IH.
  - apply Forall_map. exact Hx.
Qed.

End SortingFacts.

Section ArgsortFacts.

Context {A : Type} (le : A -> A -> bool).

Lemma enumerate_fst (l : list A) : map fst (enumerate l) = seq 0 (length l).
Proof.
  unfold enumerate. generalize 0%nat.
  induction l as [| a l IH]; intros n; simpl; [reflexivity |].
  now rewrite IH.
Qed.

Lemma enumerate_entries (l : list A) (i : nat) (v : A) :
  In (i, v) (enumerate l) -> nth_error l i = Some v.
Proof.
  unfold enumerate.
  assert (H : forall n, In (i, v) (combine (seq n (length l)) l) ->
                        (n <= i)%nat /\ nth_error l (i - n) = Some v).
  { induction l as [| a l IH]; intros n Hin; simpl in Hin; [contradiction |].
    destruct Hin as [Heq | Hin].
    - injection Heq as <- <-. rewrite Nat.sub_diag. split; [lia | reflexivity].
    - apply IH in Hin. destruct Hin as [Hle Hnth]. split; [lia |].
      replace (i - n)%nat with (S (i - S n)) by lia. exact Hnth. }
  intros Hin. apply H in Hin. destruct Hin as [_ Hin].
  now rewrite Nat.sub_0_r in Hin.
Qed.

Lemma argsort_by_perm (l : list A) :
  Permutation (argsort_by le l) (seq 0 (length l)).
Proof.
  unfold argsort_by. rewrite <- enumerate_fst.
  apply Permutation_map. apply sort_pairs_perm.
Qed.

Lemma argsort_by_length (l : list A) : length (argsort_by le l) = length l.
Proof.
  rewrite (Permutation_length (argsort_by_perm l)). apply length_seq.
Qed.

Lemma argsort_by_NoDup (l : list A) : NoDup (argsort_by le l).
Proof.
  apply (Permutation_NoDup (l := seq 0 (length l))).
  - symmetry. apply argsort_by_perm.
  - apply seq_NoDup.
Qed.

Lemma argsort_by_bound (l : list A) (i : nat) :
  In i (argsort_by le l) -> (i < length l)%nat.
Proof.
  intros Hin. apply (Permutation_in _ (argsort_by_perm l)) in Hin.
  apply in_seq in Hin. lia.
Qed.

Lemma sort_by_argsort (l : list A) (d : A) :
  sort_by le l = map (fun i => nth i l d) (argsort_by le l).
Proof.
  unfold sort_by, argsort_by. rewrite map_map.
  apply map_ext_in. intros [i v] Hin.
  apply (Permutation_in _ (sort_pairs_perm le (enumerate l))) in Hin.
  apply enumerate_entries in Hin. simpl.
  symmetry. now apply nth_error_nth.
Qed.

End ArgsortFacts.

Lemma In_firstn {A : Type} (x : A) (n : nat) (l : list A) :
  In x (firstn n l) -> In x l.
Proof.
  revert n. induction l as [| a l IH]; intros [| n] Hin; simpl in Hin;
    try contradiction.
  destruct Hin as [-> | Hin]; [left; reflexivity | right; eauto].
Qed.

Lemma StronglySorted_firstn {A : Type} (R : A -> A -> Prop) (n : nat) (l : list A) :
  StronglySorted R l -> StronglySorted R (firstn n l).
Proof.
  intros Hs. revert n. induction Hs as [| x l Hs IH Hx]; intros [| n]; simpl;
    try constructor.
  - apply IH.
  - apply Forall_forall. intros y Hy.
    rewrite Forall_forall in Hx. apply Hx.
    eapply In_firstn; eauto.
Qed.

Lemma Rleb_desc_total (a b : R) : Rleb b a = false -> Rleb a b = true.
Proof.
  unfold Rleb. destruct (Rle_dec b a), (Rle_dec a b); intros; try reflexivity;
    try discriminate. lra.
Qed.

Lemma Rleb_desc_trans (a b c : R) :
  Rleb b a = true -> Rleb c b = true -> Rleb c a = true.
Proof.
  unfold Rleb. destruct (Rle_dec b a), (Rle_dec c b), (Rle_dec c a); intros;
    try reflexivity; try discriminate. lra.
Qed.

(** ** C3: the regime labels *)

Section RegimeLabels.

Lemma map2_map_map {X A B C : Type} (f : A -> B -> C) (g : X -> A) (h : X -> B)
  (l : list X) :
  map2 f (map g l) (map h l) = map (fun x => f (g x) (h x)) l.
Proof.
  unfold map2. induction l as [| x l IH]; simpl; [reflexivity |].
  now rewrite IH.
Qed.

Lemma repeat_as_map {X B : Type} (b : B) (l : list X) :
  repeat b (length l) = map (fun _ => b) l.
Proof. induction l as [| x l IH]; simpl; [| rewrite IH]; reflexivity. Qed.

Lemma masked_assign_map {X : Type} (f : X -> nat) (g : X -> bool) (v : nat)
  (l : list X) :
  masked_assign (map f l) (map g l) v = map (fun x => if g x then v else f x) l.
Proof. unfold masked_assign. apply map2_map_map. Qed.

(** The two masks exclude each other: no mean is above 0.001 and below
    -0.001. *)
Lemma bull_bear_exclusive (m s : pyfloat) :
  pf_gtb m (Fin 0.001) && pf_ltb s (Fin 0.03) = true ->
  pf_ltb m (Fin (- 0.001)) && pf_gtb s (Fin 0.02) = false.
Proof.
  intros Hb. apply andb_true_iff in Hb. destruct Hb as [Hm _].
  apply andb_false_iff. left.
  destruct m as [x | | |]; simpl in *; try reflexivity; try discriminate.
  apply Rltb_spec in Hm. apply Rltb_false. lra.
Qed.

Lemma infer_regime_labels_map (targets : tensor2) :
  infer_regime_labels targets
  = map (fun row => regime_label (torch_mean row) (torch_std row))
        (t2_data targets).
Proof.
  unfold infer_regime_labels, t2_rows.
  rewrite repeat_as_map, !map2_map_map, !masked_assign_map.
  apply map_ext. intros row. unfold regime_label.
  destruct (pf_gtb (torch_mean row) (Fin 0.001) && pf_ltb (torch_std row) (Fin 0.03))
    eqn:Ebull.
  - rewrite (bull_bear_exclusive _ _ Ebull). reflexivity.
  - destruct (pf_ltb (torch_mean row) (Fin (- 0.001))
              && pf_gtb (torch_std row) (Fin 0.02)); reflexivity.
Qed.

Lemma regime_label_cases (m s : pyfloat) :
  (regime_label m s = 0%nat <-> is_bull m s) /\
  (regime_label m s = 1%nat <-> is_bear m s) /\
  (regime_label m s = 2%nat <-> ~ is_bull m s /\ ~ is_bear m s).
Proof.
  pose proof (bull_bear_exclusive m s) as Hex.
  unfold regime_label, is_bull, is_bear.
  destruct (pf_gtb m (Fin 0.001)), (pf_ltb s (Fin 0.03)),
    (pf_ltb m (Fin (- 0.001))), (pf_gtb s (Fin 0.02));
    cbn [andb] in *;
    intuition (try discriminate; try congruence).
Qed.

(** Mean and deviation of three values [c - d], [c], [c + d]. *)
Lemma torch_mean_three (c d : R) :
  torch_mean [c - d; c; c + d] = Fin c.
Proof.
  unfold torch_mean, Rmean. cbn [Rsum fold_right length INR pf_div].
  rewrite Reqb_false by lra. f_equal. field.
Qed.

Lemma torch_std_three (c d : R) :
  0 <= d -> torch_std [c - d; c; c + d] = Fin d.
Proof.
  intros Hd. unfold torch_std. rewrite torch_mean_three.
  cbn [Rsum fold_right length INR pf_div map].
  rewrite Reqb_false by lra. f_equal.
  replace (((c - d - c) * (c - d - c) + ((c - c) * (c - c)
            + ((c + d - c) * (c + d - c) + 0))) / (1 + 1 + 1 - 1))
    with (d * d) by field.
  now apply sqrt_square.
Qed.

(** C3.  The label that the regime loss infers for a sample is the label
    of the heuristic at the mean and the standard deviation of the sample's
    targets: 0 (bull) exactly when the mean is above 0.001 and the
    deviation below 0.03, 1 (bear) exactly when the mean is below -0.001
    and the deviation above 0.02, and 2 (sideways) in every other case.
    Mean 0.005 with deviation 0.01 gives 0, mean -0.005 with deviation 0.05
    gives 1, mean 0 with deviation 0.01 gives 2, as three samples with these
    statistics show. *)
Theorem regime_labels_follow_heuristic :
  (forall targets : tensor2,
      infer_regime_labels targets
      = map (fun row => regime_label (torch_mean row) (torch_std row))
            (t2_data targets)) /\
  (forall m s : pyfloat,
      (regime_label m s = 0%nat <-> is_bull m s) /\
      (regime_label m s = 1%nat <-> is_bear m s) /\
      (regime_label m s = 2%nat <-> ~ is_bull m s /\ ~ is_bear m s)) /\
  regime_label (Fin 0.005) (Fin 0.01) = 0%nat /\
  regime_label (Fin (- 0.005)) (Fin 0.05) = 1%nat /\
  regime_label (Fin 0.0) (Fin 0.01) = 2%nat /\
  (let bull := [0.005 - 0.01; 0.005; 0.005 + 0.01] in
   let bear := [- 0.005 - 0.05; - 0.005; - 0.005 + 0.05] in
   let sideways := [0.0 - 0.01; 0.0; 0.0 + 0.01] in
   map torch_mean [bull; bear; sideways] = [Fin 0.005; Fin (- 0.005); Fin 0.0] /\
   map torch_std [bull; bear; sideways] = [Fin 0.01; Fin 0.05; Fin 0.01] /\
   infer_regime_labels (T2 3 [bull; bear; sideways]) = [0; 1; 2]%nat).
Proof.
  assert (L1 : regime_label (Fin 0.005) (Fin 0.01) = 0%nat).
  { unfold regime_label, pf_gtb, pf_ltb. Rdecide. reflexivity. }
  assert (L2 : regime_label (Fin (- 0.005)) (Fin 0.05) = 1%nat).
  { unfold regime_label, pf_gtb, pf_ltb. Rdecide. reflexivity. }
  assert (L3 : regime_label (Fin 0.0) (Fin 0.01) = 2%nat).
  { unfold regime_label, pf_gtb, pf_ltb. Rdecide. reflexivity. }
  split; [exact infer_regime_labels_map |].
  split; [exact regime_label_cases |].
  split; [exact L1 |]. split; [exact L2 |]. split; [exact L3 |].
  cbv zeta. split; [| split].
  - cbn [map]. now rewrite !torch_mean_three.
  - cbn [map]. rewrite !torch_std_three by lra. reflexivity.
  - rewrite infer_regime_labels_map. cbn [t2_data map].
    rewrite !torch_mean_three, !torch_std_three by lra.
    now rewrite L1, L2, L3.
Qed.

End RegimeLabels.

(** ** C4: the recommendation loss *)

Section RecommendationLoss.

Lemma argsort_desc_235 : torch_argsort_desc [0.2; 0.5; 0.3] = [1; 2; 0]%nat.
Proof. eval_sort. reflexivity. Qed.

Lemma argsort_desc_352 : torch_argsort_desc [0.3; 0.5; 0.2] = [1; 0; 2]%nat.
Proof. eval_sort. reflexivity. Qed.

(** The ranks of the entries differ from the sorted positions: in
    [0.2; 0.5; 0.3] the entry at position 0 is the last of three. *)
Lemma descending_ranks_235 : descending_ranks [0.2; 0.5; 0.3] = [2; 0; 1]%nat.
Proof. unfold descending_ranks. rewrite argsort_desc_235. reflexivity. Qed.

Lemma descending_ranks_352 : descending_ranks [0.3; 0.5; 0.2] = [1; 0; 2]%nat.
Proof. unfold descending_ranks. rewrite argsort_desc_352. reflexivity. Qed.

(** C4.  On the predictions [0.2; 0.5; 0.3] and the targets
    [0.3; 0.5; 0.2] (one sample, no confidence) the loss of the code is
    [0.02/3 + 0.1 * 2]: its ranking term is 2, the rank correlation being
    taken between the two lists of sorted positions ([1; 2; 0] and
    [1; 0; 2], squared differences 8, correlation -1).  The loss of the
    specification is [0.02/3 + 0.1 * 0.5]: between the ranks of the entries
    ([2; 0; 1] and [1; 0; 2]) the squared differences are 2 and the
    correlation is 0.5. *)
Theorem recommendation_loss_ranks_positions :
  let predictions := T2 3 [[0.2; 0.5; 0.3]] in
  let targets := T2 3 [[0.3; 0.5; 0.2]] in
  _calculate_recommendation_loss predictions targets None
  = Ok (Fin (0.02 / 3 + 0.1 * 2)) /\
  spec_recommendation_loss predictions targets None
  = Fin (0.02 / 3 + 0.1 * 0.5) /\
  spearman_rho [0.2; 0.5; 0.3] [0.3; 0.5; 0.2] = Fin 0.5 /\
  ranking_term predictions targets 0 = Ok (Fin 2).
Proof.
  cbv zeta.
  assert (Hterm : ranking_term (T2 3 [[0.2; 0.5; 0.3]]) (T2 3 [[0.3; 0.5; 0.2]]) 0
                  = Ok (Fin 2)).
  { unfold ranking_term. cbn [t2_data index nth_error bind].
    rewrite argsort_desc_235, argsort_desc_352.
    unfold index_differences.
    cbn [length broadcast_dim Nat.eqb seq map bidx nth bind].
    eval_pf. do 2 f_equal. lra. }
  assert (Hrho : spearman_rho [0.2; 0.5; 0.3] [0.3; 0.5; 0.2] = Fin 0.5).
  { unfold spearman_rho. rewrite descending_ranks_235, descending_ranks_352.
    unfold map2. cbn [combine map fst snd length]. eval_pf. f_equal. lra. }
  repeat split.
  - unfold _calculate_recommendation_loss, mse_loss.
    cbn [view_of v_rows v_cols t2_rows t2_cols t2_data length broadcast_dim
         Nat.eqb bind seq ranking_sum].
    rewrite Hterm. cbn [bind Nat.eqb].
    unfold flat_map2, bentry, view_of.
    cbn [flat_map seq map app v_at v_rows v_cols t2_rows t2_cols t2_data
         length bidx Nat.eqb nth].
    eval_pf. do 2 f_equal. lra.
  - unfold spec_recommendation_loss, flatten, map2.
    cbn [t2_data concat app combine map fst snd].
    rewrite Hrho. eval_pf. f_equal. lra.
  - exact Hrho.
  - exact Hterm.
Qed.

End RecommendationLoss.

(** ** C7: the mean reciprocal rank *)

Section MeanReciprocalRank.

Lemma argsort_271 : np_argsort [0.2; 0.7; 0.1] = [2; 0; 1]%nat.
Proof. eval_sort. reflexivity. Qed.

Lemma argmax_190 : np_argmax [0.1; 0.9; 0.0] = Ok 1%nat.
Proof.
  unfold np_argmax. cbn [argmax_from]. Rdecide. cbn [argmax_from]. Rdecide.
  reflexivity.
Qed.

Lemma reciprocal_rank_example :
  reciprocal_rank (T2 3 [[0.2; 0.7; 0.1]]) (T2 3 [[0.1; 0.9; 0.0]]) 0
  = Ok (1.0 / INR 3).
Proof.
  unfold reciprocal_rank. cbn [t2_data index nth_error bind].
  rewrite argsort_271, argmax_190. reflexivity.
Qed.

Lemma ndcg_score_example :
  exists v, ndcg_score (T2 3 [[0.2; 0.7; 0.1]]) (T2 3 [[0.1; 0.9; 0.0]]) 0
            = Ok v.
Proof.
  unfold ndcg_score. cbn [t2_data index nth_error bind].
  rewrite argsort_271. unfold take_indices.
  cbn [rev app map index nth_error sequence bind]. eexists. reflexivity.
Qed.

(** C7.  On the recommendation scores [0.2; 0.7; 0.1] with the targets
    [0.1; 0.9; 0.0] (one sample) the best actual asset, asset 1, is the top
    recommendation: its rank is 1 and the mean reciprocal rank of the
    specification is 1.  The code returns [mrr = 1/3]: it reverses the
    array of ascending ranks, [2; 3; 1] reversed to [1; 3; 2], and reads the
    rank 3 at position 1. *)
Theorem mrr_reads_reversed_ranks :
  let recommendations := T2 3 [[0.2; 0.7; 0.1]] in
  let targets := T2 3 [[0.1; 0.9; 0.0]] in
  dict_get (calculate_recommendation_metrics recommendations targets
              default_k_values) "mrr"
  = Some (Fin (1 / 3)) /\
  spec_rank_of_best [0.2; 0.7; 0.1] [0.1; 0.9; 0.0] = Ok 1%nat /\
  spec_mrr recommendations targets = Ok (Fin 1).
Proof.
  cbv zeta. repeat split.
  - unfold calculate_recommendation_metrics, recommendation_block,
      default_k_values.
    cbn [t2_rows t2_cols t2_data length st_for st_bind st_ret Z.of_nat Z.leb
         Z.ltb Z.compare Pos.of_succ_nat Pos.succ Pos.compare
         Pos.compare_cont seq map sequence].
    destruct ndcg_score_example as [v ->]. rewrite reciprocal_rank_example.
    cbn [bind st_lift st_assign st_bind st_ret dict_set dict_get String.eqb
         Ascii.eqb Bool.eqb].
    f_equal. eval_pf. f_equal. lra.
  - unfold spec_rank_of_best. rewrite argmax_190, argsort_271. reflexivity.
  - unfold spec_mrr, map2, spec_rank_of_best.
    cbn [t2_data combine map fst snd sequence].
    rewrite argmax_190, argsort_271.
    cbn [bind rev app position_of Nat.eqb]. eval_pf. do 2 f_equal. lra.
Qed.

End MeanReciprocalRank.

(** ** C5: no return left *)

Section NoReturns.

Lemma pf_sum_from_nan (l : list pyfloat) : fold_left pf_add l NaN = NaN.
Proof. induction l as [| a l IH]; simpl; [reflexivity | exact IH]. Qed.

Lemma pf_sum_nan (l : list pyfloat) (acc : pyfloat) :
  existsb pf_isnan l = true -> fold_left pf_add l acc = NaN.
Proof.
  revert acc. induction l as [| a l IH]; intros acc H; simpl in *;
    [discriminate |].
  apply orb_true_iff in H. destruct H as [H | H].
  - destruct a; try discriminate. destruct acc; simpl; apply pf_sum_from_nan.
  - now apply IH.
Qed.

Lemma pf_mean_nan (row : list pyfloat) :
  existsb pf_isnan row || (length row =? 0)%nat = true ->
  pf_mean row = NaN.
Proof.
  intros H. unfold pf_mean, pf_sum. apply orb_true_iff in H.
  destruct H as [H | H].
  - now rewrite pf_sum_nan.
  - destruct row; [| discriminate]. simpl. now rewrite !Reqb_true.
Qed.

Lemma filter_all_nan (l : list pyfloat) :
  forallb pf_isnan l = true -> filter (fun r => negb (pf_isnan r)) l = [].
Proof.
  induction l as [| a l IH]; intros H; simpl in *; [reflexivity |].
  apply andb_true_iff in H. destruct H as [Ha Hl].
  rewrite Ha. simpl. now apply IH.
Qed.

Lemma zero_filled_no_returns : zero_filled no_returns_defaults.
Proof. split; [discriminate | repeat constructor]. Qed.

Lemma zero_filled_financial : zero_filled financial_defaults.
Proof. split; [discriminate | repeat constructor]. Qed.

Lemma all_nan_entry (rows : list (list pyfloat)) (i j : nat) :
  forallb (forallb pf_isnan) rows = true ->
  nth j (nth i rows []) NaN = NaN.
Proof.
  intros H. rewrite forallb_forall in H.
  destruct (nth_in_or_default i rows []) as [Hin | ->]; [| now destruct j].
  specialize (H _ Hin). rewrite forallb_forall in H.
  destruct (nth_in_or_default j (nth i rows []) NaN) as [Hj | ->];
    [| reflexivity].
  specialize (H _ Hj). now destruct (nth j (nth i rows []) NaN).
Qed.

Lemma broadcast_dim_pos (a b n : nat) :
  broadcast_dim a b = Some n -> (0 < a)%nat -> (0 < b)%nat -> (0 < n)%nat.
Proof.
  unfold broadcast_dim.
  destruct (a =? b)%nat; [intros H; injection H as <-; trivial |].
  destruct (a =? 1)%nat; [intros H; injection H as <-; trivial |].
  destruct (b =? 1)%nat; [intros H; injection H as <-; trivial | discriminate].
Qed.

Lemma broadcast_dim_zero (b n : nat) :
  broadcast_dim 0 b = Some n -> n = 0%nat.
Proof.
  unfold broadcast_dim. destruct b as [| [| k]]; simpl; congruence.
Qed.

Lemma financial_block_no_return (N : numerics) (rf tc : R) (returns : ndarray)
  (weights bench : option ndarray) (flag : bool) :
  no_return_left returns weights = true ->
  financial_block N rf tc returns weights bench flag = Ok no_returns_defaults
  \/ (exists e, financial_block N rf tc returns weights bench flag = Raise e)
     /\ weights <> None /\ (forall l, returns <> Arr1 l).
Proof.
  unfold financial_block, no_return_left.
  destruct returns as [l | c rows]; intros H.
  - left. cbn [portfolio_returns_of bind]. now rewrite filter_all_nan.
  - destruct weights as [w |].
    + cbn [portfolio_returns_of arr_view v_rows v_cols].
      destruct (broadcast_dim (length rows) (v_rows (arr_view w)))
        as [nr |] eqn:Er;
        [| right; split; [eexists; reflexivity | split; intros; discriminate]].
      destruct (broadcast_dim c (v_cols (arr_view w))) as [nc |] eqn:Ec;
        [| right; split; [eexists; reflexivity | split; intros; discriminate]].
      left. cbn [bind].
      match goal with
      | |- context [filter ?f ?l] => assert (Hnan : filter f l = [])
      end.
      { apply orb_true_iff in H. destruct H as [H | H].
        - apply Nat.eqb_eq in H. rewrite H in Er.
          apply broadcast_dim_zero in Er. now subst nr.
        - apply andb_true_iff in H. destruct H as [H Hw].
          apply andb_true_iff in H. destruct H as [Hall Hc].
          apply Nat.ltb_lt in Hw, Hc.
          pose proof (broadcast_dim_pos _ _ _ Ec Hc Hw) as Hnc.
          apply filter_all_nan. apply forallb_forall. intros a Ha.
          apply in_map_iff in Ha. destruct Ha as [i [<- _]].
          unfold pf_sum. rewrite pf_sum_nan; [reflexivity |].
          destruct nc as [| nc]; [lia |]. cbn [seq map existsb].
          unfold bentry at 1. cbn [v_at].
          now rewrite all_nan_entry. }
      now rewrite Hnan.
    + left. cbn [portfolio_returns_of bind].
      assert (Hnan : filter (fun r => negb (pf_isnan r)) (map pf_mean rows) = []).
      { apply orb_true_iff in H. destruct H as [H | H].
        - apply Nat.eqb_eq in H. destruct rows; [reflexivity | discriminate].
        - apply filter_all_nan.
          rewrite forallb_forall in *. intros a Ha.
          apply in_map_iff in Ha. destruct Ha as [row [<- Hrow]].
          rewrite pf_mean_nan; [reflexivity |]. now apply H. }
      now rewrite Hnan.
Qed.

(** C5.  The function is total: its value is a dictionary, no call raises.
    When no return is left (a series without entries or of NaN entries, a
    table without rows, a table of NaN entries), the dictionary is zero
    filled: it is the default bundle of the length check or, for a table
    whose weights cannot be combined with it, the default bundle of the
    exception handler. *)
Theorem no_returns_give_zero_defaults (N : numerics) (risk_free_rate
  trading_cost : R) (returns : ndarray) (weights benchmark : option ndarray)
  (trading_costs : bool) :
  no_return_left returns weights = true ->
  let r := calculate_financial_performance_metrics N risk_free_rate
             trading_cost returns weights benchmark trading_costs in
  zero_filled r /\
  (r = no_returns_defaults \/ r = financial_defaults) /\
  (weights = None \/ (exists l, returns = Arr1 l) -> r = no_returns_defaults).
Proof.
  intros H r. subst r. unfold calculate_financial_performance_metrics.
  destruct (financial_block_no_return N risk_free_rate trading_cost returns
              weights benchmark trading_costs H)
    as [-> | [[e ->] [Hw Hr]]].
  - split; [apply zero_filled_no_returns |]. split; [now left | reflexivity].
  - split; [apply zero_filled_financial |]. split; [now right |].
    intros [Hn | [l Hl]]; [contradiction | now apply Hr in Hl].
Qed.

End NoReturns.

(** A series of length 0. *)
Lemma no_returns_give_zero_defaults_witness :
  let r := calculate_financial_performance_metrics refusing_numerics 0.02
             0.001 (Arr1 []) None None true in
  zero_filled r /\
  (r = no_returns_defaults \/ r = financial_defaults) /\
  (@None ndarray = None \/ (exists l, Arr1 [] = Arr1 l) -> r = no_returns_defaults).
Proof.
  intros r.
  exact (no_returns_give_zero_defaults refusing_numerics 0.02 0.001 (Arr1 [])
           None None true eq_refl).
Defined.

(** ** C6: the defaults of the metrics groups *)

Section Fallbacks.

Lemma dict_get_in_nodup {V : Type} (d : dict V) (k : string) (v : V) :
  NoDup (map fst d) -> In (k, v) d -> dict_get d k = Some v.
Proof.
  induction d as [| [k0 v0] d IH]; intros Hnd Hin; simpl in *; [contradiction |].
  inversion Hnd as [| ? ? Hnotin Hnd']; subst.
  destruct Hin as [Heq | Hin].
  - injection Heq as -> ->. now rewrite String.eqb_refl.
  - destruct (String.eqb k0 k) eqn:E; [| now apply IH].
    apply String.eqb_eq in E. subst k0.
    exfalso. apply Hnotin. apply in_map_iff. now exists (k, v).
Qed.

Lemma has_entries_update {V : Type} (m defaults : dict V) :
  NoDup (map fst defaults) -> has_entries (dict_update m defaults) defaults.
Proof.
  intros Hnd. unfold has_entries. apply Forall_forall. intros [k v] Hin.
  cbn [fst snd]. rewrite dict_get_update.
  rewrite (dict_get_in_nodup (rev defaults) k v); [reflexivity | |].
  - rewrite map_rev. apply NoDup_rev. exact Hnd.
  - apply in_rev. now rewrite rev_involutive.
Qed.

Lemma try_update_raises (body : stm unit) (defaults m : dict pyfloat) :
  is_ok (snd (body m)) = false ->
  try_update body defaults m = dict_update (fst (body m)) defaults.
Proof.
  unfold try_update. destruct (body m) as [m' [u | e]]; simpl; intros H;
    [discriminate | reflexivity].
Qed.

Lemma try_update_frame (body : stm unit) (defaults m : dict pyfloat)
  (keys : list string) (k : string) :
  touches_only body keys -> ~ In k keys -> ~ In k (map fst defaults) ->
  dict_get (try_update body defaults m) k = dict_get m k.
Proof.
  intros Ht Hk Hd. unfold try_update. specialize (Ht m k Hk).
  destruct (body m) as [m' [u | e]]; simpl in *; [exact Ht |].
  rewrite dict_get_update.
  destruct (dict_get (rev defaults) k) as [v |] eqn:E; [| exact Ht].
  exfalso. apply Hd.
  assert (Hin : exists v', In (k, v') (rev defaults)).
  { clear - E. induction (rev defaults) as [| [k0 v0] d IH]; simpl in E;
      [discriminate |].
    destruct (String.eqb k0 k) eqn:Ek.
    - apply String.eqb_eq in Ek. subst. exists v0. now left.
    - destruct (IH E) as [v' Hv']. exists v'. now right. }
  destruct Hin as [v' Hin]. apply in_rev in Hin.
  apply in_map_iff. now exists (k, v').
Qed.

Lemma touches_ret {A : Type} (a : A) (keys : list string) :
  touches_only (st_ret a) keys.
Proof. intros m k _. reflexivity. Qed.

Lemma touches_lift {A : Type} (r : result A) (keys : list string) :
  touches_only (st_lift r) keys.
Proof. intros m k _. reflexivity. Qed.

Lemma touches_assign (key : string) (v : pyfloat) (keys : list string) :
  In key keys -> touches_only (st_assign key v) keys.
Proof.
  intros Hin m k Hk. unfold st_assign. cbn [fst].
  apply dict_get_set_other. intros ->. contradiction.
Qed.

Lemma touches_bind {A B : Type} (c : stm A) (f : A -> stm B)
  (keys : list string) :
  touches_only c keys -> (forall a, touches_only (f a) keys) ->
  touches_only (st_bind c f) keys.
Proof.
  intros Hc Hf m k Hk. unfold st_bind. specialize (Hc m k Hk).
  destruct (c m) as [m' [a | e]]; simpl in *; [| exact Hc].
  rewrite (Hf a m' k Hk). exact Hc.
Qed.

Lemma touches_for {A : Type} (l : list A) (body : A -> stm unit)
  (keys : list string) :
  (forall a, In a l -> touches_only (body a) keys) ->
  touches_only (st_for l body) keys.
Proof.
  induction l as [| a l IH]; intros H; simpl.
  - apply touches_ret.
  - apply touches_bind; [apply H; now left |].
    intros _. apply IH. intros a' Ha'. apply H. now right.
Qed.

Lemma classification_touches (N : numerics) (p t : tensor2) :
  touches_only (classification_block N p t)
    ["accuracy"; "precision"; "recall"; "f1"]%string.
Proof.
  unfold classification_block.
  repeat (first [ apply touches_bind; [| intros ?]
                | apply touches_lift
                | apply touches_assign; simpl; tauto ]).
Qed.

Lemma confidence_touches (N : numerics) (p t c : tensor2) :
  touches_only (confidence_block N p t c)
    ["confidence_accuracy_corr"; "avg_confidence"]%string.
Proof.
  unfold confidence_block.
  repeat (first [ apply touches_bind; [| intros ?]
                | apply touches_lift
                | apply touches_assign; simpl; tauto ]).
Qed.

(** A key set by an earlier block of the prediction group is not changed by
    the later ones. *)
Lemma prediction_keeps_regression (N : numerics) (p t : tensor2)
  (c : option tensor2) (k : string) :
  In k (map fst regression_defaults) ->
  dict_get (calculate_prediction_metrics N p t c) k
  = dict_get (after_regression p t) k.
Proof.
  intros Hk. unfold calculate_prediction_metrics, after_classification.
  assert (H2 : dict_get (try_update (classification_block N p t)
                           classification_defaults (after_regression p t)) k
               = dict_get (after_regression p t) k).
  { apply try_update_frame with (keys := ["accuracy"; "precision"; "recall"; "f1"]%string);
      [apply classification_touches | |];
      simpl in Hk |- *; intuition (subst; discriminate). }
  destruct c as [c |]; [| exact H2].
  rewrite <- H2.
  apply try_update_frame
    with (keys := ["confidence_accuracy_corr"; "avg_confidence"]%string);
    [apply confidence_touches | |];
    simpl in Hk |- *; intuition (subst; discriminate).
Qed.

Lemma prediction_keeps_classification (N : numerics) (p t : tensor2)
  (c : option tensor2) (k : string) :
  In k (map fst classification_defaults) ->
  dict_get (calculate_prediction_metrics N p t c) k
  = dict_get (after_classification N p t) k.
Proof.
  intros Hk. unfold calculate_prediction_metrics.
  destruct c as [c |]; [| reflexivity].
  apply try_update_frame
    with (keys := ["confidence_accuracy_corr"; "avg_confidence"]%string);
    [apply confidence_touches | |];
    simpl in Hk |- *; intuition (subst; discriminate).
Qed.

Lemma has_entries_transport {V : Type} (d d' entries : dict V) :
  (forall k, In k (map fst entries) -> dict_get d' k = dict_get d k) ->
  has_entries d entries -> has_entries d' entries.
Proof.
  intros Heq H. unfold has_entries in *. rewrite Forall_forall in *.
  intros kv Hin. rewrite Heq; [now apply H |].
  apply in_map_iff. now exists kv.
Qed.

Lemma precision_defaults_set (ks : list Z) (m : dict pyfloat) (k : Z) :
  In k ks ->
  dict_get (fold_left (fun m k => dict_set m (fmt "precision_at_" k) (Fin 0.0))
                      ks m)
           (fmt "precision_at_" k) = Some (Fin 0.0).
Proof.
  revert m. induction ks as [| k0 ks IH] using rev_ind; intros m Hin.
  - contradiction.
  - rewrite fold_left_app. cbn [fold_left]. rewrite dict_get_set.
    destruct (String.eqb (fmt "precision_at_" k0) (fmt "precision_at_" k))
      eqn:E; [reflexivity |].
    apply in_app_or in Hin. destruct Hin as [Hin | [-> | []]].
    + now apply IH.
    + now rewrite String.eqb_refl in E.
Qed.

Lemma recommendation_handler_defaults (ks : list Z) (m : dict pyfloat) :
  Forall (fun key => dict_get (recommendation_handler ks m) key
                     = Some (Fin 0.0))
         (recommendation_default_keys ks).
Proof.
  unfold recommendation_default_keys, recommendation_handler.
  apply Forall_app. split.
  - apply Forall_forall. intros key Hin. apply in_map_iff in Hin.
    destruct Hin as [k [<- Hk]]. rewrite dict_get_update.
    destruct (dict_get (rev recommendation_defaults) _) as [v |] eqn:E.
    + cbn in E.
      repeat match type of E with
             | (if ?b then _ else _) = _ => destruct b
             end; congruence.
    + now apply precision_defaults_set.
  - repeat constructor; rewrite dict_get_update; reflexivity.
Qed.

(** C6, as the code has it.  When a guarded block of a metrics group
    raises, the group's function still returns a dictionary, and in it the
    metrics of that block have their default values: [+inf] for [mse],
    [mae] and [rmse] and 0.0 for [r2] in the regression block of the
    prediction group; 0.0 for the other blocks and groups, the three regime
    ratios being 0.33.  The financial group returns exactly its default
    dictionary. *)
Theorem metrics_groups_fall_back (N : numerics) :
  (forall p t c,
      is_ok (snd (regression_block p t [])) = false ->
      has_entries (calculate_prediction_metrics N p t c) regression_defaults) /\
  (forall p t c,
      is_ok (snd (classification_block N p t (after_regression p t))) = false ->
      has_entries (calculate_prediction_metrics N p t c)
                  classification_defaults) /\
  (forall p t c,
      is_ok (snd (confidence_block N p t c (after_classification N p t)))
      = false ->
      has_entries (calculate_prediction_metrics N p t (Some c))
                  confidence_defaults) /\
  (forall rf tc returns weights benchmark flag,
      is_ok (financial_block N rf tc returns weights benchmark flag) = false ->
      calculate_financial_performance_metrics N rf tc returns weights
        benchmark flag = financial_defaults) /\
  (forall r t ks,
      is_ok (snd (recommendation_block r t ks [])) = false ->
      Forall (fun key => dict_get (calculate_recommendation_metrics r t ks) key
                         = Some (Fin 0.0))
             (recommendation_default_keys ks)) /\
  (forall r returns,
      is_ok (snd (risk_block N r returns [])) = false ->
      has_entries (calculate_risk_metrics N r returns) risk_defaults) /\
  (forall g true_regimes,
      is_ok (snd (regime_block N g true_regimes [])) = false ->
      has_entries (calculate_regime_metrics N g true_regimes) regime_defaults).
Proof.
  assert (Hnd : forall d : dict pyfloat,
             d = regression_defaults \/ d = classification_defaults \/
             d = confidence_defaults \/ d = risk_defaults \/
             d = regime_defaults -> NoDup (map fst d)).
  { intros d [-> | [-> | [-> | [-> | ->]]]]; simpl;
      repeat (constructor; [simpl; intuition discriminate |]); constructor. }
  repeat split.
  - intros p t c H.
    apply has_entries_transport with (d := after_regression p t).
    + intros k Hk. now apply prediction_keeps_regression.
    + unfold after_regression. rewrite try_update_raises by exact H.
      apply has_entries_update. apply Hnd. tauto.
  - intros p t c H.
    apply has_entries_transport with (d := after_classification N p t).
    + intros k Hk. now apply prediction_keeps_classification.
    + unfold after_classification. rewrite try_update_raises by exact H.
      apply has_entries_update. apply Hnd. tauto.
  - intros p t c H. unfold calculate_prediction_metrics.
    rewrite try_update_raises by exact H.
    apply has_entries_update. apply Hnd. tauto.
  - intros rf tc returns weights benchmark flag H.
    unfold calculate_financial_performance_metrics.
    destruct (financial_block N rf tc returns weights benchmark flag);
      [discriminate | reflexivity].
  - intros r t ks H. unfold calculate_recommendation_metrics.
    destruct (recommendation_block r t ks []) as [m [u | e]]; simpl in H;
      [discriminate |].
    apply recommendation_handler_defaults.
  - intros r returns H. unfold calculate_risk_metrics.
    rewrite try_update_raises by exact H.
    apply has_entries_update. apply Hnd. tauto.
  - intros g tr H. unfold calculate_regime_metrics.
    rewrite try_update_raises by exact H.
    apply has_entries_update. apply Hnd. tauto.
Qed.

End Fallbacks.

(** Two predictions against three targets: scikit-learn refuses arrays of
    different lengths, in the regression block and in the scorers of the
    classification block alike.  The regression metrics come back as
    [+inf], not as 0.0. *)
Lemma prediction_error_metrics_are_infinite :
  let predictions := T2 2 [[0.6; 0.4]] in
  let targets := T2 3 [[0.1; 0.2; 0.3]] in
  snd (regression_block predictions targets []) = Raise ValueError /\
  calculate_prediction_metrics refusing_numerics predictions targets None
  = [("mse"%string, PInf); ("mae"%string, PInf); ("rmse"%string, PInf);
     ("r2"%string, Fin 0.0); ("accuracy"%string, Fin 0.0);
     ("precision"%string, Fin 0.0); ("recall"%string, Fin 0.0);
     ("f1"%string, Fin 0.0)] /\
  dict_get (calculate_prediction_metrics refusing_numerics predictions
              targets None) "mse" <> Some (Fin 0.0).
Proof.
  cbv zeta. split; [reflexivity |]. split; [reflexivity |].
  intros H. discriminate H.
Qed.

Lemma metrics_groups_fall_back_witness :
  has_entries
    (calculate_prediction_metrics refusing_numerics (T2 2 [[0.6; 0.4]])
       (T2 3 [[0.1; 0.2; 0.3]]) None)
    regression_defaults.
Proof.
  apply (proj1 (metrics_groups_fall_back refusing_numerics)). reflexivity.
Defined.

(** ** C9: the best metrics of the tracker *)

Section Tracker.

(** C9.  Two updates without a Sharpe ratio, the first with [f1 = 0.9] and
    the second with [f1 = 0.1]: the primary metric of the first bundle is
    the larger one, and the tracker retains the second bundle.  The
    comparison reads the Sharpe ratio of the retained bundle with the
    default [-inf], not its primary metric. *)
Theorem tracker_forgets_best_f1 :
  let first := [("f1"%string, Fin 0.9)] in
  let second := [("f1"%string, Fin 0.1)] in
  let tracker := update (update tracker_init 0 first) 1 second in
  best_metrics tracker = second /\
  best_epoch tracker = 1%Z /\
  pf_gtb (primary_metric first) (primary_metric second) = true.
Proof.
  cbv zeta. unfold update, tracker_init, primary_metric, dict_get_default.
  cbn [best_metrics best_epoch epoch_metrics dict_is_empty orb dict_get
       String.eqb Ascii.eqb Bool.eqb pf_gtb pf_ltb].
  repeat split. apply Rltb_true. lra.
Qed.

End Tracker.

(** ** C8: a sequence of length 0 *)

Section EmptySequence.

Lemma mlp3_seq (M : Mlp) (ps : pass) (s : site) (x y : tensor3) :
  mlp3 M ps s x = Ok y -> t3_seq y = t3_seq x.
Proof.
  unfold mlp3.
  destruct (negb (t3_feat x =? in_features (fc1 M))%nat); [discriminate |].
  destruct (negb (out_features (fc1 M) =? in_features (fc2 M))%nat);
    [discriminate |].
  intros H. injection H as <-. reflexivity.
Qed.

Lemma cat_last_seq (x y z : tensor3) :
  cat_last x y = Ok z -> t3_seq z = t3_seq x.
Proof.
  unfold cat_last.
  destruct ((t3_batch x =? t3_batch y)%nat && (t3_seq x =? t3_seq y)%nat);
    [| discriminate].
  intros H. injection H as <-. reflexivity.
Qed.

Lemma fusion_forward_seq (L : Linear) (ps : pass) (x y : tensor3) :
  fusion_forward L ps x = Ok y -> t3_seq y = t3_seq x.
Proof.
  unfold fusion_forward.
  destruct (negb (t3_feat x =? in_features L)%nat); [discriminate |].
  intros H. injection H as <-. reflexivity.
Qed.

Lemma feature_encoder_seq (F : FinancialFeatureEncoder) (ps : pass)
  (price volume technical fundamental enc : tensor3) :
  feature_encoder_forward F ps price volume technical fundamental = Ok enc ->
  t3_seq enc = t3_seq price.
Proof.
  unfold feature_encoder_forward. intros H.
  destruct (mlp3 (price_encoder F) ps SitePrice price) as [pe |] eqn:E1;
    [| discriminate].
  destruct (mlp3 (volume_encoder F) ps SiteVolume volume) as [ve |];
    [| discriminate].
  destruct (mlp3 (technical_encoder F) ps SiteTechnical technical) as [te |];
    [| discriminate].
  destruct (mlp3 (fundamental_encoder F) ps SiteFundamental fundamental)
    as [fe |]; [| discriminate].
  cbn [bind] in H.
  destruct (cat_last pe ve) as [pv |] eqn:E2; [| discriminate H].
  cbn [bind] in H.
  destruct (cat_last pv te) as [pvt |] eqn:E3; [| discriminate H].
  cbn [bind] in H.
  destruct (cat_last pvt fe) as [all |] eqn:E4; [| discriminate H].
  cbn [bind] in H.
  apply fusion_forward_seq in H. apply cat_last_seq in E2, E3, E4.
  apply mlp3_seq in E1. congruence.
Qed.

Lemma positional_encoding_seq (P : PositionalEncoding) (ps : pass)
  (x y : tensor3) :
  positional_encoding_forward P ps x = Ok y -> t3_seq y = t3_seq x.
Proof.
  unfold positional_encoding_forward.
  destruct (broadcast_dim (t3_batch x) _); [| discriminate].
  destruct (broadcast_dim (t3_feat x) _); [| discriminate].
  intros H. injection H as <-. reflexivity.
Qed.

Lemma transformer_encoder_seq (layers : list encoder_layer) (src out : tensor3)
  (mask : list (list pyfloat)) :
  transformer_encoder_forward layers src mask = Ok out ->
  t3_seq out = t3_seq src.
Proof.
  revert src. induction layers as [| layer rest IH]; intros src H; simpl in H.
  - now injection H as <-.
  - destruct (layer src mask) as [d |]; [| discriminate].
    cbn [bind] in H. apply IH in H. exact H.
Qed.

(** The trace and the result of a pass in terms of its stages. *)
Lemma forward_traced_stages (E : Engine) (ps : pass)
  (price volume technical fundamental enc src : tensor3) :
  feature_encoder_forward (e_feature_encoder E) ps price volume technical
    fundamental = Ok enc ->
  positional_encoding_forward (e_positional_encoding E) ps enc = Ok src ->
  forward_traced E ps price volume technical fundamental
  = ([MaskCreated (t3_seq price) (create_attention_mask (t3_seq price))],
     out <- transformer_encoder_forward (e_transformer_encoder E) src
              (create_attention_mask (t3_seq price)) ;;
     final <- last_time_step out ;;
     head_forward (e_recommendation_head E) ps final).
Proof.
  intros He Hp. unfold forward_traced, tlift, traced_mask.
  rewrite He. cbn [tbind]. rewrite Hp. cbn [tbind app].
  destruct (transformer_encoder_forward _ src _) as [out |];
    cbn [tbind bind app]; [| reflexivity].
  destruct (last_time_step out) as [final |]; cbn [tbind bind app];
    reflexivity.
Qed.

Lemma forward_traced_rejected_early (E : Engine) (ps : pass)
  (price volume technical fundamental : tensor3) :
  (is_ok (feature_encoder_forward (e_feature_encoder E) ps price volume
            technical fundamental) = false
   \/ exists enc,
       feature_encoder_forward (e_feature_encoder E) ps price volume
         technical fundamental = Ok enc /\
       is_ok (positional_encoding_forward (e_positional_encoding E) ps enc)
       = false) ->
  exists e,
    forward_traced E ps price volume technical fundamental = ([], Raise e).
Proof.
  unfold forward_traced, tlift. intros [H | [enc [He H]]].
  - destruct (feature_encoder_forward _ _ _ _ _ _) as [enc | e];
      [discriminate |]. exists e. reflexivity.
  - rewrite He. cbn [tbind].
    destruct (positional_encoding_forward _ _ _) as [src | e];
      [discriminate |]. exists e. reflexivity.
Qed.

(** C8, as the code has it.  [forward] does not check the sequence length.
    On an input of sequence length 0 it never returns outputs; and when the
    feature encoder and the positional encoding accept the input (its
    feature sizes and batch sizes fit), the pass builds the mask of size 0,
    which has no row, and raises afterwards: in the encoder stack, or with
    [IndexError] where the last time step is selected. *)
Theorem zero_length_reaches_mask (E : Engine) (ps : pass)
  (price volume technical fundamental : tensor3) :
  t3_seq price = 0%nat ->
  is_ok (forward E ps price volume technical fundamental) = false /\
  create_attention_mask 0 = [] /\
  forall enc src,
    feature_encoder_forward (e_feature_encoder E) ps price volume technical
      fundamental = Ok enc ->
    positional_encoding_forward (e_positional_encoding E) ps enc = Ok src ->
    fst (forward_traced E ps price volume technical fundamental)
    = [MaskCreated 0 []] /\
    (forall out,
        transformer_encoder_forward (e_transformer_encoder E) src [] = Ok out ->
        forward E ps price volume technical fundamental = Raise IndexError).
Proof.
  intros Hseq. split; [| split; [reflexivity |]].
  - unfold forward.
    destruct (feature_encoder_forward (e_feature_encoder E) ps price volume
                technical fundamental) as [enc | e] eqn:He.
    + destruct (positional_encoding_forward (e_positional_encoding E) ps enc)
        as [src | e] eqn:Hp.
      * rewrite (forward_traced_stages _ _ _ _ _ _ _ _ He Hp). cbn [snd].
        destruct (transformer_encoder_forward _ src _) as [out | e] eqn:Ht;
          [| reflexivity].
        cbn [bind]. apply transformer_encoder_seq in Ht.
        apply positional_encoding_seq in Hp. apply feature_encoder_seq in He.
        unfold last_time_step.
        replace (t3_seq out) with 0%nat by congruence. reflexivity.
      * destruct (forward_traced_rejected_early E ps price volume technical
                    fundamental) as [e' ->]; [| reflexivity].
        right. exists enc. split; [exact He |]. now rewrite Hp.
    + destruct (forward_traced_rejected_early E ps price volume technical
                  fundamental) as [e' ->]; [| reflexivity].
      left. now rewrite He.
  - intros enc src He Hp.
    rewrite (forward_traced_stages _ _ _ _ _ _ _ _ He Hp), Hseq.
    split; [reflexivity |].
    intros out Ht. unfold forward.
    rewrite (forward_traced_stages _ _ _ _ _ _ _ _ He Hp), Hseq. cbn [snd].
    change (create_attention_mask 0) with (@nil (list pyfloat)).
    rewrite Ht. cbn [bind]. apply transformer_encoder_seq in Ht.
    apply positional_encoding_seq in Hp. apply feature_encoder_seq in He.
    unfold last_time_step.
    replace (t3_seq out) with 0%nat by congruence. reflexivity.
Qed.

End EmptySequence.

(** An engine that runs: [d_model = 6] makes the four sub-embeddings
    1 + 1 + 3 + 1 = 6 wide, the width that the fusion layer takes.  One
    sample without time steps passes the feature encoder and the positional
    encoding; the pass builds the empty mask and fails at the last time
    step. *)
Lemma zero_length_mask_is_built :
  let E := engine_init 6 [fun x _ => Ok (t3_data x)] 0.1 2 60 5
             (fun _ _ _ => 0) (fun _ _ => 0) in
  let empty f := T3 0 f [[]] in
  forward_traced E eval_pass (empty 1%nat) (empty 1%nat) (empty 20%nat)
    (empty 15%nat)
  = ([MaskCreated 0 []], Raise IndexError).
Proof. reflexivity. Qed.

Lemma zero_length_reaches_mask_witness :
  let E := engine_init 6 [fun x _ => Ok (t3_data x)] 0.1 2 60 5
             (fun _ _ _ => 0) (fun _ _ => 0) in
  let empty f := T3 0 f [[]] in
  is_ok (forward E eval_pass (empty 1%nat) (empty 1%nat) (empty 20%nat)
           (empty 15%nat)) = false.
Proof.
  intros E empty.
  exact (proj1 (zero_length_reaches_mask E eval_pass (empty 1%nat)
                  (empty 1%nat) (empty 20%nat) (empty 15%nat) eq_refl)).
Defined.

(** ** C10: [predict_step] *)

Section TopK.

Lemma StronglySorted_app_inv {A : Type} (R : A -> A -> Prop) (l1 l2 : list A) :
  StronglySorted R (l1 ++ l2) ->
  forall x y, In x l1 -> In y l2 -> R x y.
Proof.
  induction l1 as [| a l1 IH]; intros Hs x y Hx Hy; [contradiction |].
  simpl in Hs. inversion Hs as [| ? ? Hs' Ha]; subst.
  destruct Hx as [-> | Hx].
  - rewrite Forall_forall in Ha. apply Ha. apply in_or_app. now right.
  - now apply IH.
Qed.

Lemma StronglySorted_weaken {A : Type} (R S : A -> A -> Prop) (l : list A) :
  (forall a b, R a b -> S a b) -> StronglySorted R l -> StronglySorted S l.
Proof.
  intros HRS Hs. induction Hs as [| a l Hs IH Ha]; constructor.
  - exact IH.
  - eapply Forall_impl; [| exact Ha]. intros b. apply HRS.
Qed.

Lemma NoDup_firstn {A : Type} (n : nat) (l : list A) :
  NoDup l -> NoDup (firstn n l).
Proof.
  intros Hnd. rewrite <- (firstn_skipn n l) in Hnd.
  now apply NoDup_app_remove_r in Hnd.
Qed.

Lemma Rleb_le (a b : R) : Rleb a b = true -> a <= b.
Proof. unfold Rleb. destruct (Rle_dec a b); [trivial | discriminate]. Qed.

(** The first [k] of a row in descending order are its top [k]. *)
Lemma topk_row (probs : list R) (k : nat) :
  (k <= length probs)%nat ->
  is_top_k probs k
    (firstn k (torch_argsort_desc probs))
    (firstn k (sort_by (fun a b => Rleb b a) probs)).
Proof.
  intros Hk. unfold torch_argsort_desc.
  set (le := fun a b : R => Rleb b a).
  assert (Htot : forall a b, le a b = false -> le b a = true)
    by (intros a b; apply Rleb_desc_total).
  assert (Htr : forall a b c, le a b = true -> le b c = true -> le a c = true)
    by (intros a b c; apply Rleb_desc_trans).
  repeat split.
  - rewrite length_firstn, argsort_by_length. lia.
  - apply NoDup_firstn. apply argsort_by_NoDup.
  - apply Forall_forall. intros j Hj. apply In_firstn in Hj.
    now apply argsort_by_bound in Hj.
  - rewrite (sort_by_argsort le probs 0). apply firstn_map.
  - apply StronglySorted_firstn.
    apply StronglySorted_weaken with (R := fun a b => le a b = true).
    + intros a b H. now apply Rleb_le.
    + now apply sort_by_sorted.
  - intros j Hj Hnotin. apply Forall_forall. intros p Hp.
    unfold sort_by in Hp. rewrite firstn_map in Hp.
    apply in_map_iff in Hp. destruct Hp as [[i v] [<- Hin]]. cbn [snd].
    assert (Hjin : In j (skipn k (argsort_by le probs))).
    { assert (Hall : In j (argsort_by le probs)).
      { apply (Permutation_in _ (Permutation_sym (argsort_by_perm le probs))).
        apply in_seq. lia. }
      rewrite <- (firstn_skipn k (argsort_by le probs)) in Hall.
      apply in_app_or in Hall. destruct Hall; [contradiction | assumption]. }
    unfold argsort_by in Hjin. rewrite skipn_map in Hjin.
    apply in_map_iff in Hjin. destruct Hjin as [[j' vj] [Hfst Hjin]].
    cbn [fst] in Hfst. subst j'.
    assert (Hvj : nth j probs 0 = vj).
    { apply nth_error_nth. apply (enumerate_entries probs j vj).
      apply (Permutation_in _ (sort_pairs_perm le (enumerate probs))).
      rewrite <- (firstn_skipn k (sort_pairs le (enumerate probs))).
      apply in_or_app. now right. }
    rewrite Hvj.
    pose proof (sort_pairs_sorted le Htot Htr (enumerate probs)) as Hs.
    rewrite <- (firstn_skipn k (sort_pairs le (enumerate probs))) in Hs.
    pose proof (StronglySorted_app_inv _ _ _ Hs (i, v) (j, vj) Hin Hjin) as Hb.
    cbn [snd] in Hb. now apply Rleb_le.
Qed.

Lemma forward_ok_head (E : Engine) (ps : pass)
  (price volume technical fundamental : tensor3) (out : outputs) :
  forward E ps price volume technical fundamental = Ok out ->
  exists final, head_forward (e_recommendation_head E) ps final = Ok out.
Proof.
  unfold forward, forward_traced, tlift, traced_mask. intros H.
  destruct (feature_encoder_forward _ _ _ _ _ _) as [enc |];
    [| discriminate H].
  cbn [tbind] in H.
  destruct (positional_encoding_forward _ _ _) as [src |];
    [| discriminate H].
  cbn [tbind] in H.
  destruct (transformer_encoder_forward _ _ _) as [tout |];
    [| discriminate H].
  cbn [tbind] in H.
  destruct (last_time_step tout) as [final |]; [| discriminate H].
  cbn [tbind] in H. exists final.
  destruct (head_forward _ ps final) as [o |]; [| discriminate H].
  cbn [snd app] in H. exact H.
Qed.

Lemma head_forward_logits (d_model num_assets num_risk_factors : nat)
  (w : nat -> nat -> nat -> R) (b : nat -> nat -> R) (ps : pass)
  (x : tensor2) (out : outputs) :
  head_forward (head_init d_model num_assets num_risk_factors w b) ps x
  = Ok out ->
  t2_cols (raw_logits out) = num_assets /\
  Forall (fun row => length row = num_assets) (t2_data (raw_logits out)).
Proof.
  unfold head_forward. intros H.
  destruct (mlp2 (recommendation_head _) ps SiteRecommendation x)
    as [raw |] eqn:Eraw; [| discriminate H].
  cbn [bind] in H.
  destruct (mlp2 (confidence_head _) ps SiteConfidence x); [| discriminate H].
  cbn [bind] in H.
  destruct (mlp2 (risk_head _) ps SiteRisk x); [| discriminate H].
  cbn [bind] in H.
  destruct (mlp2 (regime_head _) ps SiteRegime x); [| discriminate H].
  cbn [bind] in H. injection H as <-. cbn [raw_logits].
  apply mlp2_ok in Eraw. destruct Eraw as (Hc & _ & Hrows).
  split; [exact Hc | exact Hrows].
Qed.

Lemma softmax_scaled_length (temperature : R) (logits : list R) :
  length (softmax (map (fun v => v / temperature) logits)) = length logits.
Proof. now rewrite softmax_length, length_map. Qed.

(** C10.  For a temperature other than 0, [predict_step] returns only for
    a [top_k] between 0 and the number of assets.  What it returns then
    holds, for every sample, the positions and the values of the [top_k]
    largest probabilities of the softmax of the logits divided by the
    temperature, largest first, and the confidence, the risk scores and the
    regime probabilities of the forward pass as they are.  Conversely it
    returns whenever the forward pass does and [top_k] lies in that
    range. *)
Theorem predict_step_top_k (d_model : nat) (layers : list encoder_layer)
  (dropout : R) (num_assets sequence_length num_risk_factors : nat)
  (w : nat -> nat -> nat -> R) (b : nat -> nat -> R) (ps : pass)
  (price volume technical fundamental : tensor3) (temperature : R)
  (top_k : Z) :
  let E := engine_init d_model layers dropout num_assets sequence_length
             num_risk_factors w b in
  temperature <> 0 ->
  (forall q,
      predict_step E ps price volume technical fundamental temperature top_k
      = Ok q ->
      (0 <= top_k <= Z.of_nat num_assets)%Z /\
      exists r out,
        q = Predicted r /\
        forward E ps price volume technical fundamental = Ok out /\
        p_confidence r = confidence out /\
        p_risk_scores r = risk_scores out /\
        p_regime_probs r = regime_probs out /\
        length (top_k_assets r) = t2_rows (raw_logits out) /\
        t2_rows (top_k_probabilities r) = t2_rows (raw_logits out) /\
        forall i logits,
          nth_error (t2_data (raw_logits out)) i = Some logits ->
          exists idxs values,
            nth_error (top_k_assets r) i = Some idxs /\
            nth_error (t2_data (top_k_probabilities r)) i = Some values /\
            length logits = num_assets /\
            is_top_k (softmax (map (fun v => v / temperature) logits))
                     (Z.to_nat top_k) idxs values) /\
  (is_ok (forward E ps price volume technical fundamental) = true ->
   (0 <= top_k <= Z.of_nat num_assets)%Z ->
   is_ok (predict_step E ps price volume technical fundamental temperature
            top_k) = true).
Proof.
  intros E HT. split.
  - intros q H. unfold predict_step in H.
    destruct (forward E ps price volume technical fundamental) as [out |] eqn:Ef;
      [| discriminate H].
    cbn [bind] in H.
    destruct (forward_ok_head _ _ _ _ _ _ _ Ef) as [final Hh].
    apply head_forward_logits in Hh. destruct Hh as [Hcols Hrows].
    unfold scaled_probabilities in H. rewrite (Reqb_false _ _ HT) in H.
    unfold torch_topk, map2d in H.
    cbn [t2_cols t2_data] in H. rewrite Hcols in H.
    destruct ((top_k <? 0)%Z || (Z.of_nat num_assets <? top_k)%Z) eqn:Ek;
      [discriminate H |].
    apply orb_false_iff in Ek. destruct Ek as [Ek1 Ek2].
    apply Z.ltb_ge in Ek1, Ek2.
    cbn [bind fst snd] in H. injection H as <-.
    split; [lia |]. eexists. exists out. split; [reflexivity |].
    split; [reflexivity |].
    cbn [p_confidence p_risk_scores p_regime_probs top_k_assets
         top_k_probabilities t2_rows t2_data].
    do 3 (split; [reflexivity |]).
    unfold t2_rows. cbn [t2_data].
    do 2 (split; [rewrite !length_map; reflexivity |]).
    intros i logits Hi.
    rewrite !map_map, !nth_error_map, Hi. cbn [option_map].
    eexists. eexists. split; [reflexivity |]. split; [reflexivity |].
    assert (Hlen : length logits = num_assets).
    { rewrite Forall_forall in Hrows. apply Hrows.
      eapply nth_error_In. exact Hi. }
    split; [exact Hlen |].
    apply topk_row. rewrite softmax_scaled_length. lia.
  - intros Hf Hk. unfold predict_step.
    destruct (forward E ps price volume technical fundamental) as [out |] eqn:Ef;
      [| discriminate Hf].
    cbn [bind].
    destruct (forward_ok_head _ _ _ _ _ _ _ Ef) as [final Hh].
    apply head_forward_logits in Hh. destruct Hh as [Hcols _].
    unfold scaled_probabilities. rewrite (Reqb_false _ _ HT).
    unfold torch_topk, map2d. cbn [t2_cols].
    rewrite Hcols.
    replace ((top_k <? 0)%Z || (Z.of_nat num_assets <? top_k)%Z) with false.
    + reflexivity.
    + symmetry. apply orb_false_iff. split; apply Z.ltb_ge; lia.
Qed.

End TopK.

(** The engine with [d_model = 6] and two assets on one sample with one time
    step, asked for its top two. *)
Lemma predict_step_top_k_witness :
  let E := engine_init 6 [fun x _ => Ok (t3_data x)] 0.1 2 60 5
             (fun _ _ _ => 0) (fun _ _ => 0) in
  let one f := T3 1 f [[repeat 0 f]] in
  is_ok (predict_step E eval_pass (one 1%nat) (one 1%nat) (one 20%nat)
           (one 15%nat) 1.0 2) = true.
Proof.
  intros E one.
  apply (proj2 (predict_step_top_k 6 [fun x _ => Ok (t3_data x)] 0.1 2 60 5
                  (fun _ _ _ => 0) (fun _ _ => 0) eval_pass (one 1%nat)
                  (one 1%nat) (one 20%nat) (one 15%nat) 1.0 2 ltac:(lra))).
  - reflexivity.
  - lia.
Defined.

(** At temperature 0 [predict_step] still returns for a [top_k] in range,
    with NaN for every probability and the other outputs of the forward
    pass. *)
Lemma predict_step_at_temperature_zero (E : Engine) (ps : pass)
  (price volume technical fundamental : tensor3) (top_k : Z) (out : outputs) :
  forward E ps price volume technical fundamental = Ok out ->
  (0 <= top_k <= Z.of_nat (t2_cols (raw_logits out)))%Z ->
  predict_step E ps price volume technical fundamental 0 top_k
  = Ok (NanPrediction (Z.to_nat top_k) (confidence out) (risk_scores out)
          (regime_probs out)).
Proof.
  intros Hf Hk. unfold predict_step. rewrite Hf. cbn [bind].
  unfold scaled_probabilities. rewrite Reqb_true by reflexivity.
  replace ((top_k <? 0)%Z || (Z.of_nat (t2_cols (raw_logits out)) <? top_k)%Z)
    with false; [reflexivity |].
  symmetry. apply orb_false_iff. split; apply Z.ltb_ge; lia.
Qed.

(** ** The combiner returns on well-shaped batches *)

Section CombinerReturns.

Lemma broadcast_dim_same (n : nat) : broadcast_dim n n = Some n.
Proof. unfold broadcast_dim. now rewrite Nat.eqb_refl. Qed.

Lemma broadcast_dim_one_r (n : nat) : broadcast_dim n 1 = Some n.
Proof.
  unfold broadcast_dim. destruct (n =? 1)%nat eqn:E; [reflexivity |].
  reflexivity.
Qed.

Lemma mse_loss_returns (x y : view) :
  v_rows x = v_rows y -> (v_cols x = v_cols y \/ v_cols y = 1%nat) ->
  exists v, mse_loss x y = Ok v.
Proof.
  intros Hr Hc. unfold mse_loss. rewrite Hr, broadcast_dim_same.
  destruct Hc as [-> | ->].
  - rewrite broadcast_dim_same. eexists. reflexivity.
  - rewrite broadcast_dim_one_r. eexists. reflexivity.
Qed.

Lemma ranking_term_returns (p t : tensor2) (i : nat) :
  well_shaped p -> well_shaped t -> t2_cols p = t2_cols t ->
  (i < t2_rows p)%nat -> (i < t2_rows t)%nat ->
  exists v, ranking_term p t i = Ok v.
Proof.
  intros Hp Ht Hc Hi Hi'. unfold ranking_term, index, t2_rows in *.
  destruct (nth_error (t2_data p) i) as [pr |] eqn:Ep;
    [| apply nth_error_None in Ep; lia].
  destruct (nth_error (t2_data t) i) as [tr |] eqn:Et;
    [| apply nth_error_None in Et; lia].
  cbn [bind]. unfold index_differences, torch_argsort_desc.
  rewrite !argsort_by_length.
  assert (Hlen : length pr = length tr).
  { unfold well_shaped in *. rewrite Forall_forall in Hp, Ht.
    rewrite (Hp pr), (Ht tr); eauto using nth_error_In. }
  rewrite Hlen, broadcast_dim_same. cbn [bind]. eexists. reflexivity.
Qed.

Lemma ranking_sum_returns (p t : tensor2) (idx : list nat) (acc : pyfloat) :
  well_shaped p -> well_shaped t -> t2_cols p = t2_cols t ->
  Forall (fun i => (i < t2_rows p)%nat /\ (i < t2_rows t)%nat) idx ->
  exists v, ranking_sum p t acc idx = Ok v.
Proof.
  intros Hp Ht Hc Hidx. revert acc.
  induction Hidx as [| i idx [Hi Hi'] Hidx IH]; intros acc; simpl.
  - eexists. reflexivity.
  - destruct (ranking_term_returns p t i Hp Ht Hc Hi Hi') as [term ->].
    cbn [bind]. apply IH.
Qed.

Lemma recommendation_loss_returns (p t : tensor2) (c : option tensor2) :
  well_shaped p -> well_shaped t -> t2_cols p = t2_cols t ->
  t2_rows p = t2_rows t -> (0 < t2_rows p)%nat ->
  exists v, _calculate_recommendation_loss p t c = Ok v.
Proof.
  intros Hp Ht Hc Hr Hpos. unfold _calculate_recommendation_loss.
  destruct (mse_loss_returns (view_of p) (view_of t)) as [mse ->];
    [exact Hr | left; exact Hc |].
  cbn [bind].
  destruct (ranking_sum_returns p t (seq 0 (t2_rows p)) (Fin 0) Hp Ht Hc)
    as [total ->].
  { apply Forall_forall. intros i Hi. apply in_seq in Hi. lia. }
  cbn [bind]. destruct (t2_rows p =? 0)%nat eqn:E;
    [apply Nat.eqb_eq in E; lia |].
  destruct c; eexists; reflexivity.
Qed.

Lemma confidence_loss_returns (c p t : tensor2) :
  t2_cols p = t2_cols t -> t2_rows p = t2_rows t -> t2_rows c = t2_rows p ->
  exists v, _calculate_confidence_loss c p t = Ok v.
Proof.
  intros Hc Hr Hrc. unfold _calculate_confidence_loss.
  cbn [view_of v_rows v_cols]. rewrite Hr, Hc, !broadcast_dim_same.
  apply mse_loss_returns; cbn [view_of v_rows v_cols]; [congruence | now right].
Qed.

Lemma risk_loss_returns (r t : tensor2) :
  t2_rows r = t2_rows t -> exists v, _calculate_risk_loss r t = Ok v.
Proof.
  intros Hr. unfold _calculate_risk_loss.
  apply mse_loss_returns; cbn [view_of_vector v_rows v_cols];
    [reflexivity | left].
  rewrite !length_map. exact Hr.
Qed.

Lemma regime_label_bound (m s : pyfloat) : (regime_label m s <= 2)%nat.
Proof.
  unfold regime_label.
  destruct (pf_gtb m (Fin 0.001) && pf_ltb s (Fin 0.03));
    [| destruct (pf_ltb m (Fin (- 0.001)) && pf_gtb s (Fin 0.02))]; lia.
Qed.

Lemma regime_loss_returns (g t : tensor2) :
  t2_rows g = t2_rows t -> (3 <= t2_cols g)%nat ->
  exists v, _calculate_regime_loss g t = Ok v.
Proof.
  intros Hr Hc. unfold _calculate_regime_loss, cross_entropy.
  rewrite infer_regime_labels_map, length_map.
  unfold t2_rows in *. rewrite Hr, Nat.eqb_refl. cbn [negb].
  replace (existsb _ _) with false; [eexists; reflexivity |].
  symmetry. apply not_true_is_false. intros H.
  apply existsb_exists in H. destruct H as [c [Hin Hle]].
  apply in_map_iff in Hin. destruct Hin as [row [<- _]].
  apply Nat.leb_le in Hle.
  pose proof (regime_label_bound (torch_mean row) (torch_std row)). lia.
Qed.

(** For the outputs of a forward pass on a batch that is not empty and
    targets of the shape of the recommendations, [_compute_total_loss]
    returns its bundle. *)
Lemma compute_total_loss_returns (W : dict R) (o : outputs) (targets : tensor2) :
  well_shaped (recommendations o) -> well_shaped targets ->
  t2_cols (recommendations o) = t2_cols targets ->
  t2_rows (recommendations o) = t2_rows targets ->
  (0 < t2_rows targets)%nat ->
  t2_rows (confidence o) = t2_rows targets ->
  t2_rows (risk_scores o) = t2_rows targets ->
  t2_rows (regime_probs o) = t2_rows targets ->
  (3 <= t2_cols (regime_probs o))%nat ->
  exists losses, _compute_total_loss W (outputs_dict o) targets = Ok losses.
Proof.
  intros Hp Ht Hc Hr Hpos Hconf Hrisk Hregime H3.
  unfold _compute_total_loss, outputs_dict.
  cbn [dict_get String.eqb Ascii.eqb Bool.eqb].
  destruct (recommendation_loss_returns (recommendations o) targets
              (Some (confidence o)) Hp Ht Hc Hr) as [rl ->]; [lia |].
  cbn [bind].
  destruct (confidence_loss_returns (confidence o) (recommendations o) targets
              Hc Hr) as [cl ->]; [congruence |].
  cbn [bind].
  destruct (risk_loss_returns (risk_scores o) targets Hrisk) as [kl ->].
  cbn [bind].
  destruct (regime_loss_returns (regime_probs o) targets Hregime H3)
    as [gl ->].
  cbn [bind]. eexists. reflexivity.
Qed.

End CombinerReturns.

(** One sample with two assets, two risk factors and the three regimes. *)
Lemma total_loss_is_weighted_sum_witness :
  let o := mkOutputs (T2 2 [[0.6; 0.4]]) (T2 1 [[0.5]]) (T2 2 [[0.5; 0.5]])
             (T2 3 [[0.2; 0.3; 0.5]]) (T2 2 [[0.4; 0.0]]) in
  let targets := T2 2 [[0.5; 0.5]] in
  exists losses,
    _compute_total_loss (init_loss_weights None) (outputs_dict o) targets
    = Ok losses /\
    dict_get losses "total_loss"
    = Some (weighted_sum_of_present default_loss_weights losses).
Proof.
  intros o targets.
  destruct (compute_total_loss_returns (init_loss_weights None) o targets)
    as [losses H];
    try (repeat constructor); try reflexivity; try (cbn; lia).
  exists losses. split; [exact H |].
  exact (proj1 (total_loss_is_weighted_sum (outputs_dict o) targets losses H)).
Defined.

(** ** Further properties of the code *)

Section CausalMask.

Lemma nth_map_seq {B : Type} (f : nat -> B) (n i : nat) (d : B) :
  (i < n)%nat -> nth i (map f (seq 0 n)) d = f i.
Proof.
  intros Hi. rewrite (nth_indep _ d (f 0%nat)) by (rewrite length_map, length_seq; lia).
  rewrite (map_nth f (seq 0 n) 0%nat i). now rewrite seq_nth.
Qed.

Lemma mapi_from_repeat {A B : Type} (f : nat -> A -> B) (a : A) (i n : nat) :
  mapi_from f i (repeat a n) = map (fun k => f k a) (seq i n).
Proof.
  revert i. induction n as [| n IH]; intros i; [reflexivity |].
  cbn [repeat mapi_from seq map]. now rewrite IH.
Qed.

Lemma create_attention_mask_entries (n : nat) :
  create_attention_mask n
  = map (fun i => map (fun j => if (i <? j)%nat then NInf else Fin 0)
                      (seq 0 n))
        (seq 0 n).
Proof.
  unfold create_attention_mask, masked_fill, tensor_eq_scalar, torch_triu,
    torch_ones, mapi. cbv zeta.
  rewrite mapi_from_repeat.
  rewrite (map_ext _ (fun i =>
             map (fun j => if (1 <=? Z.of_nat j - Z.of_nat i)%Z
                           then Fin 1 else Fin 0) (seq 0 n)))
    by (intros i; apply mapi_from_repeat).
  rewrite map_map, map2_map_map.
  apply map_ext. intros i.
  rewrite map_map, map2_map_map.
  apply map_ext. intros j.
  destruct (i <? j)%nat eqn:Eij.
  - apply Nat.ltb_lt in Eij.
    replace (1 <=? Z.of_nat j - Z.of_nat i)%Z with true
      by (symmetry; apply Z.leb_le; lia).
    cbn [pf_eqb]. now rewrite Reqb_true.
  - apply Nat.ltb_ge in Eij.
    replace (1 <=? Z.of_nat j - Z.of_nat i)%Z with false
      by (symmetry; apply Z.leb_gt; lia).
    cbn [pf_eqb]. rewrite Reqb_false by lra. reflexivity.
Qed.

(** The causal mask of [create_attention_mask], built from the upper
    triangle of a matrix of ones, is square, and its entry [(i, j)] is
    [-inf] exactly for [j > i]: position [i] attends to the positions up to
    [i].  For sequence length 1 it is the single entry 0. *)
Theorem attention_mask_is_causal (n : nat) :
  length (create_attention_mask n) = n /\
  Forall (fun row => length row = n) (create_attention_mask n) /\
  (forall i j, (i < n)%nat -> (j < n)%nat ->
     nth j (nth i (create_attention_mask n) []) NaN
     = if (i <? j)%nat then NInf else Fin 0) /\
  create_attention_mask 1 = [[Fin 0]].
Proof.
  rewrite (create_attention_mask_entries 1), create_attention_mask_entries.
  repeat split.
  - now rewrite length_map, length_seq.
  - apply Forall_map. apply Forall_forall. intros i _.
    now rewrite length_map, length_seq.
  - intros i j Hi Hj. rewrite (nth_map_seq _ n i []) by exact Hi.
    now rewrite (nth_map_seq _ n j NaN) by exact Hj.
Qed.

End CausalMask.

Section TrackerWithSharpe.

Lemma run_updates_snoc (updates : list (Z * dict pyfloat)) (em : Z * dict pyfloat) :
  run_updates (updates ++ [em])
  = update (run_updates updates) (fst em) (snd em).
Proof. unfold run_updates. now rewrite fold_left_app. Qed.

Lemma primary_metric_sharpe (m : dict pyfloat) (s : pyfloat) :
  dict_get m "sharpe_ratio" = Some s -> primary_metric m = s.
Proof. intros H. unfold primary_metric, dict_get_default. now rewrite H. Qed.

Lemma sharpe_not_empty (m : dict pyfloat) (s : pyfloat) :
  dict_get m "sharpe_ratio" = Some s -> dict_is_empty m = false.
Proof. destruct m; [discriminate | reflexivity]. Qed.

(** When every bundle carries a finite Sharpe ratio, the tracker retains,
    after each update, a bundle of the updates so far that no other bundle
    exceeds on the primary metric, with its epoch, and its history holds one
    entry per update. *)
Theorem tracker_keeps_best_sharpe (updates : list (Z * dict pyfloat)) :
  updates <> [] ->
  Forall (fun em => exists s, dict_get (snd em) "sharpe_ratio" = Some (Fin s))
         updates ->
  In (best_epoch (run_updates updates), best_metrics (run_updates updates))
     updates /\
  Forall (fun em => pf_gtb (primary_metric (snd em))
                           (primary_metric (best_metrics (run_updates updates)))
                    = false)
         updates /\
  length (epoch_metrics (run_updates updates)) = length updates.
Proof.
  induction updates as [| em updates IH] using rev_ind; intros Hne Hall;
    [congruence |].
  apply Forall_app in Hall. destruct Hall as [Hall Hem].
  inversion Hem as [| ? ? [s Hs] _]; subst.
  rewrite run_updates_snoc.
  destruct updates as [| em0 rest].
  - unfold run_updates, update, tracker_init.
    cbn [fold_left best_metrics best_epoch epoch_metrics dict_is_empty orb
         app length].
    split; [left; now destruct em |]. split; [| reflexivity].
    constructor; [| constructor].
    rewrite (primary_metric_sharpe _ _ Hs). cbn [pf_gtb pf_ltb].
    apply Rltb_false. lra.
  - destruct IH as (Hin & Hmax & Hlen); [discriminate | exact Hall |].
    set (t := run_updates (em0 :: rest)) in *.
    assert (Hbest : exists sb, dict_get (best_metrics t) "sharpe_ratio"
                               = Some (Fin sb)).
    { rewrite Forall_forall in Hall. apply (Hall _ Hin). }
    destruct Hbest as [sb Hsb].
    assert (Hupd :
      update t (fst em) (snd em)
      = let history :=
          epoch_metrics t
          ++ [dict_update [("epoch"%string, Fin (IZR (fst em)))] (snd em)] in
        if Rltb sb s then mkTracker history (snd em) (fst em)
        else mkTracker history (best_metrics t) (best_epoch t)).
    { unfold update. rewrite (sharpe_not_empty _ _ Hsb). cbn [orb].
      rewrite (primary_metric_sharpe _ _ Hs).
      unfold dict_get_default. rewrite Hsb. reflexivity. }
    rewrite Hupd. cbv zeta.
    destruct (Rltb sb s) eqn:Ecmp;
      cbn [best_epoch best_metrics epoch_metrics].
    + apply Rltb_spec in Ecmp. repeat split.
      * apply in_or_app. right. left. now destruct em.
      * rewrite (primary_metric_sharpe _ _ Hs). apply Forall_app. split.
        -- rewrite Forall_forall in Hmax, Hall |- *. intros x Hx.
           specialize (Hmax x Hx). destruct (Hall x Hx) as [sx Hsx].
           rewrite (primary_metric_sharpe _ _ Hsx) in Hmax |- *.
           rewrite (primary_metric_sharpe _ _ Hsb) in Hmax.
           cbn [pf_gtb pf_ltb] in *. apply Rltb_false.
           destruct (Rlt_dec sb sx) as [Hlt | Hge];
             [apply Rltb_true in Hlt; congruence | lra].
        -- constructor; [| constructor].
           rewrite (primary_metric_sharpe _ _ Hs). cbn [pf_gtb pf_ltb].
           apply Rltb_false. lra.
      * rewrite !length_app, Hlen. reflexivity.
    + repeat split.
      * apply in_or_app. now left.
      * apply Forall_app. split; [exact Hmax |].
        constructor; [| constructor].
        rewrite (primary_metric_sharpe _ _ Hs),
          (primary_metric_sharpe _ _ Hsb).
        cbn [pf_gtb pf_ltb]. exact Ecmp.
      * rewrite !length_app, Hlen. reflexivity.
Qed.

End TrackerWithSharpe.

(** Three epochs with Sharpe ratios 0.5, 1.2 and 0.8. *)
Lemma tracker_keeps_best_sharpe_witness :
  let updates := [(0%Z, [("sharpe_ratio"%string, Fin 0.5)]);
                  (1%Z, [("sharpe_ratio"%string, Fin 1.2)]);
                  (2%Z, [("sharpe_ratio"%string, Fin 0.8)])] in
  In (best_epoch (run_updates updates), best_metrics (run_updates updates))
     updates.
Proof.
  intros updates.
  apply (tracker_keeps_best_sharpe updates).
  - discriminate.
  - repeat constructor; eexists; reflexivity.
Defined.

(** ** The recommendation loss in closed form *)

Section RecommendationLossFormula.

Lemma map_seq_nth2 {A B C : Type} (f : A -> B -> C) (l1 : list A)
  (l2 : list B) (d1 : A) (d2 : B) :
  length l1 = length l2 ->
  map (fun i => f (nth i l1 d1) (nth i l2 d2)) (seq 0 (length l1))
  = map2 f l1 l2.
Proof.
  unfold map2. revert l2.
  induction l1 as [| a l1 IH]; intros [| b l2] Hlen; simpl in *;
    try discriminate; [reflexivity |].
  f_equal. rewrite <- seq_shift, map_map. apply IH. lia.
Qed.

Lemma map_seq_bidx {B : Type} (g : nat -> B) (n : nat) :
  map (fun i => g (bidx n i)) (seq 0 n) = map g (seq 0 n).
Proof.
  apply map_ext_in. intros i Hi. apply in_seq in Hi. unfold bidx.
  destruct (n =? 1)%nat eqn:E; [| reflexivity].
  apply Nat.eqb_eq in E. f_equal. lia.
Qed.

Lemma combine_app_same {A B : Type} (l1 l1' : list A) (l2 l2' : list B) :
  length l1 = length l2 ->
  combine (l1 ++ l1') (l2 ++ l2') = combine l1 l2 ++ combine l1' l2'.
Proof.
  revert l2. induction l1 as [| a l1 IH]; intros [| b l2] Hlen; simpl in *;
    try discriminate; [reflexivity |].
  f_equal. apply IH. lia.
Qed.

Lemma concat_map2 {A B C : Type} (f : A -> B -> C) (l1 : list (list A))
  (l2 : list (list B)) :
  Forall2 (fun r1 r2 => length r1 = length r2) l1 l2 ->
  concat (map2 (map2 f) l1 l2) = map2 f (concat l1) (concat l2).
Proof.
  unfold map2. induction 1 as [| r1 r2 l1 l2 Hr Hl IH]; simpl; [reflexivity |].
  rewrite IH, combine_app_same by exact Hr. now rewrite map_app.
Qed.

Lemma same_shape_rows (p t : tensor2) :
  well_shaped p -> well_shaped t -> t2_cols p = t2_cols t ->
  t2_rows p = t2_rows t ->
  Forall2 (fun r1 r2 => length r1 = length r2) (t2_data p) (t2_data t).
Proof.
  unfold well_shaped, t2_rows. destruct p as [cp dp], t as [ct dt].
  cbn [t2_cols t2_data]. intros Hp Ht -> Hlen. revert dt Ht Hlen.
  induction Hp as [| r dp Hr Hp IH]; intros [| r' dt] Ht Hlen;
    simpl in Hlen; try discriminate; constructor.
  - inversion Ht; subst. congruence.
  - apply IH; [now inversion Ht | lia].
Qed.

Lemma flat_map2_same_shape (f : pyfloat -> pyfloat -> pyfloat)
  (p t : tensor2) :
  well_shaped p -> well_shaped t -> t2_cols p = t2_cols t ->
  t2_rows p = t2_rows t ->
  flat_map2 f (view_of p) (view_of t) (t2_rows p) (t2_cols p)
  = map2 (fun a b => f (Fin a) (Fin b)) (flatten p) (flatten t).
Proof.
  intros Hp Ht Hc Hr. unfold flat_map2, bentry, flatten.
  cbn [view_of v_rows v_cols v_at]. rewrite flat_map_concat_map.
  rewrite <- concat_map2 by now apply same_shape_rows.
  f_equal. rewrite <- Hr, <- Hc.
  rewrite (map_seq_bidx
             (fun i => map (fun j => f (Fin (nth (bidx (t2_cols p) j)
                                               (nth i (t2_data p) []) 0))
                                       (Fin (nth (bidx (t2_cols p) j)
                                               (nth i (t2_data t) []) 0)))
                           (seq 0 (t2_cols p)))).
  unfold t2_rows.
  rewrite <- (map_seq_nth2 (map2 (fun a b => f (Fin a) (Fin b)))
                (t2_data p) (t2_data t) [] []) by exact Hr.
  apply map_ext_in. intros i Hi. apply in_seq in Hi.
  rewrite (map_seq_bidx
             (fun j => f (Fin (nth j (nth i (t2_data p) []) 0))
                         (Fin (nth j (nth i (t2_data t) []) 0)))).
  assert (Hlp : length (nth i (t2_data p) []) = t2_cols p).
  { unfold well_shaped in Hp. rewrite Forall_forall in Hp. apply Hp.
    apply nth_In. lia. }
  assert (Hlt : length (nth i (t2_data t) []) = t2_cols p).
  { unfold well_shaped in Ht. rewrite Forall_forall in Ht. rewrite Hc.
    apply Ht. apply nth_In. unfold t2_rows in Hr. lia. }
  rewrite <- Hlp at 1.
  apply (map_seq_nth2 (fun a b => f (Fin a) (Fin b))). congruence.
Qed.

Lemma pf_sum_fin_from (l : list R) (a : R) :
  fold_left pf_add (map Fin l) (Fin a) = Fin (a + Rsum l).
Proof.
  revert a. induction l as [| x l IH]; intros a; simpl.
  - f_equal. ring.
  - rewrite IH. f_equal. ring.
Qed.

Lemma pf_mean_fin (l : list R) :
  l <> [] -> pf_mean (map Fin l) = Fin (Rsum l / INR (length l)).
Proof.
  intros Hne. unfold pf_mean, pf_sum. rewrite pf_sum_fin_from, length_map.
  cbn [pf_div]. rewrite Reqb_false.
  - f_equal. f_equal. ring.
  - apply not_0_INR. destruct l; [congruence | discriminate].
Qed.

Lemma Rmean_fin (l : list R) :
  l <> [] -> Rmean l = Fin (Rsum l / INR (length l)).
Proof.
  intros Hne. unfold Rmean. cbn [pf_div]. rewrite Reqb_false; [reflexivity |].
  apply not_0_INR. destruct l; [congruence | discriminate].
Qed.

Lemma mse_loss_same_shape (p t : tensor2) :
  well_shaped p -> well_shaped t -> t2_cols p = t2_cols t ->
  t2_rows p = t2_rows t -> flatten p <> [] ->
  mse_loss (view_of p) (view_of t) = Ok (Fin (mean_squared_error_of p t)).
Proof.
  intros Hp Ht Hc Hr Hne. unfold mse_loss. cbn [view_of v_rows v_cols].
  rewrite <- Hr, <- Hc, !broadcast_dim_same.
  rewrite flat_map2_same_shape by assumption.
  unfold map2. cbn [pf_square pf_sub pf_neg pf_add pf_mul].
  rewrite <- (map_map (fun pr : R * R => (fst pr + - snd pr) * (fst pr + - snd pr))
                      Fin).
  assert (Hlen : length (flatten p) = length (flatten t)).
  { unfold flatten.
    pose proof (same_shape_rows p t Hp Ht Hc Hr) as H2.
    clear - H2. induction H2 as [| r1 r2 l1 l2 Hr12 _ IH]; simpl;
      [reflexivity |]. rewrite !length_app. congruence. }
  rewrite pf_mean_fin.
  - do 2 f_equal. unfold mean_squared_error_of, map2.
    rewrite length_map, length_combine, <- Hlen, Nat.min_id.
    reflexivity.
  - intros Hnil. apply (f_equal (@length R)) in Hnil.
    rewrite length_map, length_combine, <- Hlen, Nat.min_id in Hnil.
    destruct (flatten p); [congruence | discriminate].
Qed.

Lemma ranking_term_formula (p t : tensor2) (i : nat) (pr tr : list R) :
  nth_error (t2_data p) i = Some pr -> nth_error (t2_data t) i = Some tr ->
  length pr = length tr -> (2 <= length pr)%nat ->
  ranking_term p t i = Ok (Fin (1 - positions_rho pr tr)).
Proof.
  intros Ep Et Hlen Hn. unfold ranking_term, index. rewrite Ep, Et.
  cbn [bind]. unfold index_differences, torch_argsort_desc.
  rewrite !argsort_by_length, Hlen, broadcast_dim_same. cbn [bind].
  assert (Hden : INR (length tr) * (INR (length tr) * INR (length tr) - 1) <> 0).
  { assert (2 <= INR (length tr)).
    { rewrite <- Hlen. replace 2 with (INR 2) by (simpl; lra).
      now apply le_INR. }
    nra. }
  cbn [pf_div pf_sub pf_neg pf_add]. rewrite Reqb_false by exact Hden.
  cbn [pf_neg pf_add]. do 2 f_equal. unfold positions_rho, torch_argsort_desc.
  rewrite Hlen.
  assert (Hd : map (fun d => d * d)
                 (map (fun k => INR (nth (bidx (length tr) k)
                                       (argsort_by (fun a b => Rleb b a) pr) 0%nat)
                                - INR (nth (bidx (length tr) k)
                                         (argsort_by (fun a b => Rleb b a) tr) 0%nat))
                      (seq 0 (length tr)))
               = map2 (fun a b => (INR a - INR b) * (INR a - INR b))
                      (argsort_by (fun a b => Rleb b a) pr)
                      (argsort_by (fun a b => Rleb b a) tr)).
  { rewrite map_map.
    rewrite (map_seq_bidx
               (fun k => (INR (nth k (argsort_by (fun a b => Rleb b a) pr) 0%nat)
                          - INR (nth k (argsort_by (fun a b => Rleb b a) tr) 0%nat))
                         * (INR (nth k (argsort_by (fun a b => Rleb b a) pr) 0%nat)
                            - INR (nth k (argsort_by (fun a b => Rleb b a) tr) 0%nat)))).
    rewrite <- (map_seq_nth2 (fun a b => (INR a - INR b) * (INR a - INR b))
                  (argsort_by (fun a b => Rleb b a) pr)
                  (argsort_by (fun a b => Rleb b a) tr) 0%nat 0%nat)
      by (rewrite !argsort_by_length; exact Hlen).
    now rewrite !argsort_by_length, Hlen. }
  rewrite Hd. lra.
Qed.

Lemma ranking_sum_formula (p t : tensor2) (idx : list nat) (terms : list R)
  (acc : R) :
  Forall2 (fun i v => ranking_term p t i = Ok (Fin v)) idx terms ->
  ranking_sum p t (Fin acc) idx = Ok (Fin (acc + Rsum terms)).
Proof.
  intros H. revert acc.
  induction H as [| i v idx terms Hi _ IH]; intros acc; simpl.
  - do 2 f_equal. ring.
  - rewrite Hi. cbn [bind pf_add]. rewrite IH. do 2 f_equal. ring.
Qed.

Lemma Forall2_map_r {A B : Type} (P : A -> B -> Prop) (f : A -> B)
  (l : list A) :
  Forall (fun i => P i (f i)) l -> Forall2 P l (map f l).
Proof. induction 1; simpl; constructor; assumption. Qed.

Lemma ranking_sum_same_shape (p t : tensor2) :
  well_shaped p -> well_shaped t -> t2_cols p = t2_cols t ->
  t2_rows p = t2_rows t -> (2 <= t2_cols p)%nat ->
  ranking_sum p t (Fin 0) (seq 0 (t2_rows p))
  = Ok (Fin (0 + Rsum (map2 (fun pr tr => 1 - positions_rho pr tr)
                            (t2_data p) (t2_data t)))).
Proof.
  intros Hp Ht Hc Hr Hn. unfold t2_rows in *.
  rewrite <- (map_seq_nth2 (fun pr tr => 1 - positions_rho pr tr)
                (t2_data p) (t2_data t) [] []) by exact Hr.
  apply ranking_sum_formula, Forall2_map_r, Forall_forall.
  intros i Hi. apply in_seq in Hi.
  unfold well_shaped in Hp, Ht. rewrite Forall_forall in Hp, Ht.
  assert (Hlp : length (nth i (t2_data p) []) = t2_cols p)
    by (apply Hp, nth_In; lia).
  assert (Hlt : length (nth i (t2_data t) []) = t2_cols t)
    by (apply Ht, nth_In; lia).
  apply ranking_term_formula.
  - apply nth_error_nth'. lia.
  - apply nth_error_nth'. lia.
  - congruence.
  - lia.
Qed.

Lemma flatten_nonempty (p : tensor2) :
  well_shaped p -> (0 < t2_rows p)%nat -> (0 < t2_cols p)%nat ->
  flatten p <> [].
Proof.
  unfold well_shaped, t2_rows, flatten. destruct p as [c d].
  cbn [t2_cols t2_data]. intros Hp Hr Hc.
  destruct d as [| r d]; [simpl in Hr; lia |].
  inversion Hp as [| ? ? Hlen _]; subst.
  destruct r; [simpl in Hc; lia | discriminate].
Qed.

End RecommendationLossFormula.

(** On a batch of at least one sample and at least two assets the
    recommendation loss is the mean squared error plus 0.1 times the batch
    average of [1 - rho], where [rho] is computed from the two lists of
    sorted positions, and with confidence scores the sum is multiplied by
    the mean of [1 + 0.5 * confidence]. *)
Theorem recommendation_loss_formula (p t : tensor2) (c : option tensor2) :
  well_shaped p -> well_shaped t -> t2_cols p = t2_cols t ->
  t2_rows p = t2_rows t -> (0 < t2_rows p)%nat -> (2 <= t2_cols p)%nat ->
  match c with Some c' => flatten c' <> [] | None => True end ->
  _calculate_recommendation_loss p t c
  = Ok (Fin ((mean_squared_error_of p t
              + 0.1 * (Rsum (map2 (fun pr tr => 1 - positions_rho pr tr)
                                  (t2_data p) (t2_data t))
                       / INR (t2_rows p)))
             * confidence_factor c)).
Proof.
  intros Hp Ht Hc Hr Hrows Hcols Hconf.
  unfold _calculate_recommendation_loss.
  rewrite mse_loss_same_shape
    by (try assumption; apply flatten_nonempty; try assumption; lia).
  cbn [bind]. rewrite ranking_sum_same_shape by assumption. cbn [bind].
  destruct (t2_rows p =? 0)%nat eqn:E; [apply Nat.eqb_eq in E; lia |].
  cbn [pf_div]. rewrite Reqb_false by (apply not_0_INR; lia).
  cbn [pf_mul pf_add].
  generalize (mean_squared_error_of p t) as m.
  generalize (Rsum (map2 (fun pr tr => 1 - positions_rho pr tr)
                         (t2_data p) (t2_data t))) as r.
  intros r m. destruct c as [c' |].
  - unfold all_entries. change (concat (t2_data c')) with (flatten c').
    rewrite Rmean_fin.
    + cbn [pf_mul confidence_factor]. rewrite length_map.
      do 2 f_equal. f_equal. f_equal. unfold Rdiv. lra.
    + intros Hnil. apply Hconf. now apply map_eq_nil in Hnil.
  - cbn [confidence_factor]. do 2 f_equal. unfold Rdiv.
    generalize (/ INR (t2_rows p)) as q. intros q. nra.
Qed.

(** One sample over three assets, with a confidence of 0.4. *)
Lemma recommendation_loss_formula_witness :
  let p := T2 3 [[0.2; 0.5; 0.3]] in
  let t := T2 3 [[0.3; 0.5; 0.2]] in
  let c := Some (T2 1 [[0.4]]) in
  _calculate_recommendation_loss p t c
  = Ok (Fin ((mean_squared_error_of p t
              + 0.1 * (Rsum (map2 (fun pr tr => 1 - positions_rho pr tr)
                                  (t2_data p) (t2_data t))
                       / INR (t2_rows p)))
             * confidence_factor c)).
Proof.
  intros p t c.
  apply (recommendation_loss_formula p t c).
  - repeat constructor.
  - repeat constructor.
  - reflexivity.
  - reflexivity.
  - cbn. lia.
  - cbn. lia.
  - discriminate.
Defined.

(** * Further properties of the code *)

(** ** What a pass checks on its inputs *)

Section InputChecks.

Lemma mlp3_inv (M : Mlp) (ps : pass) (s : site) (x y : tensor3) :
  mlp3 M ps s x = Ok y ->
  t3_feat x = in_features (fc1 M) /\
  t3_feat y = out_features (fc2 M) /\
  t3_seq y = t3_seq x /\ t3_batch y = t3_batch x.
Proof.
  unfold mlp3.
  destruct (t3_feat x =? in_features (fc1 M))%nat eqn:E1; [| discriminate].
  destruct (negb (out_features (fc1 M) =? in_features (fc2 M))%nat);
    [discriminate |].
  cbn [negb]. intros H. injection H as <-. apply Nat.eqb_eq in E1.
  unfold t3_batch, mapi. cbn [t3_feat t3_seq t3_data].
  now rewrite mapi_from_length.
Qed.

Lemma cat_last_inv (x y z : tensor3) :
  cat_last x y = Ok z ->
  t3_batch x = t3_batch y /\ t3_seq x = t3_seq y /\
  t3_feat z = (t3_feat x + t3_feat y)%nat /\
  t3_seq z = t3_seq x /\ t3_batch z = t3_batch x.
Proof.
  unfold cat_last.
  destruct (t3_batch x =? t3_batch y)%nat eqn:E1; [| discriminate].
  destruct (t3_seq x =? t3_seq y)%nat eqn:E2; [| discriminate].
  cbn [andb]. intros H. injection H as <-.
  apply Nat.eqb_eq in E1, E2. unfold t3_batch in *.
  cbn [t3_feat t3_seq t3_data]. unfold map2.
  rewrite length_map, length_combine, <- E1, Nat.min_id. auto.
Qed.

Lemma mlp3_raises (M : Mlp) (ps : pass) (s : site) (x : tensor3) (e : exn) :
  mlp3 M ps s x = Raise e -> e = RuntimeError.
Proof.
  unfold mlp3.
  destruct (negb (t3_feat x =? in_features (fc1 M))%nat); [congruence |].
  destruct (negb (out_features (fc1 M) =? in_features (fc2 M))%nat);
    [congruence | discriminate].
Qed.

Lemma cat_last_raises (x y : tensor3) (e : exn) :
  cat_last x y = Raise e -> e = RuntimeError.
Proof.
  unfold cat_last.
  destruct ((t3_batch x =? t3_batch y)%nat && (t3_seq x =? t3_seq y)%nat);
    [discriminate | congruence].
Qed.

Lemma fusion_forward_raises (L : Linear) (ps : pass) (x : tensor3) (e : exn) :
  fusion_forward L ps x = Raise e -> e = RuntimeError.
Proof.
  unfold fusion_forward.
  destruct (negb (t3_feat x =? in_features L)%nat); [congruence | discriminate].
Qed.

Lemma feature_encoder_raises (F : FinancialFeatureEncoder) (ps : pass)
  (price volume technical fundamental : tensor3) (e : exn) :
  feature_encoder_forward F ps price volume technical fundamental = Raise e ->
  e = RuntimeError.
Proof.
  unfold feature_encoder_forward. intros H.
  destruct (mlp3 (price_encoder F) ps SitePrice price) as [pe | e1] eqn:E1;
    [| apply mlp3_raises in E1; cbn [bind] in H; congruence].
  destruct (mlp3 (volume_encoder F) ps SiteVolume volume) as [ve | e2] eqn:E2;
    [| apply mlp3_raises in E2; cbn [bind] in H; congruence].
  destruct (mlp3 (technical_encoder F) ps SiteTechnical technical)
    as [te | e3] eqn:E3;
    [| apply mlp3_raises in E3; cbn [bind] in H; congruence].
  destruct (mlp3 (fundamental_encoder F) ps SiteFundamental fundamental)
    as [fe | e4] eqn:E4;
    [| apply mlp3_raises in E4; cbn [bind] in H; congruence].
  cbn [bind] in H.
  destruct (cat_last pe ve) as [pv | e5] eqn:E5;
    [| apply cat_last_raises in E5; cbn [bind] in H; congruence].
  cbn [bind] in H.
  destruct (cat_last pv te) as [pvt | e6] eqn:E6;
    [| apply cat_last_raises in E6; cbn [bind] in H; congruence].
  cbn [bind] in H.
  destruct (cat_last pvt fe) as [all | e7] eqn:E7;
    [| apply cat_last_raises in E7; cbn [bind] in H; congruence].
  cbn [bind] in H. now apply fusion_forward_raises in H.
Qed.

Lemma concatenated_width_fits (d_model : nat) :
  concatenated_width d_model = d_model ->
  existsb (Nat.eqb d_model) [0; 5; 6; 11]%nat = true.
Proof.
  unfold concatenated_width. intros H.
  assert (Hd : (d_model = 0 \/ d_model = 5 \/ d_model = 6 \/ d_model = 11)%nat).
  { pose proof (Nat.div_mod_eq d_model 4) as H4.
    pose proof (Nat.mod_upper_bound d_model 4) as B4.
    pose proof (Nat.div_mod_eq d_model 2) as H2.
    pose proof (Nat.mod_upper_bound d_model 2) as B2.
    lia. }
  destruct Hd as [-> | [-> | [-> | ->]]]; reflexivity.
Qed.

Lemma feature_encoder_accepts (d_model : nat) (w : nat -> nat -> nat -> R)
  (b : nat -> nat -> R) (ps : pass)
  (price volume technical fundamental enc : tensor3) :
  feature_encoder_forward (feature_encoder_init d_model w b) ps price volume
    technical fundamental = Ok enc ->
  forward_accepts d_model price volume technical fundamental = true.
Proof.
  unfold feature_encoder_forward, feature_encoder_init.
  cbn [price_encoder volume_encoder technical_encoder fundamental_encoder
       fusion_layer].
  intros H.
  destruct (mlp3 _ ps SitePrice price) as [pe |] eqn:E1; [| discriminate H].
  destruct (mlp3 _ ps SiteVolume volume) as [ve |] eqn:E2; [| discriminate H].
  destruct (mlp3 _ ps SiteTechnical technical) as [te |] eqn:E3;
    [| discriminate H].
  destruct (mlp3 _ ps SiteFundamental fundamental) as [fe |] eqn:E4;
    [| discriminate H].
  cbn [bind] in H.
  destruct (cat_last pe ve) as [pv |] eqn:E5; [| discriminate H].
  cbn [bind] in H.
  destruct (cat_last pv te) as [pvt |] eqn:E6; [| discriminate H].
  cbn [bind] in H.
  destruct (cat_last pvt fe) as [all |] eqn:E7; [| discriminate H].
  cbn [bind] in H.
  apply mlp3_inv in E1, E2, E3, E4. apply cat_last_inv in E5, E6, E7.
  cbn [fc1 fc2 in_features out_features] in *.
  unfold fusion_forward in H. cbn [in_features] in H.
  destruct (t3_feat all =? d_model)%nat eqn:Ew; [| discriminate H].
  apply Nat.eqb_eq in Ew.
  unfold forward_accepts. cbn [forallb].
  destruct E1 as (F1 & O1 & S1 & B1), E2 as (F2 & O2 & S2 & B2),
    E3 as (F3 & O3 & S3 & B3), E4 as (F4 & O4 & S4 & B4),
    E5 as (B5 & S5 & W5 & S5' & B5'), E6 as (B6 & S6 & W6 & S6' & B6'),
    E7 as (B7 & S7 & W7 & S7' & B7').
  rewrite concatenated_width_fits
    by (unfold concatenated_width; lia).
  rewrite F1, F2, F3, F4.
  replace (t3_batch volume) with (t3_batch price) by congruence.
  replace (t3_batch technical) with (t3_batch price) by congruence.
  replace (t3_batch fundamental) with (t3_batch price) by congruence.
  replace (t3_seq volume) with (t3_seq price) by congruence.
  replace (t3_seq technical) with (t3_seq price) by congruence.
  replace (t3_seq fundamental) with (t3_seq price) by congruence.
  now rewrite !Nat.eqb_refl.
Qed.

(** Unless price and volume have one feature, the technical data 20 and the
    fundamental data 15, the four inputs agree in batch size and sequence
    length, and [d_model] is 0, 5, 6 or 11 (the widths at which
    [3 * (d_model // 4) + d_model // 2] is [d_model]), a pass raises
    [RuntimeError] in the feature encoder, before any mask is built. *)
Theorem forward_checks_inputs (d_model : nat) (layers : list encoder_layer)
  (dropout : R) (num_assets sequence_length num_risk_factors : nat)
  (w : nat -> nat -> nat -> R) (b : nat -> nat -> R) (ps : pass)
  (price volume technical fundamental : tensor3) :
  forward_accepts d_model price volume technical fundamental = false ->
  forward_traced
    (engine_init d_model layers dropout num_assets sequence_length
       num_risk_factors w b)
    ps price volume technical fundamental
  = ([], Raise RuntimeError).
Proof.
  intros Hno. unfold forward_traced, tlift, engine_init.
  cbn [e_feature_encoder].
  destruct (feature_encoder_forward (feature_encoder_init d_model w b) ps
              price volume technical fundamental) as [enc | e] eqn:E.
  - apply feature_encoder_accepts in E. congruence.
  - apply feature_encoder_raises in E. subst e. reflexivity.
Qed.

End InputChecks.

(** A batch with the four price columns (open, high, low, close) of the
    data loader, at a width at which the sub-embeddings fit. *)
Lemma forward_checks_inputs_witness :
  forward_traced
    (engine_init 6 [] 0.1 2 60 5 (fun _ _ _ => 0) (fun _ _ => 0))
    eval_pass (T3 1 4 [[[1; 2; 0; 1]]]) (T3 1 1 [[[0]]])
    (T3 1 20 [[repeat 0 20]]) (T3 1 15 [[repeat 0 15]])
  = ([], Raise RuntimeError).
Proof.
  apply forward_checks_inputs. reflexivity.
Defined.

(** ** The positional encoding *)

Section PositionalOffsets.

Variables (d_model : nat) (dropout : R).

Lemma bidx_below (n i : nat) : (i < n)%nat -> bidx n i = i.
Proof.
  intros Hi. unfold bidx. destruct (n =? 1)%nat eqn:E; [| reflexivity].
  apply Nat.eqb_eq in E. lia.
Qed.

(** The buffer is indexed with the first size of the input, which is the
    batch: outside training, the entry of sample [b] at time step [t] and
    feature [j] receives the offset [pe[b, j]], the same at every time step
    of the sample.  A batch of more than 5000 samples (the length of the
    buffer) is refused. *)
Theorem positional_encoding_indexes_batch (ps : pass) (x : tensor3) :
  t3_feat x = d_model ->
  training ps = false ->
  ((t3_batch x <= 5000)%nat ->
   exists y,
     positional_encoding_forward
       (positional_encoding_init d_model dropout 5000) ps x = Ok y /\
     t3_batch y = t3_batch x /\ t3_seq y = t3_seq x /\
     t3_feat y = d_model /\
     forall b t j, (b < t3_batch x)%nat -> (t < t3_seq x)%nat ->
                   (j < d_model)%nat ->
       t3_entry y b t j = t3_entry x b t j + pe_entry d_model b j) /\
  ((5000 < t3_batch x)%nat ->
   positional_encoding_forward
     (positional_encoding_init d_model dropout 5000) ps x
   = Raise RuntimeError).
Proof.
  intros Hf Hev. unfold positional_encoding_forward, positional_encoding_init.
  cbn [pe_max_len pe_d_model pe pe_dropout]. rewrite Hf.
  rewrite broadcast_dim_same. split.
  - intros HB. rewrite Nat.min_l by exact HB. rewrite broadcast_dim_same.
    eexists. split; [reflexivity |].
    unfold t3_batch at 1. cbn [t3_data t3_seq t3_feat].
    rewrite length_map, length_seq. repeat split.
    intros b t j Hb Ht Hj. unfold t3_entry. cbn [t3_data].
    rewrite (nth_map_seq _ (t3_batch x) b []) by exact Hb.
    rewrite (nth_map_seq _ (t3_seq x) t []) by exact Ht.
    unfold dropout_vec. rewrite Hev.
    rewrite (nth_map_seq _ d_model j 0) by exact Hj.
    now rewrite !bidx_below by assumption.
  - intros HB. rewrite Nat.min_r by lia. unfold broadcast_dim.
    destruct (t3_batch x =? 5000)%nat eqn:E1;
      [apply Nat.eqb_eq in E1; lia |].
    destruct (t3_batch x =? 1)%nat eqn:E2;
      [apply Nat.eqb_eq in E2; lia |].
    reflexivity.
Qed.

End PositionalOffsets.

(** Two samples of three time steps, four features wide. *)
Lemma positional_encoding_indexes_batch_witness :
  let x := T3 3 4 [[[1; 2; 3; 4]; [5; 6; 7; 8]; [9; 10; 11; 12]];
                   [[0; 0; 0; 0]; [1; 1; 1; 1]; [2; 2; 2; 2]]] in
  exists y,
    positional_encoding_forward (positional_encoding_init 4 0.1 5000)
      eval_pass x = Ok y /\
    t3_batch y = t3_batch x /\ t3_seq y = t3_seq x /\ t3_feat y = 4%nat /\
    forall b t j, (b < t3_batch x)%nat -> (t < t3_seq x)%nat -> (j < 4)%nat ->
      t3_entry y b t j = t3_entry x b t j + pe_entry 4 b j.
Proof.
  intros x.
  apply (proj1 (positional_encoding_indexes_batch 4 0.1 eval_pass x
                  eq_refl eq_refl)).
  cbn. lia.
Defined.

(** ** The temperature of [predict_step] *)

Section SortingUnderMaps.

Context {A B : Type} (leA : A -> A -> bool) (leB : B -> B -> bool) (f : A -> B).
Hypothesis f_keeps_order : forall a b, leB (f a) (f b) = leA a b.

Let lift (p : nat * A) : nat * B := (fst p, f (snd p)).

Lemma insert_by_map (x : nat * A) (l : list (nat * A)) :
  insert_by leB (lift x) (map lift l) = map lift (insert_by leA x l).
Proof.
  induction l as [| y l IH]; simpl; [reflexivity |].
  rewrite f_keeps_order. destruct (leA (snd x) (snd y)); simpl;
    [reflexivity | now rewrite IH].
Qed.

Lemma sort_pairs_map (l : list (nat * A)) :
  sort_pairs leB (map lift l) = map lift (sort_pairs leA l).
Proof.
  unfold sort_pairs. induction l as [| x l IH]; simpl; [reflexivity |].
  now rewrite IH, insert_by_map.
Qed.

Lemma combine_map_snd (s : list nat) (l : list A) :
  combine s (map f l) = map lift (combine s l).
Proof.
  revert s. induction l as [| a l IH]; intros [| i s]; simpl;
    try reflexivity. now rewrite IH.
Qed.

Lemma argsort_by_map (l : list A) :
  argsort_by leB (map f l) = argsort_by leA l.
Proof.
  unfold argsort_by, enumerate.
  rewrite length_map, combine_map_snd, sort_pairs_map, map_map.
  reflexivity.
Qed.

End SortingUnderMaps.

Section Temperature.

Lemma scaled_softmax_keeps_order (temperature : R) (row : list R) :
  0 < temperature ->
  torch_argsort_desc (softmax (map (fun v => v / temperature) row))
  = torch_argsort_desc row.
Proof.
  intros HT. destruct row as [| v0 row]; [reflexivity |].
  unfold softmax.
  set (s := Rsum (map exp (map (fun v => v / temperature) (v0 :: row)))).
  assert (Hs : 0 < s) by (apply Rsum_exp_pos; discriminate).
  rewrite map_map. unfold torch_argsort_desc.
  apply (argsort_by_map (fun a b => Rleb b a) (fun a b => Rleb b a)
           (fun v => exp (v / temperature) / s)).
  intros a b.
  assert (Hmono : forall x y, x < y ->
            exp (x / temperature) / s < exp (y / temperature) / s).
  { intros x y Hxy. apply Rmult_lt_compat_r; [now apply Rinv_0_lt_compat |].
    apply exp_increasing. apply Rmult_lt_compat_r;
      [now apply Rinv_0_lt_compat | exact Hxy]. }
  destruct (Rle_dec b a) as [Hle | Hgt].
  - rewrite (Rleb_true b a) by exact Hle. apply Rleb_true.
    destruct Hle as [Hlt | ->]; [left; now apply Hmono | right; reflexivity].
  - rewrite (Rleb_false b a) by lra. apply Rleb_false. apply Hmono. lra.
Qed.

(** For every positive temperature the assets that [predict_step] returns
    are the [top_k] first of the raw logits in descending order: the
    temperature changes the probabilities and not the assets. *)
Theorem temperature_keeps_top_assets (E : Engine) (ps : pass)
  (price volume technical fundamental : tensor3) (temperature : R)
  (top_k : Z) :
  0 < temperature ->
  assets_of (predict_step E ps price volume technical fundamental
               temperature top_k)
  = out <- forward E ps price volume technical fundamental ;;
    tk <- torch_topk (raw_logits out) top_k ;;
    Ok (Some (snd tk)).
Proof.
  intros HT. unfold assets_of, predict_step.
  destruct (forward E ps price volume technical fundamental) as [out | e];
    cbn [bind]; [| reflexivity].
  unfold scaled_probabilities. rewrite Reqb_false by lra.
  unfold torch_topk, map2d. cbn [t2_cols t2_data].
  destruct ((top_k <? 0)%Z || (Z.of_nat (t2_cols (raw_logits out)) <? top_k)%Z);
    cbn [bind]; [reflexivity |].
  cbn [snd top_k_assets]. do 2 f_equal. rewrite map_map.
  apply map_ext. intros row.
  now rewrite scaled_softmax_keeps_order.
Qed.

End Temperature.

(** Temperature 0.5 on the engine of width 6. *)
Lemma temperature_keeps_top_assets_witness :
  let E := engine_init 6 [fun x _ => Ok (t3_data x)] 0.1 2 60 5
             (fun _ _ _ => 0) (fun _ _ => 0) in
  let one f := T3 1 f [[repeat 0 f]] in
  assets_of (predict_step E eval_pass (one 1%nat) (one 1%nat) (one 20%nat)
               (one 15%nat) 0.5 1)
  = out <- forward E eval_pass (one 1%nat) (one 1%nat) (one 20%nat)
             (one 15%nat) ;;
    tk <- torch_topk (raw_logits out) 1 ;;
    Ok (Some (snd tk)).
Proof.
  intros E one. apply temperature_keeps_top_assets. lra.
Defined.

(** ** The losses on the outputs of the heads *)

Section LossesOnHeadOutputs.

Variables (d_model num_assets num_risk_factors : nat).
Variables (w : nat -> nat -> nat -> R) (b : nat -> nat -> R).

Lemma mlp2_softmax_rows (M : Mlp) (ps : pass) (s : site) (x y : tensor2) :
  mlp2 M ps s x = Ok y ->
  softmax_rows (out_features (fc2 M)) (map2d softmax y (t2_cols y)) /\
  t2_rows (map2d softmax y (t2_cols y)) = t2_rows x.
Proof.
  intros H. apply mlp2_ok in H. destruct H as (Hc & Hr & Hrows).
  unfold softmax_rows, map2d, t2_rows in *. cbn [t2_cols t2_data].
  rewrite length_map. repeat split; try assumption.
  apply Forall_map. eapply Forall_impl; [| exact Hrows].
  intros row Hlen. now exists row.
Qed.

Lemma head_forward_inv (ps : pass) (x : tensor2) (out : outputs) :
  head_forward (head_init d_model num_assets num_risk_factors w b) ps x
  = Ok out ->
  (softmax_rows num_assets (recommendations out) /\
   t2_rows (recommendations out) = t2_rows x) /\
  (softmax_rows num_risk_factors (risk_scores out) /\
   t2_rows (risk_scores out) = t2_rows x) /\
  (softmax_rows 3 (regime_probs out) /\
   t2_rows (regime_probs out) = t2_rows x).
Proof.
  unfold head_forward. intros H.
  destruct (mlp2 (recommendation_head _) ps SiteRecommendation x)
    as [raw |] eqn:E1; [| discriminate H].
  cbn [bind] in H.
  destruct (mlp2 (confidence_head _) ps SiteConfidence x); [| discriminate H].
  cbn [bind] in H.
  destruct (mlp2 (risk_head _) ps SiteRisk x) as [rl |] eqn:E3;
    [| discriminate H].
  cbn [bind] in H.
  destruct (mlp2 (regime_head _) ps SiteRegime x) as [gl |] eqn:E4;
    [| discriminate H].
  cbn [bind] in H. injection H as <-.
  cbn [recommendations risk_scores regime_probs].
  apply mlp2_softmax_rows in E1, E3, E4. auto.
Qed.

Lemma softmax_rows_sum (n : nat) (y : tensor2) :
  (0 < n)%nat -> softmax_rows n y ->
  Forall (fun row => Rsum row = 1) (t2_data y).
Proof.
  intros Hn [_ Hrows]. eapply Forall_impl; [| exact Hrows].
  intros row [l [Hlen ->]]. apply softmax_sum. intros ->. simpl in Hlen. lia.
Qed.

Lemma map2_const_l {X Y B C : Type} (f : B -> Y -> C) (g : X -> B) (c : B)
  (l1 : list X) (l2 : list Y) :
  Forall (fun x => g x = c) l1 -> length l1 = length l2 ->
  map2 f (map g l1) l2 = map (f c) l2.
Proof.
  unfold map2. intros H. revert l2.
  induction H as [| x l1 Hx _ IH]; intros [| y l2] Hlen; simpl in *;
    try discriminate; [reflexivity |].
  rewrite Hx, IH by lia. reflexivity.
Qed.

Lemma mse_loss_vectors (l1 l2 : list pyfloat) :
  length l1 = length l2 ->
  mse_loss (view_of_vector l1) (view_of_vector l2)
  = Ok (pf_mean (map2 (fun a c => pf_square (pf_sub a c)) l1 l2)).
Proof.
  intros Hlen. unfold mse_loss, view_of_vector. cbn [v_rows v_cols].
  rewrite Hlen, !broadcast_dim_same. do 2 f_equal.
  unfold flat_map2, bentry. cbn [v_rows v_cols v_at seq flat_map].
  rewrite app_nil_r, <- Hlen.
  rewrite (map_seq_bidx
             (fun j => pf_square (pf_sub (nth j l1 NaN) (nth j l2 NaN)))).
  now apply (map_seq_nth2 (fun a c => pf_square (pf_sub a c))).
Qed.

Lemma risk_loss_of_unit_rows (r t : tensor2) :
  Forall (fun row => Rsum row = 1) (t2_data r) -> t2_rows r = t2_rows t ->
  _calculate_risk_loss r t = Ok (volatility_gap t).
Proof.
  intros Hsum Hrows. unfold _calculate_risk_loss, volatility_gap.
  unfold t2_rows in Hrows.
  rewrite mse_loss_vectors by (now rewrite !length_map).
  do 2 f_equal.
  rewrite (map2_const_l _ (fun row => Fin (Rsum row)) (Fin 1)).
  - now rewrite map_map.
  - eapply Forall_impl; [| exact Hsum]. intros row ->. reflexivity.
  - now rewrite length_map.
Qed.

(** On the risk scores that the head returns the risk loss does not depend
    on the scores: each row of them sums to 1, so the loss is the mean
    squared gap between 1 and the standard deviation of each sample's
    targets. *)
Theorem risk_loss_ignores_risk_scores (ps : pass) (x : tensor2)
  (out : outputs) (targets : tensor2) :
  (0 < num_risk_factors)%nat ->
  head_forward (head_init d_model num_assets num_risk_factors w b) ps x
  = Ok out ->
  t2_rows targets = t2_rows x ->
  _calculate_risk_loss (risk_scores out) targets = Ok (volatility_gap targets).
Proof.
  intros HR Hout Hrows.
  apply head_forward_inv in Hout. destruct Hout as (_ & [Hsm Hr] & _).
  apply risk_loss_of_unit_rows; [| congruence].
  now apply softmax_rows_sum with (n := num_risk_factors).
Qed.

Lemma exp_ge_1 (p : R) : 0 <= p -> 1 <= exp p.
Proof.
  intros [Hp | <-]; [| rewrite exp_0; lra].
  left. rewrite <- exp_0. now apply exp_increasing.
Qed.

Lemma cross_entropy_term_bound (p0 p1 p2 : R) (c : nat) :
  0 <= p0 -> 0 <= p1 -> 0 <= p2 -> p0 + p1 + p2 = 1 -> (c < 3)%nat ->
  ln (1 + 2 / exp 1)
  <= - (nth c [p0; p1; p2] 0 - ln (Rsum (map exp [p0; p1; p2]))).
Proof.
  intros H0 H1 H2 Hsum Hc.
  set (pc := nth c [p0; p1; p2] 0).
  assert (Hpc : pc <= 1 /\ exp pc + 2 <= Rsum (map exp [p0; p1; p2])).
  { pose proof (exp_ge_1 p0 H0). pose proof (exp_ge_1 p1 H1).
    pose proof (exp_ge_1 p2 H2). subst pc. cbn [map Rsum fold_right].
    destruct c as [| [| [| c]]]; cbn [nth]; try lia; split; lra. }
  destruct Hpc as [Hle HS].
  pose proof (exp_pos pc) as Hepos. pose proof (exp_pos 1) as He1.
  assert (Hexp : exp pc <= exp 1).
  { destruct Hle as [Hlt | ->]; [left; now apply exp_increasing | lra]. }
  assert (Hq : 0 < 2 / exp 1) by (apply Rdiv_lt_0_compat; lra).
  assert (Hprod : (1 + 2 / exp 1) * exp pc <= Rsum (map exp [p0; p1; p2])).
  { apply Rle_trans with (exp pc + 2); [| exact HS].
    assert (2 / exp 1 * exp pc <= 2).
    { unfold Rdiv. rewrite Rmult_assoc.
      replace 2 with (2 * 1) at 2 by ring.
      apply Rmult_le_compat_l; [lra |].
      apply Rmult_le_reg_l with (exp 1); [exact He1 |].
      rewrite <- Rmult_assoc, Rinv_r by lra. lra. }
    lra. }
  assert (Hln : ln ((1 + 2 / exp 1) * exp pc)
                <= ln (Rsum (map exp [p0; p1; p2]))).
  { destruct Hprod as [Hlt | Heq].
    - left. apply ln_increasing; [| exact Hlt].
      apply Rmult_lt_0_compat; lra.
    - right. now rewrite Heq. }
  rewrite ln_mult, ln_exp in Hln by lra. lra.
Qed.

Lemma Rsum_lower_bound (c : R) (l : list R) :
  Forall (fun v => c <= v) l -> c * INR (length l) <= Rsum l.
Proof.
  induction 1 as [| v l Hv _ IH].
  - simpl. lra.
  - cbn [Rsum fold_right]. change (fold_right Rplus 0 l) with (Rsum l).
    rewrite length_cons, S_INR. lra.
Qed.

(** On the regime probabilities that the head returns, which are already
    normalised, the cross-entropy (which normalises its input once more)
    is at least [ln (1 + 2 / e)], about 0.55, on every batch: the regime
    loss never comes near 0. *)
Theorem regime_loss_never_vanishes (ps : pass) (x : tensor2)
  (out : outputs) (targets : tensor2) :
  head_forward (head_init d_model num_assets num_risk_factors w b) ps x
  = Ok out ->
  t2_rows targets = t2_rows x -> (0 < t2_rows x)%nat ->
  exists v,
    _calculate_regime_loss (regime_probs out) targets = Ok (Fin v) /\
    ln (1 + 2 / exp 1) <= v.
Proof.
  intros Hout Hrows Hpos.
  apply head_forward_inv in Hout. destruct Hout as (_ & _ & [[Hc Hsm] Hr]).
  unfold _calculate_regime_loss, cross_entropy.
  rewrite infer_regime_labels_map, length_map.
  unfold t2_rows in *. rewrite Hr, <- Hrows, Nat.eqb_refl. cbn [negb].
  replace (existsb _ _) with false.
  2:{ symmetry. apply not_true_is_false. intros H.
      apply existsb_exists in H. destruct H as [c [Hin Hle]].
      apply in_map_iff in Hin. destruct Hin as [row [<- _]].
      apply Nat.leb_le in Hle.
      pose proof (regime_label_bound (torch_mean row) (torch_std row)). lia. }
  set (terms := map2 _ _ _).
  assert (Hlen : length terms = length (t2_data targets)).
  { subst terms. unfold map2.
    rewrite length_map, length_combine, length_map. lia. }
  assert (Hbound : Forall (fun v => ln (1 + 2 / exp 1) <= v) terms).
  { subst terms. unfold map2. apply Forall_map. apply Forall_forall.
    intros [row c] Hin. cbn [fst snd].
    pose proof (in_combine_l _ _ _ _ Hin) as Hrow.
    pose proof (in_combine_r _ _ _ _ Hin) as Hlabel.
    apply in_map_iff in Hlabel. destruct Hlabel as [trow [<- _]].
    rewrite Forall_forall in Hsm. destruct (Hsm row Hrow) as [l [Hl ->]].
    pose proof (softmax_nonneg l) as Hnn.
    assert (Hone : Rsum (softmax l) = 1)
      by (apply softmax_sum; intros ->; discriminate).
    pose proof (softmax_length l) as Hsl. rewrite Hl in Hsl.
    destruct (softmax l) as [| p0 [| p1 [| p2 [| p3 rest]]]];
      try discriminate.
    inversion Hnn as [| ? ? H0 Hnn1]; subst.
    inversion Hnn1 as [| ? ? H1 Hnn2]; subst.
    inversion Hnn2 as [| ? ? H2 _]; subst.
    cbn [Rsum fold_right] in Hone.
    apply cross_entropy_term_bound; try assumption; [lra |].
    pose proof (regime_label_bound (torch_mean trow) (torch_std trow)). lia. }
  rewrite Rmean_fin by (intros Hnil; rewrite Hnil in Hlen; simpl in Hlen; lia).
  eexists. split; [reflexivity |].
  apply Rsum_lower_bound in Hbound.
  assert (Hn : 0 < INR (length terms)) by (apply lt_0_INR; lia).
  apply Rmult_le_reg_r with (INR (length terms)); [exact Hn |].
  unfold Rdiv. rewrite Rmult_assoc, Rinv_l by lra. lra.
Qed.

End LossesOnHeadOutputs.

(** The head for 4-wide representations, on one sample. *)
Lemma risk_loss_ignores_risk_scores_witness :
  exists out,
    head_forward (head_init 4 2 5 (fun _ _ _ => 1) (fun _ _ => 0)) eval_pass
                 (T2 4 [[1; -2; 0; 3]]) = Ok out /\
    _calculate_risk_loss (risk_scores out) (T2 2 [[0.25; 0.75]])
    = Ok (volatility_gap (T2 2 [[0.25; 0.75]])).
Proof.
  eexists. split; [reflexivity |].
  apply (risk_loss_ignores_risk_scores 4 2 5 (fun _ _ _ => 1) (fun _ _ => 0)
           eval_pass (T2 4 [[1; -2; 0; 3]])); [lia | reflexivity | reflexivity].
Defined.

Lemma regime_loss_never_vanishes_witness :
  exists out,
    head_forward (head_init 4 2 5 (fun _ _ _ => 1) (fun _ _ => 0)) eval_pass
                 (T2 4 [[1; -2; 0; 3]]) = Ok out /\
    exists v,
      _calculate_regime_loss (regime_probs out) (T2 2 [[0.25; 0.75]])
      = Ok (Fin v) /\
      ln (1 + 2 / exp 1) <= v.
Proof.
  eexists. split; [reflexivity |].
  apply (regime_loss_never_vanishes 4 2 5 (fun _ _ _ => 1) (fun _ _ => 0)
           eval_pass (T2 4 [[1; -2; 0; 3]]));
    [reflexivity | reflexivity | cbn; lia].
Defined.

(** ** The confidence loss in closed form *)

Section ConfidenceLoss.

Lemma Rsum_nonneg (l : list R) : Forall (fun v => 0 <= v) l -> 0 <= Rsum l.
Proof.
  induction 1 as [| v l Hv _ IH]; simpl; [lra |].
  change (fold_right Rplus 0 l) with (Rsum l). lra.
Qed.

Lemma Rsum_squares_zero (l : list R) :
  Rsum (map (fun g => g * g) l) = 0 <-> Forall (fun g => g = 0) l.
Proof.
  induction l as [| g l IH]; simpl.
  - split; [constructor | reflexivity].
  - change (fold_right Rplus 0 (map (fun g => g * g) l))
      with (Rsum (map (fun g => g * g) l)).
    assert (Hrest : 0 <= Rsum (map (fun g => g * g) l)).
    { apply Rsum_nonneg. apply Forall_map. apply Forall_forall.
      intros v _. nra. }
    split.
    + intros H. assert (Hg : g * g = 0) by nra.
      constructor; [nra | apply IH; nra].
    + intros H. inversion H as [| ? ? Hg Hl]; subst.
      apply IH in Hl. rewrite Hl. ring.
Qed.

Lemma mean_abs_error_nonneg (pr tr : list R) : 0 <= mean_abs_error pr tr.
Proof.
  unfold mean_abs_error, Rdiv. apply Rmult_le_pos.
  - apply Rsum_nonneg. unfold map2. apply Forall_map. apply Forall_forall.
    intros v _. apply Rabs_pos.
  - destruct (length pr) as [| n]; [simpl; rewrite Rinv_0; lra |].
    left. apply Rinv_0_lt_compat. apply lt_0_INR. lia.
Qed.

Lemma flat_map_singleton {X Y : Type} (g : X -> Y) (l : list X) :
  flat_map (fun i => [g i]) l = map g l.
Proof. induction l as [| x l IH]; simpl; [| rewrite IH]; reflexivity. Qed.

Lemma row_error (p t : tensor2) (i : nat) :
  well_shaped p -> well_shaped t -> t2_cols p = t2_cols t ->
  t2_rows p = t2_rows t -> (i < t2_rows p)%nat -> (0 < t2_cols p)%nat ->
  pf_mean (map (fun j =>
                  match pf_sub (bentry (view_of p) i j) (bentry (view_of t) i j)
                  with
                  | Fin d => Fin (Rabs d)
                  | other => other
                  end)
               (seq 0 (t2_cols p)))
  = Fin (mean_abs_error (nth i (t2_data p) []) (nth i (t2_data t) [])).
Proof.
  intros Hp Ht Hc Hr Hi HA. unfold bentry.
  cbn [view_of v_rows v_cols v_at pf_sub pf_neg pf_add].
  rewrite <- Hr, <- Hc, (bidx_below (t2_rows p) i) by exact Hi.
  assert (Hlp : length (nth i (t2_data p) []) = t2_cols p).
  { unfold well_shaped in Hp. rewrite Forall_forall in Hp. apply Hp.
    apply nth_In. exact Hi. }
  assert (Hlt : length (nth i (t2_data t) []) = t2_cols p).
  { unfold well_shaped in Ht. rewrite Forall_forall in Ht. rewrite Hc.
    apply Ht. apply nth_In. unfold t2_rows in *. lia. }
  rewrite (map_seq_bidx
             (fun j => Fin (Rabs (nth j (nth i (t2_data p) []) 0
                                  + - nth j (nth i (t2_data t) []) 0)))).
  rewrite <- (map_map (fun j => Rabs (nth j (nth i (t2_data p) []) 0
                                      + - nth j (nth i (t2_data t) []) 0))
                      Fin).
  rewrite pf_mean_fin
    by (intros Hnil; apply (f_equal (@length R)) in Hnil;
        rewrite length_map, length_seq in Hnil; simpl in Hnil; lia).
  rewrite length_map, length_seq. f_equal. unfold mean_abs_error.
  rewrite Hlp. f_equal. f_equal. rewrite <- Hlp at 1.
  apply (map_seq_nth2 (fun a c => Rabs (a - c))). congruence.
Qed.

(** For a batch of [B >= 1] samples over [A >= 1] assets and one confidence
    per sample, the confidence loss is the mean over the samples of the
    squared gap between the predicted confidence and
    [1 / (1 + mean absolute error)] of the sample; it is 0 exactly when
    every confidence is the one asked. *)
Theorem confidence_loss_closed_form (c p t : tensor2) :
  well_shaped p -> well_shaped t -> t2_cols p = t2_cols t ->
  t2_rows p = t2_rows t -> t2_rows c = t2_rows p -> t2_cols c = 1%nat ->
  (0 < t2_rows p)%nat -> (0 < t2_cols p)%nat ->
  _calculate_confidence_loss c p t
  = Ok (Fin (Rsum (map (fun g => g * g) (confidence_gaps c p t))
             / INR (t2_rows p))) /\
  (_calculate_confidence_loss c p t = Ok (Fin 0)
   <-> Forall (fun g => g = 0) (confidence_gaps c p t)).
Proof.
  intros Hp Ht Hc Hr Hrc Hcc HB HA.
  assert (Hval : _calculate_confidence_loss c p t
                 = Ok (Fin (Rsum (map (fun g => g * g) (confidence_gaps c p t))
                            / INR (t2_rows p)))).
  { unfold _calculate_confidence_loss.
    cbn [view_of v_rows v_cols]. rewrite <- Hr, <- Hc, !broadcast_dim_same.
    unfold mse_loss. cbn [v_rows v_cols].
    change (v_rows (view_of c)) with (t2_rows c).
    change (v_cols (view_of c)) with (t2_cols c). rewrite Hrc, Hcc.
    rewrite !broadcast_dim_same. do 2 f_equal.
    unfold flat_map2. cbn [seq map]. rewrite flat_map_singleton.
    rewrite (map_ext_in _
               (fun i => Fin ((nth 0 (nth i (t2_data c) []) 0
                               - target_confidence_of (nth i (t2_data p) [])
                                   (nth i (t2_data t) []))
                              * (nth 0 (nth i (t2_data c) []) 0
                                 - target_confidence_of (nth i (t2_data p) [])
                                     (nth i (t2_data t) []))))).
    2:{ intros i Hi. apply in_seq in Hi.
        unfold bentry at 1 2.
        change (view_of c)
          with (mkView (t2_rows c) (t2_cols c)
                       (fun i j => Fin (nth j (nth i (t2_data c) []) 0))).
        cbn [v_rows v_cols v_at]. rewrite Hrc, Hcc.
        rewrite (bidx_below (t2_rows p) i) by lia.
        cbn [bidx Nat.eqb].
        rewrite (row_error p t i Hp Ht Hc Hr (proj2 Hi) HA).
        pose proof (mean_abs_error_nonneg (nth i (t2_data p) [])
                      (nth i (t2_data t) [])) as Hnn.
        cbn [pf_add pf_div]. rewrite Reqb_false by lra.
        cbn [pf_square pf_sub pf_neg pf_add pf_mul]. f_equal.
        unfold target_confidence_of.
        replace (1.0 / (1.0 + mean_abs_error (nth i (t2_data p) [])
                                (nth i (t2_data t) [])))
          with (1 / (1 + mean_abs_error (nth i (t2_data p) [])
                           (nth i (t2_data t) [])))
          by (do 2 f_equal; lra).
        ring. }
    rewrite <- (map_map _ Fin).
    rewrite pf_mean_fin
      by (intros Hnil; apply (f_equal (@length R)) in Hnil;
          rewrite length_map, length_seq in Hnil; simpl in Hnil; lia).
    rewrite length_map, length_seq. do 2 f_equal.
    unfold confidence_gaps. now rewrite map_map. }
  split; [exact Hval |].
  rewrite Hval.
  assert (HBpos : 0 < INR (t2_rows p)) by (apply lt_0_INR; exact HB).
  rewrite <- Rsum_squares_zero. split.
  - intros H. injection H as H.
    apply Rmult_eq_reg_r with (/ INR (t2_rows p));
      [| apply Rinv_neq_0_compat; lra].
    unfold Rdiv in H. rewrite H. ring.
  - intros ->. do 2 f_equal. unfold Rdiv. ring.
Qed.

End ConfidenceLoss.

(** Two samples over two assets: mean absolute errors 1 and 0, confidences
    asked 0.5 and 1. *)
Lemma confidence_loss_closed_form_witness :
  let c := T2 1 [[0.5]; [1]] in
  let p := T2 2 [[2; 0]; [1; 1]] in
  let t := T2 2 [[1; 1]; [1; 1]] in
  _calculate_confidence_loss c p t
  = Ok (Fin (Rsum (map (fun g => g * g) (confidence_gaps c p t))
             / INR (t2_rows p))) /\
  (_calculate_confidence_loss c p t = Ok (Fin 0)
   <-> Forall (fun g => g = 0) (confidence_gaps c p t)).
Proof.
  intros c p t.
  apply (confidence_loss_closed_form c p t);
    try reflexivity; try (repeat constructor); cbn; lia.
Defined.

(** ** The tracker on bundles without a Sharpe ratio *)

Section TrackerWithoutSharpe.

Lemma best_metrics_without_sharpe (updates : list (Z * dict pyfloat)) :
  Forall (fun em => dict_get (snd em) "sharpe_ratio" = None) updates ->
  dict_get (best_metrics (run_updates updates)) "sharpe_ratio" = None.
Proof.
  induction updates as [| em updates IH] using rev_ind; intros Hall;
    [reflexivity |].
  apply Forall_app in Hall. destruct Hall as [Hall Hem].
  inversion Hem as [| ? ? Hlast _]; subst.
  rewrite run_updates_snoc. unfold update.
  destruct (dict_is_empty _ || pf_gtb _ _);
    cbn [best_metrics]; [exact Hlast | now apply IH].
Qed.

(** When no bundle has a Sharpe ratio (and every primary metric, then the
    F1 score or 0.0, is a number or [+inf]), every update replaces the
    bundle retained: after the updates the tracker holds the last bundle
    and its epoch, whatever the F1 scores were. *)
Theorem tracker_follows_latest_without_sharpe
  (updates : list (Z * dict pyfloat)) (latest : Z * dict pyfloat) :
  Forall (fun em => dict_get (snd em) "sharpe_ratio" = None) updates ->
  dict_get (snd latest) "sharpe_ratio" = None ->
  pf_gtb (primary_metric (snd latest)) NInf = true ->
  best_epoch (run_updates (updates ++ [latest])) = fst latest /\
  best_metrics (run_updates (updates ++ [latest])) = snd latest.
Proof.
  intros Hall Hlast Hprimary. rewrite run_updates_snoc. unfold update.
  assert (Hcmp : pf_gtb (primary_metric (snd latest))
                   (dict_get_default (best_metrics (run_updates updates))
                      "sharpe_ratio" NInf) = true).
  { unfold dict_get_default.
    now rewrite (best_metrics_without_sharpe updates Hall). }
  rewrite Hcmp, orb_true_r. split; reflexivity.
Qed.

End TrackerWithoutSharpe.

(** F1 scores 0.9, 0.8 and 0.1: the tracker ends on the third bundle. *)
Lemma tracker_follows_latest_without_sharpe_witness :
  let updates := [(0%Z, [("f1"%string, Fin 0.9)]);
                  (1%Z, [("f1"%string, Fin 0.8)])] in
  let latest := (2%Z, [("f1"%string, Fin 0.1)]) in
  best_epoch (run_updates (updates ++ [latest])) = 2%Z /\
  best_metrics (run_updates (updates ++ [latest])) = [("f1"%string, Fin 0.1)].
Proof.
  intros updates latest.
  apply (tracker_follows_latest_without_sharpe updates latest).
  - repeat constructor.
  - reflexivity.
  - reflexivity.
Defined.

(** ** The names of the metrics *)

Section ReportedKeys.

Lemma dict_get_none_iff {V : Type} (d : dict V) (k : string) :
  dict_get d k = None <-> ~ In k (map fst d).
Proof.
  induction d as [| [k0 v0] d IH]; simpl; [tauto |].
  destruct (String.eqb k0 k) eqn:E.
  - apply String.eqb_eq in E. subst. split; [discriminate | tauto].
  - apply String.eqb_neq in E. rewrite IH. tauto.
Qed.

Lemma dict_get_update_absent {V : Type} (d other : dict V) (k : string) :
  dict_get other k = None -> dict_get (dict_update d other) k = dict_get d k.
Proof.
  intros H. rewrite dict_get_update.
  replace (dict_get (rev other) k) with (@None V); [reflexivity |].
  symmetry. apply dict_get_none_iff. apply dict_get_none_iff in H.
  rewrite map_rev. intros Hin. apply H. now apply in_rev.
Qed.

Lemma try_update_absent (body : stm unit) (defaults : dict pyfloat)
  (keys : list string) (k : string) :
  touches_only body keys -> ~ In k keys -> ~ In k (map fst defaults) ->
  dict_get (try_update body defaults []) k = None.
Proof.
  intros Ht Hk Hd.
  now rewrite (try_update_frame body defaults [] keys k Ht Hk Hd).
Qed.

Ltac touches_step :=
  first [ apply touches_bind; [| intros ?]
        | apply touches_lift
        | apply touches_ret
        | apply touches_assign; simpl; tauto ].

Lemma regression_touches (p t : tensor2) :
  touches_only (regression_block p t) ["mse"; "mae"; "rmse"; "r2"]%string.
Proof. unfold regression_block. repeat touches_step. Qed.

Lemma recommendation_touches (p t : tensor2) :
  touches_only (recommendation_block p t default_k_values)
    ["precision_at_5"; "precision_at_10"; "precision_at_20"; "ndcg_20";
     "hit_rate_5"; "hit_rate_10"; "mrr"]%string.
Proof.
  unfold recommendation_block, default_k_values.
  apply touches_bind; [| intros ?].
  { apply touches_for. intros k Hk.
    destruct (Z.of_nat (t2_cols p) <=? k)%Z; [apply touches_ret |].
    apply touches_bind; [apply touches_lift | intros ?].
    apply touches_assign.
    simpl in Hk. destruct Hk as [<- | [<- | [<- | []]]]; vm_compute; tauto. }
  apply touches_bind; [apply touches_lift | intros ?].
  apply touches_bind; [apply touches_assign; simpl; tauto | intros ?].
  apply touches_bind; [| intros ?].
  { apply touches_for. intros k Hk.
    destruct (k <? Z.of_nat (t2_cols p))%Z; [| apply touches_ret].
    apply touches_bind; [apply touches_lift | intros ?].
    apply touches_bind; [apply touches_lift | intros ?].
    apply touches_assign.
    simpl in Hk. destruct Hk as [<- | [<- | []]]; vm_compute; tauto. }
  repeat touches_step.
Qed.

Lemma risk_touches (N : numerics) (r : tensor2) (returns : option tensor2) :
  touches_only (risk_block N r returns)
    ["avg_risk_score"; "risk_score_std"; "risk_score_entropy";
     "risk_concentration"; "risk_volatility_correlation"]%string.
Proof.
  unfold risk_block.
  do 4 (apply touches_bind; [apply touches_assign; simpl; tauto | intros ?]).
  destruct returns as [returns_np |]; [| apply touches_ret].
  destruct ((1 <? _)%nat && (0 <? _)%nat); repeat touches_step.
Qed.

Lemma regime_touches (N : numerics) (g : tensor2)
  (true_regimes : option (list Z)) :
  touches_only (regime_block N g true_regimes)
    ["avg_regime_confidence"; "regime_entropy"; "regime_bull_ratio";
     "regime_bear_ratio"; "regime_sideways_ratio"; "regime_accuracy";
     "regime_bull_precision"; "regime_bull_recall"; "regime_bear_precision";
     "regime_bear_recall"; "regime_sideways_precision";
     "regime_sideways_recall"]%string.
Proof.
  unfold regime_block.
  apply touches_bind; [apply touches_lift | intros preds].
  do 2 (apply touches_bind; [apply touches_assign; simpl; tauto | intros ?]).
  apply touches_bind; [| intros ?].
  { apply touches_for. intros regime _.
    destruct regime as [| [| [| regime]]]; cbn [nth_error regime_names];
      try (apply touches_assign; vm_compute; tauto).
    destruct regime; apply touches_ret. }
  destruct true_regimes as [true_np |]; [| apply touches_ret].
  apply touches_bind; [apply touches_lift | intros ?].
  apply touches_bind; [apply touches_assign; simpl; tauto | intros ?].
  apply touches_for. intros item Hitem.
  cbn in Hitem.
  destruct Hitem as [<- | [<- | [<- | []]]]; cbn [fst snd];
    (apply touches_bind; [| intros ?];
     match goal with
     | |- touches_only (if ?c then _ else _) _ =>
         destruct c; [| apply touches_ret];
         (apply touches_bind; [apply touches_lift | intros ?]);
         apply touches_assign; vm_compute; tauto
     end).
Qed.

Lemma recommendation_handler_frame (ks : list Z) (m : dict pyfloat)
  (k : string) :
  ~ In k (recommendation_default_keys ks) ->
  dict_get (recommendation_handler ks m) k = dict_get m k.
Proof.
  unfold recommendation_default_keys, recommendation_handler. intros Hk.
  rewrite dict_get_update_absent.
  - revert m. induction ks as [| k0 ks IH] using rev_ind; intros m;
      [reflexivity |].
    rewrite fold_left_app. cbn [fold_left].
    rewrite dict_get_set_other.
    + apply IH. intros Hin. apply Hk. rewrite map_app.
      apply in_app_or in Hin. apply in_or_app.
      destruct Hin as [Hin | Hin]; [left; apply in_or_app; now left | now right].
    + intros <-. apply Hk. apply in_or_app. left. rewrite map_app.
      apply in_or_app. right. now left.
  - apply dict_get_none_iff. intros Hin. apply Hk. apply in_or_app. now right.
Qed.

Lemma all_metrics_reported (N : numerics) (risk_free_rate trading_cost : R)
  (model_outputs : dict tensor2) (targets : tensor2)
  (weights : option ndarray) (true_regimes : option (list Z)) (k : string) :
  ~ In k reported_keys ->
  dict_get (calculate_all_metrics N risk_free_rate trading_cost model_outputs
              targets None weights true_regimes) k = None.
Proof.
  intros Hk. unfold calculate_all_metrics.
  assert (Hpred : forall recs c,
            dict_get (calculate_prediction_metrics N recs targets c) k = None).
  { intros recs c. unfold calculate_prediction_metrics, after_classification,
      after_regression.
    assert (H1 : dict_get (try_update (regression_block recs targets)
                             regression_defaults []) k = None).
    { apply try_update_absent with (keys := ["mse"; "mae"; "rmse"; "r2"]%string);
        [apply regression_touches | |];
        intros Hin; apply Hk; simpl in Hin |- *; tauto. }
    assert (H2 : dict_get (try_update (classification_block N recs targets)
                             classification_defaults
                             (try_update (regression_block recs targets)
                                regression_defaults [])) k = None).
    { rewrite <- H1.
      apply try_update_frame
        with (keys := ["accuracy"; "precision"; "recall"; "f1"]%string);
        [apply classification_touches | |];
        intros Hin; apply Hk; simpl in Hin |- *; tauto. }
    destruct c as [c |]; [| exact H2].
    rewrite <- H2.
    apply try_update_frame
      with (keys := ["confidence_accuracy_corr"; "avg_confidence"]%string);
      [apply confidence_touches | |];
      intros Hin; apply Hk; simpl in Hin |- *; tauto. }
  assert (Hrec : forall recs,
            dict_get (calculate_recommendation_metrics recs targets
                        default_k_values) k = None).
  { intros recs. unfold calculate_recommendation_metrics.
    pose proof (recommendation_touches recs targets [] k) as Ht.
    assert (Hnot : ~ In k ["precision_at_5"; "precision_at_10";
                           "precision_at_20"; "ndcg_20"; "hit_rate_5";
                           "hit_rate_10"; "mrr"]%string)
      by (intros Hin; apply Hk; simpl in Hin |- *; tauto).
    specialize (Ht Hnot).
    destruct (recommendation_block recs targets default_k_values [])
      as [m [u | e]]; cbn [fst] in Ht; [exact Ht |].
    rewrite recommendation_handler_frame; [exact Ht | exact Hnot]. }
  assert (Hrisk : forall r ret,
            dict_get (calculate_risk_metrics N r ret) k = None).
  { intros r ret. unfold calculate_risk_metrics.
    eapply try_update_absent; [apply risk_touches | |];
      intros Hin; apply Hk; simpl in Hin |- *; tauto. }
  assert (Hregime : forall g tr,
            dict_get (calculate_regime_metrics N g tr) k = None).
  { intros g tr. unfold calculate_regime_metrics.
    eapply try_update_absent; [apply regime_touches | |];
      intros Hin; apply Hk; simpl in Hin |- *; tauto. }
  destruct (dict_get model_outputs "recommendations") as [recs |];
    destruct (dict_get model_outputs "risk_scores") as [r |];
    destruct (dict_get model_outputs "regime_probs") as [g |];
    rewrite ?dict_get_update_absent by auto; reflexivity.
Qed.

Lemma sharpe_not_reported : ~ In "sharpe_ratio"%string reported_keys.
Proof. unfold reported_keys. simpl. intuition discriminate. Qed.

(** Called without returns, [calculate_all_metrics] reports metrics under
    the names of [reported_keys] only, for every model output and every
    behaviour of the external scorers.  None of them is [sharpe_ratio]:
    the primary metric of such a bundle is its F1 score. *)
Theorem metrics_without_returns_have_no_sharpe (N : numerics)
  (risk_free_rate trading_cost : R) (model_outputs : dict tensor2)
  (targets : tensor2) (weights : option ndarray)
  (true_regimes : option (list Z)) (k : string) :
  ~ In k reported_keys ->
  let all_metrics :=
    calculate_all_metrics N risk_free_rate trading_cost model_outputs targets
      None weights true_regimes in
  dict_get all_metrics k = None /\
  dict_get all_metrics "sharpe_ratio" = None /\
  primary_metric all_metrics = dict_get_default all_metrics "f1" (Fin 0.0).
Proof.
  intros Hk all_metrics.
  assert (Hsharpe : dict_get all_metrics "sharpe_ratio" = None)
    by (apply all_metrics_reported, sharpe_not_reported).
  repeat split; [now apply all_metrics_reported | exact Hsharpe |].
  unfold primary_metric. unfold dict_get_default at 1. now rewrite Hsharpe.
Qed.

End ReportedKeys.

(** The outputs of a head, two samples, and the scorers that refuse. *)
Lemma metrics_without_returns_have_no_sharpe_witness :
  let model_outputs :=
    [("recommendations"%string, T2 2 [[0.7; 0.3]; [0.4; 0.6]]);
     ("confidence"%string, T2 1 [[0.5]; [0.5]]);
     ("risk_scores"%string, T2 2 [[0.5; 0.5]; [0.1; 0.9]]);
     ("regime_probs"%string, T2 3 [[0.2; 0.3; 0.5]; [0.6; 0.3; 0.1]])] in
  let all_metrics :=
    calculate_all_metrics refusing_numerics 0.02 0.001 model_outputs
      (T2 2 [[0.9; 0.1]; [0.2; 0.8]]) None None None in
  dict_get all_metrics "max_drawdown" = None /\
  dict_get all_metrics "sharpe_ratio" = None /\
  primary_metric all_metrics = dict_get_default all_metrics "f1" (Fin 0.0).
Proof.
  intros model_outputs.
  apply (metrics_without_returns_have_no_sharpe refusing_numerics 0.02 0.001
           model_outputs (T2 2 [[0.9; 0.1]; [0.2; 0.8]]) None None
           "max_drawdown").
  unfold reported_keys. simpl. intuition discriminate.
Defined.

(** ** The warm-up of the learning rate *)

Section Warmup.

Lemma train_epoch_ends_snoc (epochs : list Z) (epoch : Z)
  (self : FinancialLightningModule) :
  train_epoch_ends (epochs ++ [epoch]) self
  = match train_epoch_ends epochs self with
    | (self', Ok _) =>
        match on_train_epoch_end (at_epoch self' epoch) with
        | (self'', Ok _) => (self'', Ok tt)
        | (self'', Raise e) => (self'', Raise e)
        end
    | (self', Raise e) => (self', Raise e)
    end.
Proof.
  revert self. induction epochs as [| e0 epochs IH]; intros self; simpl.
  - destruct (on_train_epoch_end (at_epoch self epoch)) as [s [u | e]];
      reflexivity.
  - destruct (on_train_epoch_end (at_epoch self e0)) as [s [u | e]];
      [apply IH | reflexivity].
Qed.

Lemma first_epochs_succ (n : nat) :
  first_epochs (S n) = first_epochs n ++ [Z.of_nat n].
Proof. unfold first_epochs. now rewrite seq_S, map_app. Qed.

Lemma fact_le_pow (W k : nat) :
  (1 <= k <= W)%nat -> (fact k <= W ^ (k - 1))%nat.
Proof.
  induction k as [| k IH]; intros Hk; [lia |].
  destruct k as [| k]; [simpl; lia |].
  assert (H : (fact (S k) <= W ^ k)%nat).
  { replace k with (S k - 1)%nat at 2 by lia. apply IH. lia. }
  replace (S (S k) - 1)%nat with (S k) by lia.
  change (fact (S (S k))) with (S (S k) * fact (S k))%nat.
  rewrite Nat.pow_succ_r'. apply Nat.mul_le_mono; lia.
Qed.

Lemma warmup_product_below_one (W : nat) :
  (2 <= W)%nat -> 0 < warmup_product W W < 1.
Proof.
  intros HW. unfold warmup_product.
  assert (Hpow : (0 < W ^ W)%nat).
  { apply Nat.neq_0_lt_0. apply Nat.pow_nonzero. lia. }
  assert (Hlt : (fact W < W ^ W)%nat).
  { pose proof (fact_le_pow W W ltac:(lia)) as H.
    replace W with (S (W - 1)) at 3 by lia.
    rewrite Nat.pow_succ_r'.
    assert (0 < W ^ (W - 1))%nat
      by (apply Nat.neq_0_lt_0, Nat.pow_nonzero; lia).
    nia. }
  pose proof (lt_O_fact W) as Hf.
  apply lt_INR in Hlt, Hpow, Hf. simpl in Hpow, Hf.
  split.
  - apply Rdiv_lt_0_compat; lra.
  - apply Rmult_lt_reg_r with (INR (W ^ W)); [lra |].
    unfold Rdiv. rewrite Rmult_assoc, Rinv_l by lra. lra.
Qed.

Lemma warmup_product_step (W k : nat) :
  (0 < W)%nat ->
  warmup_product W k * (IZR (Z.of_nat k + 1) / IZR (Z.of_nat W))
  = warmup_product W (S k).
Proof.
  intros HW. unfold warmup_product.
  replace (Z.of_nat k + 1)%Z with (Z.of_nat (S k)) by lia.
  rewrite <- !INR_IZR_INZ.
  change (fact (S k)) with (S k * fact k)%nat.
  rewrite Nat.pow_succ_r', !mult_INR.
  assert (HWr : INR W <> 0) by (apply not_0_INR; lia).
  assert (Hp : INR (W ^ k) <> 0)
    by (apply not_0_INR, Nat.pow_nonzero; lia).
  field. split; assumption.
Qed.

(** The warm-up multiplies the learning rates as they are at the end of
    each epoch, so the factors compound: after [n] epochs a rate [lr] has
    become [lr * k! / W^k] with [k = min n W], where [W] is the number of
    warm-up epochs.  From [W >= 2] on the rate that the warm-up ends with,
    [lr * W! / W^W], is below the initial rate (for the default [W = 5] it
    is [0.0384 * lr]), if nothing else changes the rates. *)
Theorem warmup_factors_compound (self : FinancialLightningModule) (n : nat) :
  (0 < lm_warmup_epochs self)%Z ->
  lm_param_group_lrs self <> [] ->
  let W := Z.to_nat (lm_warmup_epochs self) in
  (exists self',
     train_epoch_ends (first_epochs n) self = (self', Ok tt) /\
     lm_warmup_epochs self' = lm_warmup_epochs self /\
     lm_param_group_lrs self'
     = map (fun lr => lr * warmup_product W (Nat.min n W))
           (lm_param_group_lrs self)) /\
  ((2 <= W)%nat -> 0 < warmup_product W W < 1).
Proof.
  intros HW Hne W. split; [| apply warmup_product_below_one].
  induction n as [| n IH].
  - exists self. repeat split.
    unfold warmup_product. cbn [Nat.min fact Nat.pow INR].
    rewrite <- (map_id (lm_param_group_lrs self)) at 1.
    apply map_ext. intros lr. field.
  - destruct IH as (s & Hrun & Hw & Hlrs).
    rewrite first_epochs_succ, train_epoch_ends_snoc, Hrun.
    unfold on_train_epoch_end, lm_bind, lm_get, at_epoch.
    cbn [lm_current_epoch lm_warmup_epochs lm_param_group_lrs].
    rewrite Hw.
    assert (Hnonempty : forall f : R -> R,
              exists lr0 rest, map f (lm_param_group_lrs self) = lr0 :: rest).
    { intros f. destruct (lm_param_group_lrs self) as [| lr0 rest];
        [congruence |]. now exists (f lr0), (map f rest). }
    destruct (Z.of_nat n <? lm_warmup_epochs self)%Z eqn:Elt.
    + apply Z.ltb_lt in Elt.
      destruct (lm_warmup_epochs self =? 0)%Z eqn:E0;
        [apply Z.eqb_eq in E0; lia |].
      unfold set_param_group_lrs, lm_lift, lm_ret, index.
      cbn [lm_param_group_lrs lm_warmup_epochs fst snd].
      rewrite Hlrs, map_map.
      destruct (Hnonempty
                  (fun lr => lr * warmup_product W (Nat.min n W)
                             * (IZR (Z.of_nat n + 1)
                                / IZR (lm_warmup_epochs self))))
        as (lr0 & rest & Hmap).
      rewrite Hmap. cbn [nth_error].
      eexists. split; [reflexivity |].
      cbn [lm_warmup_epochs lm_param_group_lrs].
      split; [first [exact Hw | reflexivity] |].
      rewrite <- Hmap. apply map_ext. intros lr.
      rewrite Rmult_assoc. f_equal.
      replace (Nat.min n W) with n by lia.
      replace (Nat.min (S n) W) with (S n) by lia.
      replace (lm_warmup_epochs self) with (Z.of_nat W) by (subst W; lia).
      apply warmup_product_step. lia.
    + apply Z.ltb_ge in Elt.
      unfold lm_ret, lm_lift, index. cbn [lm_param_group_lrs fst snd].
      rewrite Hlrs.
      destruct (Hnonempty (fun lr => lr * warmup_product W (Nat.min n W)))
        as (lr0 & rest & Hmap).
      rewrite Hmap. cbn [nth_error].
      eexists. split; [reflexivity |].
      cbn [lm_warmup_epochs lm_param_group_lrs].
      split; [first [exact Hw | reflexivity] |].
      rewrite <- Hmap.
      replace (Nat.min n W) with W by lia.
      replace (Nat.min (S n) W) with W by lia. reflexivity.
Qed.

End Warmup.

(** The default: five warm-up epochs, learning rate 1e-4, ten epochs. *)
Lemma warmup_factors_compound_witness :
  let self :=
    lightning_init
      (engine_init 6 [] 0.1 2 60 5 (fun _ _ _ => 0) (fun _ _ => 0))
      1e-4 None 0.02 0.001 5 "val_sharpe_ratio" "max" in
  (exists self',
     train_epoch_ends (first_epochs 10) self = (self', Ok tt) /\
     lm_warmup_epochs self' = 5%Z /\
     lm_param_group_lrs self'
     = map (fun lr => lr * warmup_product 5 5) [1e-4; 1e-4 * 2]) /\
  ((2 <= 5)%nat -> 0 < warmup_product 5 5 < 1).
Proof.
  intros self.
  apply (warmup_factors_compound self 10); [reflexivity | discriminate].
Defined.

(** ** The end of a validation epoch *)

Section ValidationEpoch.

Lemma with_logged_idem (self : FinancialLightningModule)
  (l1 l2 : list (string * pyfloat)) :
  with_logged (with_logged self l1) l2 = with_logged self l2.
Proof. reflexivity. Qed.

Lemma only_logs_ret {A : Type} (a : A) : only_logs (lm_ret a).
Proof. intros self. exists (lm_logged self). now destruct self. Qed.

Lemma only_logs_lift {A : Type} (r : result A) : only_logs (lm_lift r).
Proof. intros self. exists (lm_logged self). now destruct self. Qed.

Lemma only_logs_log (name : string) (v : pyfloat) : only_logs (lm_log name v).
Proof. intros self. eexists. reflexivity. Qed.

Lemma only_logs_bind {A B : Type} (c : lm A) (k : A -> lm B) :
  only_logs c -> (forall a, only_logs (k a)) -> only_logs (lm_bind c k).
Proof.
  intros Hc Hk self. unfold lm_bind. destruct (Hc self) as [l1 H1].
  destruct (c self) as [s1 [a | e]]; cbn [fst] in *.
  - destruct (Hk a s1) as [l2 H2]. exists l2. rewrite H2, H1. reflexivity.
  - now exists l1.
Qed.

Lemma only_logs_for {A : Type} (l : list A) (body : A -> lm unit) :
  (forall a, only_logs (body a)) -> only_logs (lm_for l body).
Proof.
  intros Hb. induction l as [| a l IH]; simpl.
  - apply only_logs_ret.
  - apply only_logs_bind; [apply Hb | intros _; exact IH].
Qed.

Lemma aggregate_only_logs (prefix : string) (outputs : list step_output)
  (keys : list string) (acc : dict pyfloat) :
  only_logs (aggregate_metrics prefix outputs keys acc).
Proof.
  revert acc. induction keys as [| k keys IH]; intros acc; simpl.
  - apply only_logs_ret.
  - apply only_logs_bind; [apply only_logs_lift | intros values].
    apply only_logs_bind; [apply only_logs_log | intros _]. apply IH.
Qed.

Lemma aggregate_keys (prefix : string) (outputs : list step_output)
  (keys : list string) (acc all_metrics : dict pyfloat)
  (self self' : FinancialLightningModule) (k : string) :
  aggregate_metrics prefix outputs keys acc self = (self', Ok all_metrics) ->
  ~ In k keys -> dict_get all_metrics k = dict_get acc k.
Proof.
  revert acc self. induction keys as [| k0 keys IH]; intros acc self H Hk;
    simpl in H.
  - unfold lm_ret in H. now injection H as _ <-.
  - unfold lm_bind, lm_lift in H.
    destruct (sequence _) as [values |]; [| discriminate H].
    cbn [lm_log] in H.
    apply IH in H; [| intros Hin; apply Hk; now right].
    rewrite H. apply dict_get_set_other. intros ->. apply Hk. now left.
Qed.

(** When the step outputs of an epoch come from [validation_step] (which
    calls [calculate_all_metrics] without returns) and the module monitors
    [val_sharpe_ratio], its default, the end of the validation epoch leaves
    [best_metric_value] as it is: the averaged metrics have no
    [sharpe_ratio], so the value set by [__init__] is never replaced. *)
Theorem default_monitor_never_fires (N : numerics)
  (self : FinancialLightningModule) (outputs : list step_output) :
  lm_monitor_metric self = "val_sharpe_ratio"%string ->
  Forall (fun o => exists s ps b, validation_step N s ps b = Ok o) outputs ->
  lm_best_metric_value (fst (validation_epoch_end outputs self))
  = lm_best_metric_value self.
Proof.
  intros Hmon Hsteps. unfold validation_epoch_end.
  unfold lm_bind at 1. unfold lm_lift at 1.
  destruct (stack_mean (map so_val_loss outputs)) as [avg | e];
    [| reflexivity].
  unfold lm_bind at 1. cbn [lm_log].
  unfold lm_bind at 1. unfold lm_lift at 1.
  destruct (index outputs 0) as [first | e] eqn:Efirst; [| reflexivity].
  assert (Hfirst : dict_get (so_metrics first) "sharpe_ratio" = None).
  { unfold index in Efirst. destruct outputs as [| o outputs];
      [discriminate |]. cbn in Efirst. injection Efirst as ->.
    inversion Hsteps as [| ? ? (s & ps & b & Hstep) _]; subst.
    unfold validation_step in Hstep.
    destruct (forward _ _ _ _ _ _) as [mo |]; [| discriminate Hstep].
    cbn [bind] in Hstep.
    destruct (_compute_total_loss _ _ _) as [losses |]; [| discriminate Hstep].
    cbn [bind] in Hstep.
    destruct (dict_lookup losses "total_loss") as [total |];
      [| discriminate Hstep].
    cbn [bind] in Hstep. injection Hstep as <-. cbn [so_metrics].
    apply all_metrics_reported, sharpe_not_reported. }
  unfold lm_bind at 1.
  match goal with
  | |- context [lm_for ?names ?body ?s0] =>
      destruct (only_logs_for names body
                  ltac:(intros loss_name; cbv beta;
                        destruct (dict_get (so_losses first) loss_name);
                        [| apply only_logs_ret];
                        apply only_logs_bind; [apply only_logs_lift | intros ?];
                        apply only_logs_bind; [apply only_logs_lift | intros ?];
                        apply only_logs_log) s0) as [l1 Hl1];
      destruct (lm_for names body s0) as [s1 [u | e]]
  end; cbn [fst] in Hl1; [| rewrite Hl1; reflexivity].
  unfold lm_bind at 1.
  destruct (aggregate_only_logs "val_" outputs (map fst (so_metrics first)) []
              s1) as [l2 Hl2].
  destruct (aggregate_metrics "val_" outputs (map fst (so_metrics first)) [] s1)
    as [s2 [all_metrics | e]] eqn:Eagg; cbn [fst] in Hl2;
    [| rewrite Hl2, Hl1; reflexivity].
  assert (Hnone : dict_get all_metrics "sharpe_ratio" = None).
  { rewrite (aggregate_keys _ _ _ _ _ _ _ "sharpe_ratio" Eagg);
      [reflexivity |]. now apply dict_get_none_iff. }
  unfold lm_bind, lm_get, set_val_metrics_tracker.
  cbn [lm_monitor_metric lm_mode lm_best_metric_value].
  rewrite Hl2, Hl1. cbn [with_logged lm_monitor_metric lm_mode
                         lm_best_metric_value].
  rewrite Hmon.
  assert (Hkey : (if String.prefix "val_" "val_sharpe_ratio"
                  then string_drop 4 "val_sharpe_ratio"
                  else "val_sharpe_ratio"%string) = "sharpe_ratio"%string)
    by reflexivity.
  rewrite Hkey, Hnone. reflexivity.
Qed.

End ValidationEpoch.

Section ValidationStep.

Lemma head_forward_confidence_rows (d_model num_assets num_risk_factors : nat)
  (w : nat -> nat -> nat -> R) (b : nat -> nat -> R) (ps : pass)
  (x : tensor2) (out : outputs) :
  head_forward (head_init d_model num_assets num_risk_factors w b) ps x
  = Ok out ->
  t2_rows (confidence out) = t2_rows x.
Proof.
  unfold head_forward. intros H.
  destruct (mlp2 (recommendation_head _) ps SiteRecommendation x);
    [| discriminate H].
  cbn [bind] in H.
  destruct (mlp2 (confidence_head _) ps SiteConfidence x) as [cl |] eqn:E2;
    [| discriminate H].
  cbn [bind] in H.
  destruct (mlp2 (risk_head _) ps SiteRisk x); [| discriminate H].
  cbn [bind] in H.
  destruct (mlp2 (regime_head _) ps SiteRegime x); [| discriminate H].
  cbn [bind] in H. injection H as <-. cbn [confidence].
  apply mlp2_ok in E2. destruct E2 as (_ & Hr & _).
  unfold map2d, t2_rows in *. cbn [t2_data]. now rewrite length_map.
Qed.

Lemma softmax_rows_well_shaped (n : nat) (y : tensor2) :
  softmax_rows n y -> well_shaped y.
Proof.
  intros [Hc Hrows]. unfold well_shaped. rewrite Hc.
  eapply Forall_impl; [| exact Hrows].
  intros row [l [Hl ->]]. now rewrite softmax_length.
Qed.

(** A validation step returns whenever the forward pass does and the
    targets have the shape of the recommendations, with at least one
    sample. *)
Lemma validation_step_returns (N : numerics) (self : FinancialLightningModule)
  (d_model : nat) (layers : list encoder_layer) (dropout : R)
  (num_assets sequence_length num_risk_factors : nat)
  (w : nat -> nat -> nat -> R) (b : nat -> nat -> R) (ps : pass)
  (bt : batch) (out : outputs) :
  lm_model self = engine_init d_model layers dropout num_assets
                    sequence_length num_risk_factors w b ->
  forward (lm_model self) ps (b_price bt) (b_volume bt) (b_technical bt)
    (b_fundamental bt) = Ok out ->
  well_shaped (b_target bt) -> t2_cols (b_target bt) = num_assets ->
  t2_rows (b_target bt) = t2_rows (recommendations out) ->
  (0 < t2_rows (b_target bt))%nat ->
  exists o, validation_step N self ps bt = Ok o /\ so_model_outputs o = out.
Proof.
  intros HE Hfwd Ht Hc Hr Hpos. unfold validation_step. rewrite Hfwd.
  cbn [bind]. rewrite HE in Hfwd.
  apply forward_ok_head in Hfwd. destruct Hfwd as [final Hhead].
  unfold engine_init in Hhead. cbn [e_recommendation_head] in Hhead.
  pose proof (head_forward_confidence_rows _ _ _ _ _ _ _ _ Hhead) as Hconf.
  apply head_forward_inv in Hhead.
  destruct Hhead as ([Hrecs Hr1] & [Hrisk Hr2] & [Hreg Hr3]).
  destruct (compute_total_loss_returns (lm_loss_weights self) out
              (b_target bt)) as [losses Hlosses];
    try congruence.
  - now apply softmax_rows_well_shaped with (n := num_assets).
  - destruct Hrecs as [Hcols _]. congruence.
  - destruct Hreg as [Hcols _]. rewrite Hcols. lia.
  - rewrite Hlosses. cbn [bind].
    assert (Htotal : exists v, dict_get losses "total_loss" = Some v).
    { unfold _compute_total_loss in Hlosses.
      destruct (dict_get (outputs_dict out) "recommendations");
        [| discriminate Hlosses].
      destruct (_calculate_recommendation_loss _ _ _); [| discriminate Hlosses].
      cbn [bind] in Hlosses.
      destruct (match dict_get (outputs_dict out) "confidence" with
                | Some _ => _ | None => _ end); [| discriminate Hlosses].
      cbn [bind] in Hlosses.
      destruct (match dict_get (outputs_dict out) "risk_scores" with
                | Some _ => _ | None => _ end); [| discriminate Hlosses].
      cbn [bind] in Hlosses.
      destruct (match dict_get (outputs_dict out) "regime_probs" with
                | Some _ => _ | None => _ end); [| discriminate Hlosses].
      cbn [bind] in Hlosses. injection Hlosses as <-.
      eexists. apply dict_get_set_same. }
    destruct Htotal as [v Hv]. unfold dict_lookup. rewrite Hv. cbn [bind].
    eexists. split; reflexivity.
Qed.

End ValidationStep.

(** A module as [__init__] leaves it, one batch of one sample, and the end
    of the validation epoch on the output of its validation step. *)
Lemma default_monitor_never_fires_witness :
  let E := engine_init 6 [fun x _ => Ok (t3_data x)] 0.1 2 60 5
             (fun _ _ _ => 0) (fun _ _ => 0) in
  let self := lightning_init E 1e-4 None 0.02 0.001 5 "val_sharpe_ratio"
                "max" in
  let one f := T3 1 f [[repeat 0 f]] in
  let bt := mkBatch (one 1%nat) (one 1%nat) (one 20%nat) (one 15%nat)
              (T2 2 [[0.5; 0.5]]) in
  exists o,
    validation_step refusing_numerics self eval_pass bt = Ok o /\
    lm_best_metric_value (fst (validation_epoch_end [o] self)) = NInf.
Proof.
  intros E self one bt.
  assert (Hfwd : exists out,
            forward E eval_pass (one 1%nat) (one 1%nat) (one 20%nat)
              (one 15%nat) = Ok out /\
            t2_rows (recommendations out) = 1%nat)
    by (eexists; split; reflexivity).
  destruct Hfwd as (out & Hfwd & Hrows).
  destruct (validation_step_returns refusing_numerics self 6
              [fun x _ => Ok (t3_data x)] 0.1 2 60 5 (fun _ _ _ => 0)
              (fun _ _ => 0) eval_pass bt out) as (o & Ho & _).
  { reflexivity. }
  { exact Hfwd. }
  { repeat constructor. }
  { reflexivity. }
  { rewrite Hrows. reflexivity. }
  { cbn. lia. }
  exists o. split; [exact Ho |].
  apply (default_monitor_never_fires refusing_numerics self [o]);
    [reflexivity |].
  constructor; [| constructor]. now exists self, eval_pass, bt.
Defined.

(** ** The regression metrics without fallback *)

Section RegressionMetrics.

Lemma Rsum_map2_squares_nonneg (l1 l2 : list R) :
  0 <= Rsum (map2 (fun t p => (t - p) * (t - p)) l1 l2).
Proof.
  apply Rsum_nonneg. unfold map2. apply Forall_map. apply Forall_forall.
  intros [a c] _. cbn [fst snd]. exact (Rle_0_sqr (a - c)).
Qed.

Lemma Rsum_map2_self (f : R -> R -> R) (l : list R) :
  (forall x, f x x = 0) -> Rsum (map2 f l l) = 0.
Proof.
  intros Hf. unfold map2. induction l as [| x l IH]; simpl; [reflexivity |].
  change (fold_right Rplus 0 (map (fun p => f (fst p) (snd p)) (combine l l)))
    with (Rsum (map (fun p => f (fst p) (snd p)) (combine l l))).
  rewrite IH, Hf. ring.
Qed.

Lemma regression_block_runs (p t : tensor2) :
  length (flatten p) = length (flatten t) -> flatten t <> [] ->
  after_regression p t
  = [("mse"%string,
      Fin (Rsum (map2 (fun a c => (a - c) * (a - c)) (flatten t) (flatten p))
           / INR (length (flatten t))));
     ("mae"%string,
      Fin (Rsum (map2 (fun a c => Rabs (a - c)) (flatten t) (flatten p))
           / INR (length (flatten t))));
     ("rmse"%string,
      Fin (sqrt (Rsum (map2 (fun a c => (a - c) * (a - c)) (flatten t)
                            (flatten p))
                 / INR (length (flatten t)))));
     ("r2"%string, Fin (r_squared (flatten t) (flatten p)))].
Proof.
  intros Hlen Hne. unfold after_regression, try_update, regression_block.
  unfold mean_squared_error, mean_absolute_error, check_targets.
  rewrite <- Hlen, Nat.eqb_refl. cbn [negb].
  destruct (length (flatten p) =? 0)%nat eqn:E0.
  { apply Nat.eqb_eq in E0. rewrite E0 in Hlen.
    destruct (flatten t); [congruence | discriminate]. }
  unfold st_bind, st_lift, st_assign. cbn [bind].
  unfold np_broadcast1. rewrite <- Hlen, broadcast_dim_same.
  cbn [dict_set String.eqb Ascii.eqb Bool.eqb].
  rewrite Rmean_fin by exact Hne.
  do 3 f_equal. f_equal. f_equal.
  assert (Hres : Rsum (map (fun d => d * d)
                         (map (fun k => nth (bidx (length (flatten p)) k)
                                          (flatten t) 0
                                        - nth (bidx (length (flatten p)) k)
                                            (flatten p) 0)
                              (seq 0 (length (flatten p)))))
                 = Rsum (map2 (fun a c => (a - c) * (a - c)) (flatten t)
                              (flatten p))).
  { rewrite map_map.
    rewrite (map_seq_bidx
               (fun k => (nth k (flatten t) 0 - nth k (flatten p) 0)
                         * (nth k (flatten t) 0 - nth k (flatten p) 0))).
    rewrite Hlen.
    now rewrite (map_seq_nth2 (fun a c => (a - c) * (a - c))
                   (flatten t) (flatten p) 0 0) by congruence. }
  rewrite Hres. unfold r_squared, pf_nonzero.
  destruct (Reqb _ 0) eqn:Ez; cbn [negb].
  - f_equal. lra.
  - cbn [pf_div pf_sub pf_neg pf_add]. rewrite Ez. reflexivity.
Qed.

(** When predictions and targets have the same number of entries, at least
    one, the regression block does not fall back: [mse] and [mae] are the
    mean squared and the mean absolute difference and are not negative,
    [rmse] is the square root of [mse], and [r2] is at most 1.  When the
    predictions equal the targets, [mse] and [mae] are 0 and [r2] is 1, or
    0 if the targets do not vary.  Later blocks do not change the four
    values. *)
Theorem regression_metrics_without_fallback (N : numerics) (p t : tensor2)
  (c : option tensor2) :
  length (flatten p) = length (flatten t) -> flatten t <> [] ->
  let metrics := calculate_prediction_metrics N p t c in
  exists mse mae r2,
    dict_get metrics "mse" = Some (Fin mse) /\
    dict_get metrics "mae" = Some (Fin mae) /\
    dict_get metrics "rmse" = Some (Fin (sqrt mse)) /\
    dict_get metrics "r2" = Some (Fin r2) /\
    mse = Rsum (map2 (fun a c => (a - c) * (a - c)) (flatten t) (flatten p))
          / INR (length (flatten t)) /\
    mae = Rsum (map2 (fun a c => Rabs (a - c)) (flatten t) (flatten p))
          / INR (length (flatten t)) /\
    r2 = r_squared (flatten t) (flatten p) /\
    0 <= mse /\ 0 <= mae /\ r2 <= 1 /\
    (flatten p = flatten t -> mse = 0 /\ mae = 0 /\ (r2 = 1 \/ r2 = 0)).
Proof.
  intros Hlen Hne metrics. subst metrics.
  assert (Hn : 0 < INR (length (flatten t))).
  { apply lt_0_INR. destruct (flatten t); [congruence | simpl; lia]. }
  do 3 eexists.
  rewrite !prediction_keeps_regression by (simpl; tauto).
  rewrite (regression_block_runs p t Hlen Hne).
  cbn [dict_get String.eqb Ascii.eqb Bool.eqb].
  do 7 (split; [reflexivity |]).
  assert (Hsq : 0 <= Rsum (map2 (fun a c => (a - c) * (a - c)) (flatten t)
                                (flatten p)))
    by apply Rsum_map2_squares_nonneg.
  assert (Habs : 0 <= Rsum (map2 (fun a c => Rabs (a - c)) (flatten t)
                                 (flatten p))).
  { apply Rsum_nonneg. unfold map2. apply Forall_map. apply Forall_forall.
    intros v _. apply Rabs_pos. }
  assert (Hinv : 0 < / INR (length (flatten t)))
    by now apply Rinv_0_lt_compat.
  split; [unfold Rdiv; apply Rmult_le_pos; lra |].
  split; [unfold Rdiv; apply Rmult_le_pos; lra |].
  split.
  - unfold r_squared. destruct (Reqb _ 0) eqn:Ez; [lra |].
    set (ss_tot := Rsum (map _ (flatten t))) in *.
    assert (Htot : 0 <= ss_tot).
    { subst ss_tot. apply Rsum_nonneg. apply Forall_map. apply Forall_forall.
      intros v _. exact (Rle_0_sqr _). }
    assert (Hnz : ss_tot <> 0).
    { intros H0. rewrite (Reqb_true ss_tot 0 H0) in Ez. discriminate. }
    assert (0 <= Rsum (map2 (fun t0 p0 => (t0 - p0) * (t0 - p0)) (flatten t)
                            (flatten p)) / ss_tot).
    { unfold Rdiv. apply Rmult_le_pos; [exact Hsq |].
      left. apply Rinv_0_lt_compat. lra. }
    lra.
  - intros Heq. rewrite Heq.
    rewrite (Rsum_map2_self (fun a c => (a - c) * (a - c)))
      by (intros x; ring).
    rewrite (Rsum_map2_self (fun a c => Rabs (a - c)))
      by (intros x; replace (x - x) with 0 by ring; apply Rabs_R0).
    split; [unfold Rdiv; ring |]. split; [unfold Rdiv; ring |].
    unfold r_squared.
    rewrite (Rsum_map2_self (fun a c => (a - c) * (a - c)))
      by (intros x; ring).
    destruct (Reqb _ 0); [now right | left].
    unfold Rdiv. ring.
Qed.

End RegressionMetrics.

(** Two samples over two assets. *)
Lemma regression_metrics_without_fallback_witness :
  let p := T2 2 [[0.7; 0.3]; [0.4; 0.6]] in
  let t := T2 2 [[0.9; 0.1]; [0.2; 0.8]] in
  let metrics := calculate_prediction_metrics refusing_numerics p t None in
  exists mse mae r2,
    dict_get metrics "mse" = Some (Fin mse) /\
    dict_get metrics "mae" = Some (Fin mae) /\
    dict_get metrics "rmse" = Some (Fin (sqrt mse)) /\
    dict_get metrics "r2" = Some (Fin r2) /\
    mse = Rsum (map2 (fun a c => (a - c) * (a - c)) (flatten t) (flatten p))
          / INR (length (flatten t)) /\
    mae = Rsum (map2 (fun a c => Rabs (a - c)) (flatten t) (flatten p))
          / INR (length (flatten t)) /\
    r2 = r_squared (flatten t) (flatten p) /\
    0 <= mse /\ 0 <= mae /\ r2 <= 1 /\
    (flatten p = flatten t -> mse = 0 /\ mae = 0 /\ (r2 = 1 \/ r2 = 0)).
Proof.
  intros p t.
  apply (regression_metrics_without_fallback refusing_numerics p t None);
    [reflexivity | discriminate].
Defined.

(** ** The risk metrics on the risk scores of the head *)

Section RiskMetrics.

Lemma Rsum_app (l1 l2 : list R) : Rsum (l1 ++ l2) = Rsum l1 + Rsum l2.
Proof.
  induction l1 as [| x l1 IH]; simpl; [ring |].
  change (fold_right Rplus 0 (l1 ++ l2)) with (Rsum (l1 ++ l2)).
  change (fold_right Rplus 0 l1) with (Rsum l1). rewrite IH. ring.
Qed.

Lemma Rsum_concat (rows : list (list R)) :
  Rsum (concat rows) = Rsum (map Rsum rows).
Proof.
  induction rows as [| row rows IH]; simpl; [reflexivity |].
  rewrite Rsum_app, IH. reflexivity.
Qed.

Lemma length_concat_uniform {X : Type} (n : nat) (rows : list (list X)) :
  Forall (fun row => length row = n) rows ->
  length (concat rows) = (length rows * n)%nat.
Proof.
  induction 1 as [| row rows Hrow _ IH]; simpl; [reflexivity |].
  rewrite length_app, IH, Hrow. reflexivity.
Qed.

Lemma Rsum_const (c : R) (l : list R) :
  Forall (fun v => v = c) l -> Rsum l = INR (length l) * c.
Proof.
  induction 1 as [| v l Hv _ IH]; [simpl; ring |].
  cbn [Rsum fold_right]. change (fold_right Rplus 0 l) with (Rsum l).
  rewrite IH, Hv, length_cons, S_INR. ring.
Qed.

Lemma Rsum_upper_bound (c : R) (l : list R) :
  Forall (fun v => v <= c) l -> Rsum l <= c * INR (length l).
Proof.
  induction 1 as [| v l Hv _ IH].
  - simpl. lra.
  - cbn [Rsum fold_right]. change (fold_right Rplus 0 l) with (Rsum l).
    rewrite length_cons, S_INR. lra.
Qed.

Lemma entry_le_sum (l : list R) (x : R) :
  Forall (fun v => 0 <= v) l -> In x l -> x <= Rsum l.
Proof.
  induction 1 as [| v l Hv Hl IH]; intros Hin; [contradiction |].
  cbn [Rsum fold_right]. change (fold_right Rplus 0 l) with (Rsum l).
  pose proof (Rsum_nonneg l Hl). destruct Hin as [-> | Hin]; [lra |].
  specialize (IH Hin). lra.
Qed.

Lemma Rsum_square_gap (c : R) (l : list R) :
  Rsum (map (fun p => (p - c) * (p - c)) l)
  = Rsum (map (fun p => p * p) l) - 2 * c * Rsum l + INR (length l) * c * c.
Proof.
  induction l as [| p l IH]; [simpl; ring |].
  cbn [map Rsum fold_right].
  change (fold_right Rplus 0 (map (fun p => (p - c) * (p - c)) l))
    with (Rsum (map (fun p => (p - c) * (p - c)) l)).
  change (fold_right Rplus 0 (map (fun p => p * p) l))
    with (Rsum (map (fun p => p * p) l)).
  change (fold_right Rplus 0 l) with (Rsum l).
  rewrite IH, length_cons, S_INR. ring.
Qed.

(** The concentration of a distribution over [n] entries lies between
    [1/n] and 1. *)
Lemma concentration_bounds (n : nat) (row : list R) :
  (0 < n)%nat -> length row = n -> Forall (fun p => 0 <= p) row ->
  Rsum row = 1 ->
  1 / INR n <= Rsum (map (fun p => p * p) row) <= 1.
Proof.
  intros Hn Hlen Hnn Hsum.
  assert (HnR : 0 < INR n) by (apply lt_0_INR; exact Hn).
  split.
  - pose proof (Rsum_square_gap (1 / INR n) row) as Hgap.
    assert (Hpos : 0 <= Rsum (map (fun p => (p - 1 / INR n) * (p - 1 / INR n))
                                  row)).
    { apply Rsum_nonneg. apply Forall_map. apply Forall_forall.
      intros v _. exact (Rle_0_sqr _). }
    rewrite Hsum, Hlen in Hgap.
    replace (INR n * (1 / INR n) * (1 / INR n)) with (1 / INR n) in Hgap
      by (field; lra).
    lra.
  - rewrite <- Hsum.
    assert (Hle : Forall (fun p => p * p <= p) row).
    { apply Forall_forall. intros p Hp.
      pose proof (entry_le_sum row p Hnn Hp) as H1. rewrite Hsum in H1.
      rewrite Forall_forall in Hnn. specialize (Hnn p Hp). nra. }
    clear - Hle. induction Hle as [| p l Hp _ IH]; [simpl; lra |].
    cbn [map Rsum fold_right].
    change (fold_right Rplus 0 (map (fun p => p * p) l))
      with (Rsum (map (fun p => p * p) l)).
    change (fold_right Rplus 0 l) with (Rsum l). lra.
Qed.

Variables (d_model num_assets num_risk_factors : nat).
Variables (w : nat -> nat -> nat -> R) (b : nat -> nat -> R).

(** On the risk scores that the head returns for a batch that is not
    empty, [avg_risk_score] is [1 / num_risk_factors] whatever the model
    and the input, and [risk_concentration] lies between
    [1 / num_risk_factors] and 1 (without returns; no fallback). *)
Theorem risk_metrics_of_head_outputs (N : numerics) (ps : pass)
  (x : tensor2) (out : outputs) :
  (0 < num_risk_factors)%nat -> (0 < t2_rows x)%nat ->
  head_forward (head_init d_model num_assets num_risk_factors w b) ps x
  = Ok out ->
  let metrics := calculate_risk_metrics N (risk_scores out) None in
  dict_get metrics "avg_risk_score" = Some (Fin (1 / INR num_risk_factors)) /\
  exists concentration,
    dict_get metrics "risk_concentration" = Some (Fin concentration) /\
    1 / INR num_risk_factors <= concentration <= 1.
Proof.
  intros HR HB Hout metrics. subst metrics.
  apply head_forward_inv in Hout. destruct Hout as (_ & [Hsm Hrows] & _).
  pose proof (softmax_rows_sum _ _ HR Hsm) as Hsum.
  pose proof (softmax_rows_well_shaped _ _ Hsm) as Hshape.
  destruct Hsm as [Hcols Hsoft]. unfold well_shaped in Hshape.
  rewrite Hcols in Hshape.
  set (rows := t2_data (risk_scores out)) in *.
  assert (Hlen : length rows = t2_rows x) by exact Hrows.
  assert (HBr : 0 < INR (length rows)) by (apply lt_0_INR; lia).
  assert (HRr : 0 < INR num_risk_factors) by (apply lt_0_INR; exact HR).
  unfold calculate_risk_metrics, try_update, risk_block.
  unfold st_bind, st_assign, st_ret.
  cbn [dict_set dict_get String.eqb Ascii.eqb Bool.eqb fst snd].
  split.
  - f_equal. unfold flatten. fold rows.
    assert (Hne : concat rows <> []).
    { intros Hnil. apply (f_equal (@length R)) in Hnil.
      rewrite (length_concat_uniform num_risk_factors rows Hshape) in Hnil.
      simpl in Hnil. nia. }
    rewrite Rmean_fin by exact Hne. f_equal.
    rewrite Rsum_concat, (length_concat_uniform num_risk_factors rows Hshape).
    rewrite (Rsum_const 1), length_map, mult_INR
      by (apply Forall_map; exact Hsum).
    field. lra.
  - fold rows.
    assert (Hne : map (fun row => Rsum (map (fun p => p * p) row)) rows <> []).
    { intros Hnil. apply (f_equal (@length R)) in Hnil.
      rewrite length_map in Hnil. simpl in Hnil. lia. }
    rewrite Rmean_fin by exact Hne. eexists. split; [reflexivity |].
    rewrite length_map.
    assert (Hall : Forall (fun c => 1 / INR num_risk_factors <= c <= 1)
                     (map (fun row => Rsum (map (fun p => p * p) row)) rows)).
    { apply Forall_map. apply Forall_forall. intros row Hrow.
      rewrite Forall_forall in Hshape, Hsum, Hsoft.
      destruct (Hsoft row Hrow) as [l [_ Hl]].
      apply concentration_bounds; auto.
      rewrite Hl. apply softmax_nonneg. }
    assert (Hlo : Forall (fun c => 1 / INR num_risk_factors <= c)
                    (map (fun row => Rsum (map (fun p => p * p) row)) rows))
      by (eapply Forall_impl; [| exact Hall]; intros c Hc; apply Hc).
    assert (Hhi : Forall (fun c => c <= 1)
                    (map (fun row => Rsum (map (fun p => p * p) row)) rows))
      by (eapply Forall_impl; [| exact Hall]; intros c Hc; apply Hc).
    apply Rsum_lower_bound in Hlo. apply Rsum_upper_bound in Hhi.
    rewrite length_map in Hlo, Hhi.
    assert (Hinv : 0 < / INR (length rows)) by now apply Rinv_0_lt_compat.
    split.
    + apply Rmult_le_reg_r with (INR (length rows)); [exact HBr |].
      unfold Rdiv at 2. rewrite Rmult_assoc, Rinv_l by lra. lra.
    + apply Rmult_le_reg_r with (INR (length rows)); [exact HBr |].
      unfold Rdiv. rewrite Rmult_assoc, Rinv_l by lra. lra.
Qed.

End RiskMetrics.

(** The head for 4-wide representations with five risk factors. *)
Lemma risk_metrics_of_head_outputs_witness :
  exists out,
    head_forward (head_init 4 2 5 (fun _ _ _ => 1) (fun _ _ => 0)) eval_pass
                 (T2 4 [[1; -2; 0; 3]]) = Ok out /\
    let metrics :=
      calculate_risk_metrics refusing_numerics (risk_scores out) None in
    dict_get metrics "avg_risk_score" = Some (Fin (1 / INR 5)) /\
    exists concentration,
      dict_get metrics "risk_concentration" = Some (Fin concentration) /\
      1 / INR 5 <= concentration <= 1.
Proof.
  eexists. split; [reflexivity |].
  apply (risk_metrics_of_head_outputs 4 2 5 (fun _ _ _ => 1) (fun _ _ => 0)
           refusing_numerics eval_pass (T2 4 [[1; -2; 0; 3]]));
    [lia | cbn; lia | reflexivity].
Defined.

(** ** The confidence metrics over several assets *)

Section ConfidenceMetrics.

(** [np.corrcoef] refuses two sequences of different lengths.  The
    confidence block correlates the confidences, one per sample, with the
    errors, one per sample and asset: whenever the two counts differ (as
    they do for every batch over more than one asset) the block raises and
    both confidence metrics are reported as 0.0, the average confidence
    included. *)
Theorem confidence_metrics_fall_back (N : numerics) (p t c : tensor2) :
  (forall x y, length x <> length y -> is_ok (np_corrcoef N x y) = false) ->
  length (flatten p) = length (flatten t) ->
  length (flatten c) <> length (flatten p) ->
  let metrics := calculate_prediction_metrics N p t (Some c) in
  dict_get metrics "confidence_accuracy_corr" = Some (Fin 0.0) /\
  dict_get metrics "avg_confidence" = Some (Fin 0.0).
Proof.
  intros Hcorr Hlen Hdiff metrics. subst metrics.
  unfold calculate_prediction_metrics.
  rewrite try_update_raises.
  - pose proof (has_entries_update
                  (fst (confidence_block N p t c (after_classification N p t)))
                  confidence_defaults) as H.
    unfold has_entries, confidence_defaults in H.
    assert (Hnd : NoDup (map fst [("confidence_accuracy_corr"%string, Fin 0.0);
                                  ("avg_confidence"%string, Fin 0.0)])).
    { cbn [map fst]. constructor; [| constructor; [| constructor]].
      - intros [Heq | []]. discriminate Heq.
      - intros []. }
    specialize (H Hnd).
    inversion H as [| ? ? H1 H']; subst. inversion H' as [| ? ? H2 _]; subst.
    split; [exact H1 | exact H2].
  - unfold confidence_block, st_bind, st_lift, np_broadcast1.
    rewrite Hlen, broadcast_dim_same. cbn [snd].
    specialize (Hcorr (map Fin (flatten c))
                  (map (fun e => Fin (- e))
                       (map Rabs
                            (map (fun k =>
                                    nth (bidx (length (flatten t)) k)
                                        (flatten p) 0
                                    - nth (bidx (length (flatten t)) k)
                                          (flatten t) 0)
                                 (seq 0 (length (flatten t))))))).
    destruct (np_corrcoef N _ _) as [v | e]; [| reflexivity].
    exfalso. cbn [is_ok] in Hcorr.
    assert (true = false); [| discriminate].
    apply Hcorr. rewrite !length_map, length_seq. congruence.
Qed.

End ConfidenceMetrics.

(** Two samples over two assets, one confidence per sample. *)
Lemma confidence_metrics_fall_back_witness :
  let p := T2 2 [[0.7; 0.3]; [0.4; 0.6]] in
  let t := T2 2 [[0.9; 0.1]; [0.2; 0.8]] in
  let c := T2 1 [[0.9]; [0.8]] in
  let metrics := calculate_prediction_metrics refusing_numerics p t (Some c) in
  dict_get metrics "confidence_accuracy_corr" = Some (Fin 0.0) /\
  dict_get metrics "avg_confidence" = Some (Fin 0.0).
Proof.
  intros p t c.
  apply (confidence_metrics_fall_back refusing_numerics p t c).
  - intros x y _. reflexivity.
  - reflexivity.
  - cbn. lia.
Defined.

(** ** The shares of the predicted regimes *)

Section RegimeRatios.

Lemma argmax_from_bound (l : list R) (best i : nat) (bv : R) :
  (best < i)%nat -> (argmax_from best bv i l < i + length l)%nat.
Proof.
  revert best i bv. induction l as [| x l IH]; intros best i bv Hb; simpl.
  - lia.
  - destruct (Rltb bv x).
    + specialize (IH i (S i) x ltac:(lia)). lia.
    + specialize (IH best (S i) bv ltac:(lia)). lia.
Qed.

Lemma sequence_map_ok {X Y : Type} (f : X -> result Y) (g : X -> Y)
  (l : list X) :
  (forall x, In x l -> f x = Ok (g x)) -> sequence (map f l) = Ok (map g l).
Proof.
  induction l as [| x l IH]; intros H; simpl; [reflexivity |].
  rewrite (H x) by now left. cbn [bind].
  rewrite IH by (intros y Hy; apply H; now right). reflexivity.
Qed.

Lemma enumerate_snd {X : Type} (l : list X) : map snd (enumerate l) = l.
Proof.
  unfold enumerate. generalize 0%nat.
  induction l as [| x l IH]; intros i; simpl; [reflexivity |].
  now rewrite IH.
Qed.

Lemma sort_by_perm {X : Type} (le : X -> X -> bool) (l : list X) :
  Permutation (sort_by le l) l.
Proof.
  unfold sort_by. rewrite <- (enumerate_snd l) at 2.
  apply Permutation_map. apply sort_pairs_perm.
Qed.

Lemma np_unique_In (c : nat) (l : list nat) : In c (np_unique l) <-> In c l.
Proof.
  unfold np_unique. rewrite nodup_In. split; intros H.
  - eapply Permutation_in; [apply sort_by_perm | exact H].
  - eapply Permutation_in; [apply Permutation_sym, sort_by_perm | exact H].
Qed.

Lemma existsb_count (c : nat) (l : list nat) :
  existsb (Nat.eqb c) l = (0 <? count_of c l)%nat.
Proof.
  unfold count_of. induction l as [| x l IH]; simpl; [reflexivity |].
  destruct (c =? x)%nat; simpl; [reflexivity | exact IH].
Qed.

Lemma existsb_unique (c : nat) (l : list nat) :
  existsb (Nat.eqb c) (np_unique l) = existsb (Nat.eqb c) l.
Proof.
  destruct (existsb (Nat.eqb c) l) eqn:E.
  - apply existsb_exists in E. destruct E as [x [Hx Hcx]].
    apply existsb_exists. exists x. split; [| exact Hcx].
    apply (proj2 (np_unique_In x l)). exact Hx.
  - apply not_true_is_false. intros H. apply existsb_exists in H.
    destruct H as [x [Hx Hcx]]. apply (proj1 (np_unique_In x l)) in Hx.
    assert (Ht : existsb (Nat.eqb c) l = true).
    { apply existsb_exists. exists x. split; assumption. }
    congruence.
Qed.

Lemma count_of_cons (c x : nat) (l : list nat) :
  count_of c (x :: l)
  = ((if (c =? x)%nat then 1 else 0) + count_of c l)%nat.
Proof. unfold count_of. cbn [filter]. now destruct (c =? x)%nat. Qed.

Lemma counts_of_three (l : list nat) :
  Forall (fun c => (c < 3)%nat) l ->
  (count_of 0 l + count_of 1 l + count_of 2 l = length l)%nat.
Proof.
  induction 1 as [| c l Hc _ IH]; [reflexivity |].
  rewrite !count_of_cons, length_cons.
  destruct (Nat.eqb_spec 0 c), (Nat.eqb_spec 1 c), (Nat.eqb_spec 2 c); lia.
Qed.

Lemma st_for_assign (key : nat -> option string) (v : nat -> pyfloat)
  (l : list nat) (m : dict pyfloat) :
  (forall c c' k, key c = Some k -> key c' = Some k -> c = c') ->
  snd (st_for l (fun c => match key c with
                          | Some k => st_assign k (v c)
                          | None => st_ret tt
                          end) m) = Ok tt /\
  forall c k, key c = Some k ->
    dict_get (fst (st_for l (fun c => match key c with
                                      | Some k => st_assign k (v c)
                                      | None => st_ret tt
                                      end) m)) k
    = if existsb (Nat.eqb c) l then Some (v c) else dict_get m k.
Proof.
  intros Hinj. revert m. induction l as [| a l IH]; intros m.
  - split; [reflexivity | intros c k _; reflexivity].
  - cbn [st_for]. unfold st_bind.
    destruct (key a) as [ka |] eqn:Ea.
    + unfold st_assign at 1 3. destruct (IH (dict_set m ka (v a))) as [Hok Hget].
      split; [exact Hok |].
      intros c k Hk. rewrite (Hget c k Hk). cbn [existsb].
      destruct (c =? a)%nat eqn:Eca.
      * apply Nat.eqb_eq in Eca. subst a.
        assert (ka = k) by congruence. subst ka.
        rewrite dict_get_set_same. cbn [orb].
        destruct (existsb (Nat.eqb c) l); reflexivity.
      * cbn [orb]. destruct (existsb (Nat.eqb c) l); [reflexivity |].
        apply dict_get_set_other. intros ->.
        apply Nat.eqb_neq in Eca. apply Eca. symmetry.
        now apply (Hinj a c k).
    + unfold st_ret at 1 3. destruct (IH m) as [Hok Hget].
      split; [exact Hok |].
      intros c k Hk. rewrite (Hget c k Hk). cbn [existsb].
      destruct (c =? a)%nat eqn:Eca; [| reflexivity].
      apply Nat.eqb_eq in Eca. subst a. congruence.
Qed.

Lemma st_for_ext {X : Type} (f h : X -> stm unit) (l : list X)
  (m : dict pyfloat) :
  (forall a m', f a m' = h a m') -> st_for l f m = st_for l h m.
Proof.
  intros Hext. revert m. induction l as [| a l IH]; intros m;
    [reflexivity |].
  cbn [st_for]. unfold st_bind. rewrite Hext.
  destruct (h a m) as [m' [u | e]]; [apply IH | reflexivity].
Qed.

Lemma ratio_key_of (c : nat) :
  match nth_error regime_names c with
  | Some name => Some (ratio_key name)
  | None => None
  end
  = nth_error ["regime_bull_ratio"; "regime_bear_ratio";
               "regime_sideways_ratio"]%string c.
Proof. destruct c as [| [| [| [| c]]]]; reflexivity. Qed.

(** For regime probabilities over a batch that is not empty, without true
    regimes: the predictions are the positions of the row maxima; the share
    of a regime that is predicted at least once is its count over the batch
    size, a regime that is never predicted has no entry at all (not 0, and
    not the 0.33 of the fallback), and the shares reported sum to 1. *)
Theorem regime_ratios_follow_counts (N : numerics) (g : tensor2) :
  well_shaped g -> t2_cols g = 3%nat -> (0 < t2_rows g)%nat ->
  exists regime_predictions,
    argmax_rows g = Ok regime_predictions /\
    length regime_predictions = t2_rows g /\
    (forall c name, nth_error regime_names c = Some name ->
       dict_get (calculate_regime_metrics N g None) (ratio_key name)
       = if (0 <? count_of c regime_predictions)%nat
         then Some (Fin (INR (count_of c regime_predictions)
                         / INR (t2_rows g)))
         else None) /\
    INR (count_of 0 regime_predictions) / INR (t2_rows g)
    + INR (count_of 1 regime_predictions) / INR (t2_rows g)
    + INR (count_of 2 regime_predictions) / INR (t2_rows g) = 1.
Proof.
  intros Hshape Hcols HB.
  set (am := fun row : list R =>
               match row with
               | [] => 0%nat
               | x :: rest => argmax_from 0 x 1 rest
               end).
  assert (Hpreds : argmax_rows g = Ok (map am (t2_data g))).
  { unfold argmax_rows. rewrite Hcols. cbn [Nat.eqb].
    apply sequence_map_ok. intros row Hrow.
    unfold well_shaped in Hshape. rewrite Forall_forall in Hshape.
    specialize (Hshape row Hrow). rewrite Hcols in Hshape.
    destruct row as [| x rest]; [discriminate | reflexivity]. }
  assert (Hbound : Forall (fun c => (c < 3)%nat) (map am (t2_data g))).
  { apply Forall_map. unfold well_shaped in Hshape. rewrite Hcols in Hshape.
    eapply Forall_impl; [| exact Hshape].
    intros row Hlen. destruct row as [| x rest]; [discriminate |].
    subst am. cbv beta iota.
    pose proof (argmax_from_bound rest 0 1 x ltac:(lia)) as Hb.
    simpl in Hlen. lia. }
  exists (map am (t2_data g)).
  assert (Hlen : length (map am (t2_data g)) = t2_rows g)
    by (unfold t2_rows; now rewrite length_map).
  assert (HBr : INR (t2_rows g) <> 0) by (apply not_0_INR; lia).
  split; [exact Hpreds |]. split; [exact Hlen |]. split.
  - intros c name Hname.
    unfold calculate_regime_metrics, try_update, regime_block.
    rewrite Hpreds. unfold st_bind at 1. unfold st_lift at 1.
    unfold st_bind at 1. unfold st_assign at 1.
    unfold st_bind at 1. unfold st_assign at 1.
    unfold st_bind at 1.
    set (m0 := dict_set (dict_set [] "avg_regime_confidence" _)
                        "regime_entropy" _).
    pose proof (st_for_assign
                  (fun regime => match nth_error regime_names regime with
                                 | Some nm => Some (ratio_key nm)
                                 | None => None
                                 end)
                  (fun regime =>
                     pf_div (Fin (INR (count_of regime (map am (t2_data g)))))
                            (Fin (INR (length (map am (t2_data g))))))
                  (np_unique (map am (t2_data g))) m0) as Hfor.
    assert (Hinj : forall c1 c2 k,
              match nth_error regime_names c1 with
              | Some nm => Some (ratio_key nm) | None => None end = Some k ->
              match nth_error regime_names c2 with
              | Some nm => Some (ratio_key nm) | None => None end = Some k ->
              c1 = c2).
    { intros c1 c2 k. rewrite !ratio_key_of.
      destruct c1 as [| [| [| [| c1]]]]; destruct c2 as [| [| [| [| c2]]]];
        cbn [nth_error]; intros H1 H2; try discriminate; try reflexivity;
        rewrite <- H2 in H1; discriminate. }
    specialize (Hfor Hinj). destruct Hfor as [Hok Hget].
    assert (Hbody :
      st_for (np_unique (map am (t2_data g)))
        (fun regime =>
           match nth_error regime_names regime with
           | Some name0 =>
               st_assign (String.append "regime_" (String.append name0 "_ratio"))
                 (pf_div (Fin (INR (count_of regime (map am (t2_data g)))))
                         (Fin (INR (length (map am (t2_data g))))))
           | None => st_ret tt
           end) m0
      = st_for (np_unique (map am (t2_data g)))
          (fun c0 =>
             match
               match nth_error regime_names c0 with
               | Some nm => Some (ratio_key nm)
               | None => None
               end
             with
             | Some k =>
                 st_assign k
                   (pf_div (Fin (INR (count_of c0 (map am (t2_data g)))))
                           (Fin (INR (length (map am (t2_data g))))))
             | None => st_ret tt
             end) m0).
    { apply st_for_ext. intros a m.
      destruct (nth_error regime_names a) as [nm |]; reflexivity. }
    rewrite Hbody.
    destruct (st_for _ _ m0) as [m1 r] eqn:Efor. cbn [fst snd] in Hok, Hget.
    subst r. unfold st_ret. cbn [fst snd].
    rewrite (Hget c (ratio_key name)) by now rewrite Hname.
    rewrite existsb_unique, existsb_count, Hlen.
    destruct (0 <? count_of c (map am (t2_data g)))%nat.
    + cbn [pf_div]. now rewrite Reqb_false by exact HBr.
    + subst m0. rewrite !dict_get_set_other; [reflexivity | |];
        destruct c as [| [| [| [| c]]]]; cbn in Hname;
        try discriminate; injection Hname as <-; discriminate.
  - pose proof (counts_of_three _ Hbound) as Hsum.
    rewrite Hlen in Hsum. apply (f_equal INR) in Hsum.
    rewrite !plus_INR in Hsum.
    unfold Rdiv. rewrite <- !Rmult_plus_distr_r, Hsum.
    now apply Rinv_r.
Qed.

End RegimeRatios.

(** Three samples: two predicted bull, one sideways, none bear. *)
Lemma regime_ratios_follow_counts_witness :
  let g := T2 3 [[0.6; 0.3; 0.1]; [0.5; 0.25; 0.25]; [0.2; 0.3; 0.5]] in
  exists regime_predictions,
    argmax_rows g = Ok regime_predictions /\
    length regime_predictions = t2_rows g /\
    (forall c name, nth_error regime_names c = Some name ->
       dict_get (calculate_regime_metrics refusing_numerics g None)
                (ratio_key name)
       = if (0 <? count_of c regime_predictions)%nat
         then Some (Fin (INR (count_of c regime_predictions)
                         / INR (t2_rows g)))
         else None) /\
    INR (count_of 0 regime_predictions) / INR (t2_rows g)
    + INR (count_of 1 regime_predictions) / INR (t2_rows g)
    + INR (count_of 2 regime_predictions) / INR (t2_rows g) = 1.
Proof.
  intros g.
  apply (regime_ratios_follow_counts refusing_numerics g).
  - repeat constructor.
  - reflexivity.
  - cbn. lia.
Defined.

(** ** Saving and loading *)

Section SaveAndLoad.

Variable layer_parameters : nat -> nat -> nat -> list (string * shape).

Lemma state_key_eqb_eq (a c : state_key) :
  state_key_eqb a c = true -> a = c.
Proof.
  destruct a as [e i p | p | | i n | h i p], c as [e' i' p' | p' | | i' n' | h' i' p'];
    cbn [state_key_eqb]; intros H; try discriminate; try reflexivity.
  - apply andb_true_iff in H. destruct H as [H Hp].
    apply andb_true_iff in H. destruct H as [He Hi].
    apply Nat.eqb_eq in Hi. subst.
    destruct e, e'; try discriminate; destruct p, p'; try discriminate;
      reflexivity.
  - destruct p, p'; try discriminate; reflexivity.
  - apply andb_true_iff in H. destruct H as [Hi Hn].
    apply Nat.eqb_eq in Hi. apply String.eqb_eq in Hn. now subst.
  - apply andb_true_iff in H. destruct H as [H Hp].
    apply andb_true_iff in H. destruct H as [Hh Hi].
    apply Nat.eqb_eq in Hi. subst.
    destruct h, h'; try discriminate; destruct p, p'; try discriminate;
      reflexivity.
Qed.

Lemma state_key_eqb_refl (a : state_key) : state_key_eqb a a = true.
Proof.
  destruct a as [e i p | p | | i n | h i p]; cbn [state_key_eqb];
    rewrite ?Nat.eqb_refl, ?String.eqb_refl; try reflexivity.
  - now destruct e, p.
  - now destruct p.
  - now destruct h, p.
Qed.

Let entry_of (values : state_key -> list R) (e : tree_entry)
  : state_key * (shape * list R) :=
  (fst (fst e), (snd (fst e), values (fst (fst e)))).

Lemma sd_get_first (values : state_key -> list R) (A B : list tree_entry)
  (e : tree_entry) :
  Forall (fun a => state_key_eqb (fst (fst a)) (fst (fst e)) = false) A ->
  sd_get (map (entry_of values) (A ++ e :: B)) (fst (fst e))
  = Some (snd (fst e), values (fst (fst e))).
Proof.
  induction 1 as [| a A Ha _ IH]; cbn [app map sd_get entry_of fst snd].
  - now rewrite state_key_eqb_refl.
  - rewrite Ha. exact IH.
Qed.

Lemma sd_get_in (values : state_key -> list R) (T : list tree_entry)
  (e : tree_entry) :
  In e T ->
  exists s, sd_get (map (entry_of values) T) (fst (fst e))
            = Some (s, values (fst (fst e))).
Proof.
  induction T as [| a T IH]; intros Hin; [contradiction |].
  cbn [map sd_get entry_of fst snd].
  destruct (state_key_eqb (fst (fst a)) (fst (fst e))) eqn:E.
  - apply state_key_eqb_eq in E. rewrite E. eexists. reflexivity.
  - destruct Hin as [-> | Hin]; [now rewrite state_key_eqb_refl in E |].
    now apply IH.
Qed.

Lemma sd_get_nodup (values : state_key -> list R) (T : list tree_entry)
  (e : tree_entry) :
  NoDup (map (fun a : tree_entry => fst (fst a)) T) -> In e T ->
  sd_get (map (entry_of values) T) (fst (fst e))
  = Some (snd (fst e), values (fst (fst e))).
Proof.
  induction T as [| a T IH]; intros Hnd Hin; [contradiction |].
  cbn [map sd_get entry_of fst snd]. cbn [map] in Hnd.
  inversion Hnd as [| ? ? Hnotin Hnd']; subst.
  destruct Hin as [-> | Hin]; [now rewrite state_key_eqb_refl |].
  destruct (state_key_eqb (fst (fst a)) (fst (fst e))) eqn:E;
    [| now apply IH].
  apply state_key_eqb_eq in E. exfalso. apply Hnotin. rewrite E.
  apply in_map_iff. now exists e.
Qed.

Lemma filter_nil {X : Type} (f : X -> bool) (l : list X) :
  (forall x, In x l -> f x = false) -> filter f l = [].
Proof.
  induction l as [| x l IH]; intros H; [reflexivity |].
  cbn [filter]. rewrite (H x) by now left.
  apply IH. intros y Hy. apply H. now right.
Qed.

Lemma filter_not_nil {X : Type} (f : X -> bool) (l : list X) (x : X) :
  In x l -> f x = true -> filter f l <> [].
Proof.
  intros Hin Hf Hnil.
  assert (Hx : In x (filter f l)) by (apply filter_In; now split).
  rewrite Hnil in Hx. contradiction.
Qed.

(** Where the weight of the last layer of the risk head sits in the module
    tree. *)
Lemma risk_weight_entry (hp : hyperparameters) :
  exists A B,
    module_tree layer_parameters hp
    = A ++ (KeyHead RiskHead 3 Weight,
            [hp_num_risk_factors hp; (hp_d_model hp / 4)%nat], true) :: B /\
    Forall (fun a : tree_entry =>
              state_key_eqb (fst (fst a)) (KeyHead RiskHead 3 Weight) = false)
           A.
Proof.
  set (d := hp_d_model hp).
  set (layers :=
         flat_map (fun i =>
                     map (fun ns => (KeyLayer i (fst ns), snd ns, true))
                         (layer_parameters d (hp_nhead hp)
                            (hp_dim_feedforward hp)))
                  (seq 0 (hp_num_encoder_layers hp))).
  assert (Hlayers : Forall (fun a : tree_entry =>
                              state_key_eqb (fst (fst a))
                                (KeyHead RiskHead 3 Weight) = false) layers).
  { subst layers. apply Forall_forall. intros a Ha.
    apply in_flat_map in Ha. destruct Ha as [i [_ Ha]].
    apply in_map_iff in Ha. destruct Ha as [ns [<- _]]. reflexivity. }
  exists ((sequential_entries (KeyFeature PriceEncoder) 1 (d / 4) (d / 4)
           ++ sequential_entries (KeyFeature VolumeEncoder) 1 (d / 4) (d / 4)
           ++ sequential_entries (KeyFeature TechnicalEncoder) 20 (d / 2)
                (d / 2)
           ++ sequential_entries (KeyFeature FundamentalEncoder) 15 (d / 4)
                (d / 4)
           ++ linear_entries KeyFusion d d
           ++ [(KeyPositional, [5000; 1; d]%nat, false)])
          ++ layers
          ++ (sequential_entries (KeyHead RecommendationHead) d (d / 2)
                (hp_num_assets hp)
              ++ sequential_entries (KeyHead ConfidenceHead) d (d / 4) 1
              ++ linear_entries (KeyHead RiskHead 0) d (d / 4))).
  exists ((KeyHead RiskHead 3 Bias, [hp_num_risk_factors hp], true)
          :: sequential_entries (KeyHead RegimeHead) d (d / 4) 3).
  split.
  - clear Hlayers. subst layers d.
    unfold module_tree, sequential_entries, linear_entries. cbv zeta.
    cbn [app]. rewrite <- ?app_assoc. cbn [app]. reflexivity.
  - apply Forall_app. split; [| apply Forall_app; split; [exact Hlayers |]];
      unfold sequential_entries, linear_entries; cbn [app];
      repeat constructor.
Qed.

(** A checkpoint written by [save_model] holds the state dictionary and,
    of the constructor's arguments, only [d_model], [num_assets] and
    [sequence_length]; [load_model] constructs the model with the defaults
    for the others.  A model that was built with a number of risk factors
    other than the default 5 can therefore not be loaded back: where the
    constructor runs through, the shapes of the risk head differ and
    [load_state_dict] raises [RuntimeError]. *)
Theorem load_refuses_other_risk_factors {V : Type} (self : Model)
  (metadata : dict V) (initial_values : state_key -> list R) :
  hp_num_risk_factors (mdl_hyper self) <> 5%nat ->
  (forall r,
     load_model layer_parameters initial_values
       (save_model layer_parameters self metadata) <> Loaded r) /\
  (constructor_accepts
     (ck_model_config (save_model layer_parameters self metadata)) = true ->
   load_model layer_parameters initial_values
     (save_model layer_parameters self metadata)
   = LoadRaises RuntimeError).
Proof.
  intros Hnrf. unfold load_model, save_model.
  cbn [ck_model_config ck_model_state_dict ck_metadata].
  assert (Hload :
    load_state_dict layer_parameters
      (mkModel (construct (mkModelConfig (hp_d_model (mdl_hyper self))
                             (hp_num_assets (mdl_hyper self))
                             (hp_sequence_length (mdl_hyper self))))
               initial_values)
      (state_dict layer_parameters self) = Raise RuntimeError).
  { unfold load_state_dict. cbn [mdl_hyper].
    match goal with
    | |- match ?m with _ => _ end = _ =>
        destruct m; [| reflexivity]
    end.
    match goal with
    | |- match ?u with _ => _ end = _ =>
        destruct u; [| reflexivity]
    end.
    match goal with
    | |- match ?s with _ => _ end = _ =>
        destruct s eqn:Emis; [| reflexivity]
    end.
    exfalso. revert Emis.
    destruct (risk_weight_entry
                (construct (mkModelConfig (hp_d_model (mdl_hyper self))
                              (hp_num_assets (mdl_hyper self))
                              (hp_sequence_length (mdl_hyper self)))))
      as (A & B & Hown & _).
    destruct (risk_weight_entry (mdl_hyper self)) as (A' & B' & Hsaved & HA').
    apply filter_not_nil
      with (x := (KeyHead RiskHead 3 Weight,
                  [5%nat; (hp_d_model (mdl_hyper self) / 4)%nat], true)).
    - rewrite Hown. cbn [construct hp_num_risk_factors hp_d_model mc_d_model].
      apply in_or_app. right. now left.
    - cbn [fst snd]. unfold state_dict. rewrite Hsaved.
      pose proof (sd_get_first (mdl_values self) A' B'
                    (KeyHead RiskHead 3 Weight,
                     [hp_num_risk_factors (mdl_hyper self);
                      (hp_d_model (mdl_hyper self) / 4)%nat], true) HA')
        as Hget.
      unfold entry_of in Hget. cbn [fst snd] in Hget.
      match goal with
      | |- match ?x with _ => _ end = _ =>
          replace x
            with (Some ([hp_num_risk_factors (mdl_hyper self);
                         (hp_d_model (mdl_hyper self) / 4)%nat],
                        mdl_values self (KeyHead RiskHead 3 Weight)))
            by (symmetry; exact Hget)
      end.
      destruct (list_eq_dec Nat.eq_dec _ _) as [Heq | Hne]; [| reflexivity].
      injection Heq as Heq. contradiction. }
  cbn [mc_d_model] in *.
  destruct (constructor_accepts _); cbn [negb].
  - rewrite Hload. split; [discriminate | reflexivity].
  - split; [discriminate | discriminate].
Qed.

Lemma NoDup_append {X : Type} (l1 l2 : list X) :
  NoDup l1 -> NoDup l2 -> (forall x, In x l1 -> ~ In x l2) ->
  NoDup (l1 ++ l2).
Proof.
  intros H1 H2 Hdis. induction H1 as [| x l1 Hx _ IH]; [exact H2 |].
  cbn [app]. constructor.
  - intros Hin. apply in_app_or in Hin. destruct Hin as [Hin | Hin];
      [contradiction |]. apply (Hdis x); [now left | exact Hin].
  - apply IH. intros y Hy. apply Hdis. now right.
Qed.

Lemma layer_keys_nodup (names : list (string * shape)) (a n : nat) :
  NoDup (map fst names) ->
  NoDup (map (fun e : tree_entry => fst (fst e))
             (flat_map (fun i =>
                          map (fun ns => (KeyLayer i (fst ns), snd ns, true))
                              names)
                       (seq a n))).
Proof.
  intros Hnames. revert a. induction n as [| n IH]; intros a;
    [constructor |].
  cbn [seq flat_map]. rewrite map_app. apply NoDup_append.
  - rewrite map_map. cbn [fst].
    rewrite <- (map_map fst (KeyLayer a)).
    apply Finite.Injective_map_NoDup; [| exact Hnames].
    intros x y Hxy. now injection Hxy.
  - apply IH.
  - intros k Hk Hk'. rewrite map_map in Hk. apply in_map_iff in Hk.
    destruct Hk as [ns [<- _]]. cbn [fst] in Hk'.
    apply in_map_iff in Hk'. destruct Hk' as [e [He Hin]].
    apply in_flat_map in Hin. destruct Hin as [i [Hi Hin]].
    apply in_map_iff in Hin. destruct Hin as [ns' [<- _]].
    cbn [fst] in He. injection He as Hia _. apply in_seq in Hi. lia.
Qed.

Lemma module_tree_split (hp : hyperparameters) :
  let d := hp_d_model hp in
  module_tree layer_parameters hp
  = (sequential_entries (KeyFeature PriceEncoder) 1 (d / 4) (d / 4)
     ++ sequential_entries (KeyFeature VolumeEncoder) 1 (d / 4) (d / 4)
     ++ sequential_entries (KeyFeature TechnicalEncoder) 20 (d / 2) (d / 2)
     ++ sequential_entries (KeyFeature FundamentalEncoder) 15 (d / 4) (d / 4)
     ++ linear_entries KeyFusion d d
     ++ [(KeyPositional, [5000; 1; d]%nat, false)])
    ++ flat_map (fun i =>
                   map (fun ns => (KeyLayer i (fst ns), snd ns, true))
                       (layer_parameters d (hp_nhead hp)
                          (hp_dim_feedforward hp)))
                (seq 0 (hp_num_encoder_layers hp))
    ++ (sequential_entries (KeyHead RecommendationHead) d (d / 2)
          (hp_num_assets hp)
        ++ sequential_entries (KeyHead ConfidenceHead) d (d / 4) 1
        ++ sequential_entries (KeyHead RiskHead) d (d / 4)
             (hp_num_risk_factors hp)
        ++ sequential_entries (KeyHead RegimeHead) d (d / 4) 3).
Proof.
  intros d. subst d.
  unfold module_tree, sequential_entries, linear_entries. cbv zeta.
  cbn [app]. reflexivity.
Qed.

Lemma module_tree_keys_nodup (hp : hyperparameters) :
  NoDup (map fst (layer_parameters (hp_d_model hp) (hp_nhead hp)
                    (hp_dim_feedforward hp))) ->
  NoDup (map (fun e : tree_entry => fst (fst e))
             (module_tree layer_parameters hp)).
Proof.
  intros Hnames. rewrite module_tree_split. cbv zeta.
  set (layers := flat_map _ _).
  assert (Hlayers : NoDup (map (fun e : tree_entry => fst (fst e)) layers))
    by (subst layers; now apply layer_keys_nodup).
  assert (Hkind : forall k,
            In k (map (fun e : tree_entry => fst (fst e)) layers) ->
            exists i name, k = KeyLayer i name).
  { subst layers. intros k Hk. apply in_map_iff in Hk.
    destruct Hk as [e [<- Hin]]. apply in_flat_map in Hin.
    destruct Hin as [i [_ Hin]]. apply in_map_iff in Hin.
    destruct Hin as [ns [<- _]]. now exists i, (fst ns). }
  clearbody layers.
  rewrite (map_app _ _ (layers ++ _)), (map_app _ layers).
  apply NoDup_append.
  - unfold sequential_entries, linear_entries. cbn [map app fst snd].
    repeat (constructor; [cbn [In]; intuition discriminate |]).
    constructor.
  - apply NoDup_append; [exact Hlayers | |].
    + unfold sequential_entries, linear_entries. cbn [map app fst snd].
      repeat (constructor; [cbn [In]; intuition discriminate |]).
      constructor.
    + intros k Hk Hk'. destruct (Hkind k Hk) as (i & name & ->).
      unfold sequential_entries, linear_entries in Hk'.
      cbn [map app fst snd In] in Hk'. intuition discriminate.
  - intros k Hk Hk'. apply in_app_or in Hk'.
    unfold sequential_entries, linear_entries in Hk, Hk'.
    destruct Hk' as [Hk' | Hk'].
    + destruct (Hkind k Hk') as (i & name & ->).
      cbn [map app fst snd In] in Hk. intuition discriminate.
    + cbn [map app fst snd In] in Hk, Hk'.
      intuition (subst; discriminate).
Qed.

(** A model that was built with the constructor's defaults for [nhead],
    the number of layers, [dim_feedforward] and the number of risk factors
    and whose [d_model] is a positive multiple of 8 is loaded back from
    its checkpoint with its state dictionary and the metadata as they were
    saved.  The dropout rate is not part of the
    checkpoint: the loaded model has the default 0.1, whatever the rate of
    the saved one. *)
Theorem load_restores_default_model {V : Type} (self : Model)
  (metadata : dict V) (initial_values : state_key -> list R) :
  NoDup (map fst (layer_parameters (hp_d_model (mdl_hyper self)) 8 2048)) ->
  hp_nhead (mdl_hyper self) = 8%nat ->
  hp_num_encoder_layers (mdl_hyper self) = 6%nat ->
  hp_dim_feedforward (mdl_hyper self) = 2048%nat ->
  hp_num_risk_factors (mdl_hyper self) = 5%nat ->
  (0 < hp_d_model (mdl_hyper self))%nat ->
  (hp_d_model (mdl_hyper self) mod 8 = 0)%nat ->
  exists model,
    load_model layer_parameters initial_values
      (save_model layer_parameters self metadata)
    = Loaded (model, metadata) /\
    state_dict layer_parameters model = state_dict layer_parameters self /\
    hp_dropout (mdl_hyper model) = 0.1 /\
    get_model_size layer_parameters model
    = get_model_size layer_parameters self.
Proof.
  intros Hnames Hh Hl Hf Hr Hpos Hdiv.
  set (hp' := construct (mkModelConfig (hp_d_model (mdl_hyper self))
                           (hp_num_assets (mdl_hyper self))
                           (hp_sequence_length (mdl_hyper self)))).
  assert (Htree : module_tree layer_parameters hp'
                  = module_tree layer_parameters (mdl_hyper self)).
  { subst hp'. unfold module_tree.
    cbn [construct hp_d_model hp_nhead hp_num_encoder_layers
         hp_dim_feedforward hp_num_assets hp_num_risk_factors mc_d_model
         mc_num_assets mc_sequence_length].
    now rewrite Hh, Hl, Hf, Hr. }
  assert (Hnd : NoDup (map (fun e : tree_entry => fst (fst e))
                           (module_tree layer_parameters (mdl_hyper self)))).
  { apply module_tree_keys_nodup. now rewrite Hh, Hf. }
  unfold load_model, save_model.
  cbn [ck_model_config ck_model_state_dict ck_metadata].
  unfold constructor_accepts. cbn [mc_d_model].
  rewrite (proj2 (Nat.ltb_lt _ _) Hpos), Hdiv. cbn [andb negb Nat.eqb].
  fold hp'. unfold load_state_dict. cbn [mdl_hyper mdl_values].
  rewrite Htree. unfold state_dict at 1 2 3.
  rewrite (filter_nil _ (module_tree layer_parameters (mdl_hyper self))).
  2:{ intros e He.
      destruct (sd_get_in (mdl_values self) _ e He) as [s Hs].
      unfold entry_of in Hs. now rewrite Hs. }
  rewrite (filter_nil _ (map _ (module_tree layer_parameters (mdl_hyper self)))).
  2:{ intros kv Hkv. apply in_map_iff in Hkv. destruct Hkv as [e [<- He]].
      cbn [fst]. apply negb_false_iff. apply existsb_exists.
      exists e. split; [exact He | apply state_key_eqb_refl]. }
  rewrite (filter_nil _ (module_tree layer_parameters (mdl_hyper self))).
  2:{ intros e He.
      pose proof (sd_get_nodup (mdl_values self) _ e Hnd He) as Hs.
      unfold entry_of in Hs. rewrite Hs.
      destruct (list_eq_dec Nat.eq_dec (snd (fst e)) (snd (fst e)));
        [reflexivity | congruence]. }
  eexists. split; [reflexivity |].
  split; [| split].
  - unfold state_dict. cbn [mdl_hyper mdl_values]. rewrite Htree.
    apply map_ext_in. intros e He.
    destruct (sd_get_in (mdl_values self) _ e He) as [s Hs].
    unfold entry_of in Hs. now rewrite Hs.
  - reflexivity.
  - unfold get_model_size, parameter_shapes. cbn [mdl_hyper].
    now rewrite Htree.
Qed.

End SaveAndLoad.

(** A model with three risk factors, as in the example of the Lightning
    module, and the layer parameters of torch. *)
Lemma load_refuses_other_risk_factors_witness :
  let self := mkModel (mkHyper 256 8 4 2048 0.1 50 30 3) (fun _ => []) in
  load_model torch_layer_parameters (fun _ => [])
    (save_model torch_layer_parameters self
       [("epoch"%string, 3%nat)])
  = LoadRaises RuntimeError.
Proof.
  intros self.
  apply (load_refuses_other_risk_factors torch_layer_parameters self).
  - cbn. lia.
  - reflexivity.
Defined.

(** A model built with the defaults but a dropout rate of 0.3. *)
Lemma load_restores_default_model_witness :
  let self := mkModel (mkHyper 512 8 6 2048 0.3 1000 60 5) (fun _ => [1]) in
  exists model,
    load_model torch_layer_parameters (fun _ => [])
      (save_model torch_layer_parameters self [("epoch"%string, 3%nat)])
    = Loaded (model, [("epoch"%string, 3%nat)]) /\
    state_dict torch_layer_parameters model
    = state_dict torch_layer_parameters self /\
    hp_dropout (mdl_hyper model) = 0.1 /\
    get_model_size torch_layer_parameters model
    = get_model_size torch_layer_parameters self.
Proof.
  intros self.
  apply (load_restores_default_model torch_layer_parameters self).
  - unfold torch_layer_parameters. cbn [map fst].
    repeat (constructor; [cbn [In]; intuition discriminate |]).
    constructor.
  - reflexivity.
  - reflexivity.
  - reflexivity.
  - reflexivity.
  - cbn. lia.
  - reflexivity.
Defined.
